(** * Meeting lifecycle orchestration and conversation coordination

    A shallow embedding of
    [meeting_engine/conversation_manager.py] (class [ConversationManager]) and
    [meeting_engine/audio_meeting_orchestrator.py]
    (class [AudioAwareMeetingOrchestrator]), with the properties the
    specification states about them, and of the two managers the
    orchestrator awaits, [meeting_platforms/platform_manager.py]
    (class [MeetingPlatformManager]) and
    [speech_processing/speech_manager.py]
    (class [SpeechProcessingManager]), with further properties of the four
    classes.

    Conventions of the embedding.
    - Python [str] is [string]; texts are taken to be ASCII, so that
      [str.lower] only moves the letters [A]-[Z].
    - A Python [dict] is an insertion-ordered association list ([PyDict]):
      [len], iteration order and "first minimal/maximal item" are the ones
      Python gives.
    - [datetime] is the number of microseconds since [datetime.min]
      (0001-01-01 00:00:00), so that [datetime.min] is [0]; every
      [datetime.now()] of a call is an explicit clock reading, numbered in
      program order.
    - Python [float] is IEEE binary64 ([PrimFloat]).
    - Collaborators (platform manager, speech manager, agents, post-meeting
      handler) are oracles passed to the operation that awaits them; the
      platform and the speech manager are also modelled on their own, over
      oracles for their integrations.
    - [asyncio.create_task] records the spawned task in the trace; a
      coroutine that is awaited runs to completion at the [await], so the
      interleaving of other tasks at suspension points is not modelled. *)

From Stdlib Require Import Bool List Arith ZArith Lia String Ascii.
From Stdlib Require Import DecimalString PrimFloat Uint63.
Import ListNotations.

Set Warnings "-inexact-float".

Open Scope string_scope.

(** ** Python string primitives *)

Module PyStr.

(** [c.lower()] on an ASCII character. *)
Definition lower_ascii (c : ascii) : ascii :=
  let n := nat_of_ascii c in
  if ((65 <=? n) && (n <=? 90))%nat then ascii_of_nat (n + 32) else c.

(** [s.lower()] *)
Fixpoint lower (s : string) : string :=
  match s with
  | EmptyString => EmptyString
  | String c s' => String (lower_ascii c) (lower s')
  end.

(** [s.startswith(p)] *)
Fixpoint startswith (s p : string) {struct p} : bool :=
  match p, s with
  | EmptyString, _ => true
  | String _ _, EmptyString => false
  | String a p', String b s' => Ascii.eqb a b && startswith s' p'
  end.

(** [needle in hay] *)
Fixpoint contains (needle hay : string) : bool :=
  startswith hay needle ||
  match hay with
  | EmptyString => false
  | String _ hay' => contains needle hay'
  end.

(** [c.isspace()] on an ASCII character: tab, line feed, vertical tab, form
    feed, carriage return, the four separators 0x1c-0x1f and the space. *)
Definition isspace (c : ascii) : bool :=
  let n := nat_of_ascii c in
  (((9 <=? n) && (n <=? 13)) || ((28 <=? n) && (n <=? 31)) || (n =? 32))%nat.

(** [s.lstrip()] *)
Fixpoint lstrip (s : string) : string :=
  match s with
  | EmptyString => EmptyString
  | String c s' => if isspace c then lstrip s' else s
  end.

(** [s.rstrip()] *)
Fixpoint rstrip (s : string) : string :=
  match s with
  | EmptyString => EmptyString
  | String c s' =>
      match rstrip s' with
      | EmptyString => if isspace c then EmptyString else String c EmptyString
      | r => String c r
      end
  end.

(** [s.strip()] *)
Definition strip (s : string) : string := rstrip (lstrip s).

(** [s.endswith(suffix)] *)
Fixpoint endswith (s suffix : string) : bool :=
  String.eqb s suffix ||
  match s with
  | EmptyString => false
  | String _ s' => endswith s' suffix
  end.

(** Truthiness of a string: [bool(s)]. *)
Definition truthy (s : string) : bool := negb (String.eqb s "").

(** Every character of [s] is white space. *)
Fixpoint all_space (s : string) : bool :=
  match s with
  | EmptyString => true
  | String c s' => isspace c && all_space s'
  end.

(** [s.split()]: the maximal runs of characters that are not white space.
    [cur] is the word being read, in reverse. *)
Fixpoint split_aux (s : string) (cur : list ascii) : list string :=
  let flush := match cur with
               | [] => []
               | _ => [string_of_list_ascii (rev cur)]
               end in
  match s with
  | EmptyString => flush
  | String c s' =>
      if isspace c then flush ++ split_aux s' []
      else split_aux s' (c :: cur)
  end.

Definition split (s : string) : list string := split_aux s [].

(** [sep.join(xs)] *)
Fixpoint join (sep : string) (xs : list string) : string :=
  match xs with
  | [] => ""
  | [x] => x
  | x :: rest => x ++ sep ++ join sep rest
  end.

(** What the specification calls an occurrence: [needle] is a contiguous
    part of [hay]. *)
Definition occurs_in (needle hay : string) : Prop :=
  exists pre post, hay = pre ++ needle ++ post.

(** A case-insensitive occurrence: some contiguous part of [hay] is
    [needle] up to the case of its letters. *)
Definition occurs_ci (needle hay : string) : Prop :=
  exists pre mid post, hay = pre ++ mid ++ post /\ lower mid = lower needle.

(** The text, trimmed of surrounding white space, ends with the character
    [c]: the last character that is not white space is [c]. *)
Definition trimmed_ends_with (c : ascii) (s : string) : Prop :=
  exists body ws, s = body ++ String c ws /\ all_space ws = true.

End PyStr.

(** ** Python built-ins on sequences *)

Module Py.

Inductive PyExc : Type :=
| IndexError | KeyError | ValueError | ZeroDivisionError | ValidationError.

Inductive outcome (A : Type) : Type :=
| Returns (a : A)
| Raises (e : PyExc).
Arguments Returns {A} a.
Arguments Raises {A} e.

(** [min(x :: xs, key=key)]: the first item whose key is minimal. *)
Fixpoint min_from {A : Type} (key : A -> Z) (best : A) (xs : list A) : A :=
  match xs with
  | [] => best
  | y :: ys => min_from key (if (key y <? key best)%Z then y else best) ys
  end.

Definition min_by {A : Type} (key : A -> Z) (xs : list A) : option A :=
  match xs with
  | [] => None
  | x :: xs' => Some (min_from key x xs')
  end.

(** [max(x :: xs, key=key)]: the first item whose key is maximal. *)
Fixpoint max_from {A : Type} (key : A -> Z) (best : A) (xs : list A) : A :=
  match xs with
  | [] => best
  | y :: ys => max_from key (if (key best <? key y)%Z then y else best) ys
  end.

Definition max_by {A : Type} (key : A -> Z) (xs : list A) : option A :=
  match xs with
  | [] => None
  | x :: xs' => Some (max_from key x xs')
  end.

(** [xs.index(x)] *)
Fixpoint index (x : string) (xs : list string) : option nat :=
  match xs with
  | [] => None
  | y :: ys => if String.eqb y x then Some 0%nat else option_map S (index x ys)
  end.

(** [xs[-1] if xs else None] *)
Fixpoint last_error {A : Type} (xs : list A) : option A :=
  match xs with
  | [] => None
  | [x] => Some x
  | _ :: xs' => last_error xs'
  end.

(** [x in xs] *)
Definition mem (x : string) (xs : list string) : bool :=
  existsb (String.eqb x) xs.

(** [float(z)] for an integer. *)
Definition float_of_Z (z : Z) : float :=
  if (z <? 0)%Z then PrimFloat.opp (PrimFloat.of_uint63 (Uint63.of_Z (- z)))
  else PrimFloat.of_uint63 (Uint63.of_Z z).

Definition float_of_nat (n : nat) : float := float_of_Z (Z.of_nat n).

End Py.

(** ** Python dictionaries, in insertion order *)

Module PyDict.

Definition t (V : Type) : Type := list (string * V).

(** [d.get(k)] *)
Fixpoint get {V : Type} (d : t V) (k : string) : option V :=
  match d with
  | [] => None
  | (k', v) :: d' => if String.eqb k' k then Some v else get d' k
  end.

(** [d.get(k, default)] *)
Definition get_default {V : Type} (d : t V) (k : string) (default : V) : V :=
  match get d k with
  | Some v => v
  | None => default
  end.

(** [k in d] *)
Definition mem {V : Type} (d : t V) (k : string) : bool :=
  match get d k with
  | Some _ => true
  | None => false
  end.

(** [d[k] = v]: an existing key keeps its position, a new key goes last. *)
Fixpoint set {V : Type} (d : t V) (k : string) (v : V) : t V :=
  match d with
  | [] => [(k, v)]
  | (k', v') :: d' =>
      if String.eqb k' k then (k', v) :: d' else (k', v') :: set d' k v
  end.

(** [list(d.keys())], [list(d.values())], [len(d)] *)
Definition keys {V : Type} (d : t V) : list string := map fst d.
Definition values {V : Type} (d : t V) : list V := map snd d.
Definition len {V : Type} (d : t V) : Z := Z.of_nat (List.length d).

(** [{k: f(k) for k in ks}] *)
Definition from_keys {V : Type} (f : string -> V) (ks : list string) : t V :=
  fold_left (fun d k => set d k (f k)) ks [].

End PyDict.

(** ** [datetime] *)

Module Datetime.

(** Microseconds since [datetime.min]. *)
Definition datetime : Type := Z.
Definition timedelta : Type := Z.

Definition datetime_min : datetime := 0%Z.
Definition minutes (n : Z) : timedelta := (n * 60 * 1000000)%Z.

(** [td.total_seconds()] *)
Definition total_seconds (td : timedelta) : float :=
  PrimFloat.div (Py.float_of_Z td) (Py.float_of_Z 1000000).

(** The date of the proleptic Gregorian calendar that lies [days] days
    after 0001-01-01, as (year, month, day). *)
Definition civil_from_days (days : Z) : Z * Z * Z :=
  let z := (days + 306)%Z in
  let era := (z / 146097)%Z in
  let doe := (z mod 146097)%Z in
  let yoe := ((doe - doe / 1460 + doe / 36524 - doe / 146096) / 365)%Z in
  let doy := (doe - (365 * yoe + yoe / 4 - yoe / 100))%Z in
  let mp := ((5 * doy + 2) / 153)%Z in
  let d := (doy - (153 * mp + 2) / 5 + 1)%Z in
  let m := if (mp <? 10)%Z then (mp + 3)%Z else (mp - 9)%Z in
  let y := (yoe + era * 400 + (if (m <=? 2)%Z then 1 else 0))%Z in
  (y, m, d).

Definition decimal (n : Z) : string := NilZero.string_of_uint (N.to_uint (Z.to_N n)).

(** A field printed on two digits. *)
Definition two_digits (n : Z) : string :=
  decimal ((n / 10) mod 10) ++ decimal (n mod 10).

(** [t.strftime('%Y%m%d_%H%M%S')]; the year is printed as glibc prints it,
    without padding (four digits from the year 1000 on). *)
Definition strftime_Ymd_HMS (t : datetime) : string :=
  let secs := (t / 1000000)%Z in
  let '(y, m, d) := civil_from_days (secs / 86400) in
  let sod := (secs mod 86400)%Z in
  decimal y ++ two_digits m ++ two_digits d ++ "_" ++
  two_digits (sod / 3600) ++ two_digits ((sod mod 3600) / 60) ++
  two_digits (sod mod 60).

End Datetime.

(** ** A state monad with Python exceptions

    A computation runs on a state [S]; what it changed before raising stays
    changed, as in Python. *)

Module PyM.
Import Py.

Definition M (S A : Type) : Type := S -> outcome A * S.

Definition ret {S A : Type} (a : A) : M S A := fun s => (Returns a, s).

Definition raise {S A : Type} (e : PyExc) : M S A := fun s => (Raises e, s).

Definition bind {S A B : Type} (m : M S A) (k : A -> M S B) : M S B :=
  fun s =>
    match m s with
    | (Returns a, s') => k a s'
    | (Raises e, s') => (Raises e, s')
    end.

Definition get {S : Type} : M S S := fun s => (Returns s, s).

Definition gets {S A : Type} (f : S -> A) : M S A := fun s => (Returns (f s), s).

Definition modify {S : Type} (f : S -> S) : M S unit := fun s => (Returns tt, f s).

(** [try: body except Exception: handler] *)
Definition try_except {S A : Type} (body : M S A) (handler : PyExc -> M S A)
  : M S A :=
  fun s =>
    match body s with
    | (Returns a, s') => (Returns a, s')
    | (Raises e, s') => handler e s'
    end.

(** A value that may be missing, or the exception its absence raises. *)
Definition expect {S A : Type} (e : PyExc) (o : option A) : M S A :=
  match o with
  | Some a => ret a
  | None => raise e
  end.

(** [for x in xs: body(x)] *)
Fixpoint for_each {S A : Type} (xs : list A) (body : A -> M S unit) : M S unit :=
  match xs with
  | [] => ret tt
  | x :: xs' => bind (body x) (fun _ => for_each xs' body)
  end.

(** [[body(x) for x in xs]] *)
Fixpoint map_m {S A B : Type} (xs : list A) (body : A -> M S B) : M S (list B) :=
  match xs with
  | [] => ret []
  | x :: xs' =>
      bind (body x) (fun b => bind (map_m xs' body) (fun bs => ret (b :: bs)))
  end.

Definition when {S : Type} (b : bool) (m : M S unit) : M S unit :=
  if b then m else ret tt.

Declare Scope pym_scope.
Delimit Scope pym_scope with pym.
Notation "x <- m ;; k" := (bind m (fun x => k))
  (at level 61, m at next level, right associativity) : pym_scope.
Notation "m ;; k" := (bind m (fun _ => k))
  (at level 61, right associativity) : pym_scope.

End PyM.

(** ** Messages and meeting contexts ([agents/base_agent.py]) *)

Module Agents.
Import Py Datetime.

Inductive MessageType : Type :=
| STATUS_UPDATE | QUESTION | ANSWER | BLOCKER | ACTION_ITEM | GENERAL.

(** [list(MessageType)]; [len(MessageType)] is its length. *)
Definition MessageType_members : list MessageType :=
  [STATUS_UPDATE; QUESTION; ANSWER; BLOCKER; ACTION_ITEM; GENERAL].

(** [t.value] *)
Definition MessageType_value (t : MessageType) : string :=
  match t with
  | STATUS_UPDATE => "status_update"
  | QUESTION => "question"
  | ANSWER => "answer"
  | BLOCKER => "blocker"
  | ACTION_ITEM => "action_item"
  | GENERAL => "general"
  end.

Definition MessageType_eqb (a b : MessageType) : bool :=
  String.eqb (MessageType_value a) (MessageType_value b).

Record MeetingMessage : Type := {
  msg_speaker : string;
  msg_content : string;
  msg_message_type : MessageType;
  msg_timestamp : datetime;
  msg_context_used : option (list string);
  msg_confidence : float
}.

Record MeetingContext : Type := {
  ctx_meeting_id : string;
  ctx_title : string;
  ctx_participants : list string;
  ctx_agenda : option string;
  ctx_start_time : datetime;
  ctx_duration_minutes : Z;
  ctx_meeting_type : string
}.

(** [MeetingContext(meeting_id=..., title=..., participants=...,
    start_time=..., agenda=..., meeting_type=..., duration_minutes=...)].
    The class is a pydantic model and [duration_minutes: int] has no
    default: a call that leaves it out raises a validation error. *)
Definition MeetingContext_new (meeting_id title : string)
  (participants : list string) (start_time : datetime) (agenda : option string)
  (meeting_type : string) (duration_minutes : option Z)
  : outcome MeetingContext :=
  match duration_minutes with
  | Some d =>
      Returns {| ctx_meeting_id := meeting_id; ctx_title := title;
                 ctx_participants := participants; ctx_agenda := agenda;
                 ctx_start_time := start_time; ctx_duration_minutes := d;
                 ctx_meeting_type := meeting_type |}
  | None => Raises ValidationError
  end.

End Agents.

(** ** [ConversationManager] ([meeting_engine/conversation_manager.py]) *)

Module CM.
Import Py PyStr PyM Datetime Agents.
Local Open Scope pym_scope.

Inductive ConversationState : Type :=
| IDLE | ACTIVE | WAITING_FOR_RESPONSE | PAUSED.

Inductive TurnTakingStrategy : Type :=
| ROUND_ROBIN | PRIORITY_BASED | NATURAL_FLOW | FACILITATOR_CONTROLLED.

Record ConversationManager : Type := {
  strategy : TurnTakingStrategy;
  state : ConversationState;
  current_speaker : option string;
  speaking_queue : list string;
  conversation_history : list MeetingMessage;
  participants : list string;
  facilitator : option string;
  max_response_time : Z;
  max_consecutive_turns : Z;
  turn_counts : PyDict.t Z;
  last_speaker_time : PyDict.t datetime
}.

(** [ConversationManager(strategy)] *)
Definition new (strategy : TurnTakingStrategy) : ConversationManager :=
  {| strategy := strategy; state := IDLE; current_speaker := None;
     speaking_queue := []; conversation_history := []; participants := [];
     facilitator := None; max_response_time := 30;
     max_consecutive_turns := 3; turn_counts := []; last_speaker_time := [] |}.

(** Assignments to one attribute of [self]. *)
Definition set_state (v : ConversationState) (c : ConversationManager) :=
  {| strategy := strategy c; state := v; current_speaker := current_speaker c;
     speaking_queue := speaking_queue c;
     conversation_history := conversation_history c;
     participants := participants c; facilitator := facilitator c;
     max_response_time := max_response_time c;
     max_consecutive_turns := max_consecutive_turns c;
     turn_counts := turn_counts c; last_speaker_time := last_speaker_time c |}.

Definition set_current_speaker (v : option string) (c : ConversationManager) :=
  {| strategy := strategy c; state := state c; current_speaker := v;
     speaking_queue := speaking_queue c;
     conversation_history := conversation_history c;
     participants := participants c; facilitator := facilitator c;
     max_response_time := max_response_time c;
     max_consecutive_turns := max_consecutive_turns c;
     turn_counts := turn_counts c; last_speaker_time := last_speaker_time c |}.

Definition set_speaking_queue (v : list string) (c : ConversationManager) :=
  {| strategy := strategy c; state := state c;
     current_speaker := current_speaker c; speaking_queue := v;
     conversation_history := conversation_history c;
     participants := participants c; facilitator := facilitator c;
     max_response_time := max_response_time c;
     max_consecutive_turns := max_consecutive_turns c;
     turn_counts := turn_counts c; last_speaker_time := last_speaker_time c |}.

Definition set_conversation_history (v : list MeetingMessage)
  (c : ConversationManager) :=
  {| strategy := strategy c; state := state c;
     current_speaker := current_speaker c; speaking_queue := speaking_queue c;
     conversation_history := v;
     participants := participants c; facilitator := facilitator c;
     max_response_time := max_response_time c;
     max_consecutive_turns := max_consecutive_turns c;
     turn_counts := turn_counts c; last_speaker_time := last_speaker_time c |}.

Definition set_participants (v : list string) (c : ConversationManager) :=
  {| strategy := strategy c; state := state c;
     current_speaker := current_speaker c; speaking_queue := speaking_queue c;
     conversation_history := conversation_history c;
     participants := v; facilitator := facilitator c;
     max_response_time := max_response_time c;
     max_consecutive_turns := max_consecutive_turns c;
     turn_counts := turn_counts c; last_speaker_time := last_speaker_time c |}.

Definition set_facilitator (v : option string) (c : ConversationManager) :=
  {| strategy := strategy c; state := state c;
     current_speaker := current_speaker c; speaking_queue := speaking_queue c;
     conversation_history := conversation_history c;
     participants := participants c; facilitator := v;
     max_response_time := max_response_time c;
     max_consecutive_turns := max_consecutive_turns c;
     turn_counts := turn_counts c; last_speaker_time := last_speaker_time c |}.

Definition set_max_consecutive_turns (v : Z) (c : ConversationManager) :=
  {| strategy := strategy c; state := state c;
     current_speaker := current_speaker c; speaking_queue := speaking_queue c;
     conversation_history := conversation_history c;
     participants := participants c; facilitator := facilitator c;
     max_response_time := max_response_time c;
     max_consecutive_turns := v;
     turn_counts := turn_counts c; last_speaker_time := last_speaker_time c |}.

Definition set_turn_counts (v : PyDict.t Z) (c : ConversationManager) :=
  {| strategy := strategy c; state := state c;
     current_speaker := current_speaker c; speaking_queue := speaking_queue c;
     conversation_history := conversation_history c;
     participants := participants c; facilitator := facilitator c;
     max_response_time := max_response_time c;
     max_consecutive_turns := max_consecutive_turns c;
     turn_counts := v; last_speaker_time := last_speaker_time c |}.

Definition set_last_speaker_time (v : PyDict.t datetime)
  (c : ConversationManager) :=
  {| strategy := strategy c; state := state c;
     current_speaker := current_speaker c; speaking_queue := speaking_queue c;
     conversation_history := conversation_history c;
     participants := participants c; facilitator := facilitator c;
     max_response_time := max_response_time c;
     max_consecutive_turns := max_consecutive_turns c;
     turn_counts := turn_counts c; last_speaker_time := v |}.

(** [self.speaking_queue.append(p)] *)
Definition enqueue (p : string) : M ConversationManager unit :=
  modify (fun c => set_speaking_queue (speaking_queue c ++ [p]) c).

(** The clock readings of one call: [clock k] is what the [k]-th
    [datetime.now()] of the call returns. *)
Definition Clock : Type := nat -> datetime.

(** [initialize_conversation(participants, facilitator=None)] *)
Definition initialize_conversation (ps : list string)
  (fac : option string) : M ConversationManager unit :=
  modify (set_participants ps) ;;
  f <- match fac with
       | Some f => if truthy f then ret f else expect IndexError (hd_error ps)
       | None => expect IndexError (hd_error ps)
       end ;;
  modify (set_facilitator (Some f)) ;;
  modify (set_speaking_queue []) ;;
  modify (set_turn_counts (PyDict.from_keys (fun _ => 0%Z) ps)) ;;
  modify (set_last_speaker_time []) ;;
  modify (set_state IDLE).

(** [_add_message(speaker, content, message_type)]: [t_msg] and [t_seen] are
    its two clock readings. *)
Definition _add_message (speaker content : string) (message_type : MessageType)
  (t_msg t_seen : datetime) : M ConversationManager unit :=
  let message := {| msg_speaker := speaker; msg_content := content;
                    msg_message_type := message_type; msg_timestamp := t_msg;
                    msg_context_used := None; msg_confidence := 1.0%float |} in
  modify (fun c => set_conversation_history (conversation_history c ++ [message]) c) ;;
  modify (set_current_speaker (Some speaker)) ;;
  modify (fun c =>
    set_turn_counts
      (PyDict.set (turn_counts c) speaker
         (PyDict.get_default (turn_counts c) speaker 0 + 1)%Z) c) ;;
  modify (fun c =>
    set_last_speaker_time (PyDict.set (last_speaker_time c) speaker t_seen) c).

(** [start_conversation(opening_message=None)] *)
Definition start_conversation (opening_message : option string) (clock : Clock)
  : M ConversationManager unit :=
  modify (set_state ACTIVE) ;;
  c <- get ;;
  match opening_message, facilitator c with
  | Some opening, Some fac =>
      when (truthy opening && truthy fac)
        (_add_message fac opening GENERAL (clock 0%nat) (clock 1%nat))
  | _, _ => ret tt
  end.

(** [_handle_round_robin(current_speaker)] *)
Definition _handle_round_robin (current_speaker : string)
  : M ConversationManager unit :=
  c <- get ;;
  current_index <- expect ValueError (index current_speaker (participants c)) ;;
  let next_index := ((current_index + 1) mod List.length (participants c))%nat in
  next_speaker <- expect IndexError (nth_error (participants c) next_index) ;;
  when (negb (String.eqb next_speaker current_speaker)) (enqueue next_speaker).

(** [_handle_priority_based(current_speaker)] *)
Definition _handle_priority_based (current_speaker : string)
  : M ConversationManager unit :=
  c <- get ;;
  least_spoken <- expect ValueError (min_by snd (turn_counts c)) ;;
  if String.eqb (fst least_spoken) current_speaker then ret tt
  else
    count <- expect KeyError (PyDict.get (turn_counts c) current_speaker) ;;
    when (snd least_spoken <? count)%Z (enqueue (fst least_spoken)).

Definition response_indicators : list string :=
  [ "?"; "question"; "what do you think"; "thoughts"; "opinion";
    "agree"; "disagree"; "feedback"; "input"; "comment" ].

(** [_message_requires_response(message)] *)
Definition _message_requires_response (message : MeetingMessage) : bool :=
  let content_lower := lower (msg_content message) in
  existsb (fun indicator => contains indicator content_lower) response_indicators.

(** [_find_appropriate_responder(message)]; [t_now] is its clock reading. *)
Definition _find_appropriate_responder (c : ConversationManager)
  (message : MeetingMessage) (t_now : datetime) : option string :=
  let content_lower := lower (msg_content message) in
  match find (fun p => contains (lower p) content_lower) (participants c) with
  | Some p => Some p
  | None =>
      if MessageType_eqb (msg_message_type message) QUESTION then
        let recent_speakers :=
          filter (fun p =>
                    (t_now - minutes 2 <?
                     PyDict.get_default (last_speaker_time c) p datetime_min)%Z)
                 (participants c) in
        let non_recent_speakers :=
          filter (fun p => negb (mem p recent_speakers) &&
                           negb (String.eqb p (msg_speaker message)))
                 (participants c) in
        hd_error non_recent_speakers
      else None
  end.

(** [_handle_natural_flow(current_speaker)] *)
Definition _handle_natural_flow (current_speaker : string) (t_now : datetime)
  : M ConversationManager unit :=
  c <- get ;;
  match last_error (conversation_history c) with
  | None => ret tt
  | Some last_message =>
      when (_message_requires_response last_message)
        (match _find_appropriate_responder c last_message t_now with
         | Some responder =>
             when (truthy responder && negb (String.eqb responder current_speaker))
               (enqueue responder)
         | None => ret tt
         end) ;;
      c <- get ;;
      count <- expect KeyError (PyDict.get (turn_counts c) current_speaker) ;;
      when (max_consecutive_turns c <=? count)%Z
        (let other_participants :=
           filter (fun p => negb (String.eqb p current_speaker)) (participants c) in
         match min_by (fun p => PyDict.get_default (last_speaker_time c) p datetime_min)
                      other_participants with
         | Some least_recent => enqueue least_recent
         | None => ret tt
         end)
  end.

(** [_message_mentions_participant(message)] *)
Definition _message_mentions_participant (c : ConversationManager)
  (message : MeetingMessage) : bool :=
  let content_lower := lower (msg_content message) in
  existsb (fun p => contains (lower p) content_lower) (participants c).

(** [_extract_mentioned_participant(message)] *)
Definition _extract_mentioned_participant (c : ConversationManager)
  (message : MeetingMessage) : option string :=
  let content_lower := lower (msg_content message) in
  find (fun p => contains (lower p) content_lower) (participants c).

(** [_handle_facilitator_controlled(current_speaker)] *)
Definition _handle_facilitator_controlled (current_speaker : string)
  : M ConversationManager unit :=
  c <- get ;;
  match facilitator c with
  | Some fac =>
      when (String.eqb current_speaker fac)
        (match last_error (conversation_history c) with
         | Some last_message =>
             when (_message_mentions_participant c last_message)
               (match _extract_mentioned_participant c last_message with
                | Some mentioned => when (truthy mentioned) (enqueue mentioned)
                | None => ret tt
                end)
         | None => ret tt
         end)
  | None => ret tt
  end.

(** [_process_turn_taking(current_speaker)] *)
Definition _process_turn_taking (current_speaker : string) (t_now : datetime)
  : M ConversationManager unit :=
  c <- get ;;
  match strategy c with
  | ROUND_ROBIN => _handle_round_robin current_speaker
  | PRIORITY_BASED => _handle_priority_based current_speaker
  | NATURAL_FLOW => _handle_natural_flow current_speaker t_now
  | FACILITATOR_CONTROLLED => _handle_facilitator_controlled current_speaker
  end.

(** [add_message(speaker, content, message_type=MessageType.GENERAL)] *)
Definition add_message (speaker content : string) (message_type : MessageType)
  (clock : Clock) : M ConversationManager unit :=
  c <- get ;;
  if negb (mem speaker (participants c)) then ret tt
  else
    _add_message speaker content message_type (clock 0%nat) (clock 1%nat) ;;
    _process_turn_taking speaker (clock 2%nat).

(** [get_next_speaker()] *)
Definition get_next_speaker : M ConversationManager (option string) :=
  c <- get ;;
  match speaking_queue c with
  | next :: rest => modify (set_speaking_queue rest) ;; ret (Some next)
  | [] => ret None
  end.

(** [add_speaker_to_queue(speaker)] *)
Definition add_speaker_to_queue (speaker : string) : M ConversationManager unit :=
  c <- get ;;
  when (mem speaker (participants c) && negb (mem speaker (speaking_queue c)))
    (enqueue speaker).

(** [pause_conversation()], [resume_conversation()] *)
Definition pause_conversation : M ConversationManager unit :=
  modify (set_state PAUSED).
Definition resume_conversation : M ConversationManager unit :=
  modify (set_state ACTIVE).

(** *** Statistics and summary *)

Record ConversationStats : Type := {
  total_messages : nat;
  stats_participants : nat;
  turn_distribution : PyDict.t Z;
  message_types : PyDict.t Z;
  conversation_duration : option float;
  average_response_time : option float
}.

(** The pairs of consecutive messages of the history. *)
Fixpoint consecutive {A : Type} (xs : list A) : list (A * A) :=
  match xs with
  | x :: (y :: _) as rest => (x, y) :: consecutive rest
  | _ => []
  end.

(** [sum(xs)] over floats *)
Definition float_sum (xs : list float) : float :=
  fold_left PrimFloat.add xs (float_of_Z 0).

(** [get_conversation_stats()] *)
Definition get_conversation_stats (c : ConversationManager) : ConversationStats :=
  let history := conversation_history c in
  let types :=
    fold_left (fun d m =>
                 let msg_type := MessageType_value (msg_message_type m) in
                 PyDict.set d msg_type (PyDict.get_default d msg_type 0 + 1)%Z)
              history [] in
  let duration :=
    match hd_error history, last_error history with
    | Some first, Some final =>
        Some (total_seconds (msg_timestamp final - msg_timestamp first)%Z)
    | _, _ => None
    end in
  let response_times :=
    map (fun pc => total_seconds
                     (msg_timestamp (snd pc) - msg_timestamp (fst pc))%Z)
        (filter (fun pc => negb (String.eqb (msg_speaker (fst pc))
                                            (msg_speaker (snd pc))))
                (consecutive history)) in
  {| total_messages := List.length history;
     stats_participants := List.length (participants c);
     turn_distribution := turn_counts c;
     message_types := types;
     conversation_duration := duration;
     average_response_time :=
       match response_times with
       | [] => None
       | _ => Some (PrimFloat.div (float_sum response_times)
                                  (float_of_nat (List.length response_times)))
       end |}.

Inductive ConversationFlow : Type :=
| insufficient_data
| flow_analysis (total_transitions unique_transitions : nat)
    (transition_diversity : float) (dominant_speakers : list string).

(** [len(set(xs))] for pairs of speakers *)
Fixpoint count_distinct (xs : list (string * string)) : nat :=
  match xs with
  | [] => 0
  | x :: xs' =>
      if existsb (fun y => String.eqb (fst x) (fst y) && String.eqb (snd x) (snd y)) xs'
      then count_distinct xs' else S (count_distinct xs')
  end.

(** [_analyze_conversation_flow()] *)
Definition _analyze_conversation_flow (c : ConversationManager) : ConversationFlow :=
  let history := conversation_history c in
  if (List.length history <? 2)%nat then insufficient_data
  else
    let transitions :=
      map (fun pc => (msg_speaker (fst pc), msg_speaker (snd pc)))
          (filter (fun pc => negb (String.eqb (msg_speaker (fst pc))
                                              (msg_speaker (snd pc))))
                  (consecutive history)) in
    let unique_transitions := count_distinct transitions in
    let total_transitions := List.length transitions in
    flow_analysis total_transitions unique_transitions
      (if (0 <? total_transitions)%nat
       then PrimFloat.div (float_of_nat unique_transitions)
                          (float_of_nat total_transitions)
       else float_of_Z 0)
      (map fst
         (filter (fun pc =>
                    PrimFloat.ltb
                      (PrimFloat.mul (float_of_nat (List.length history)) 0.3%float)
                      (float_of_Z (snd pc)))
                 (turn_counts c))).

(** [len(set(msg.message_type for msg in history))] *)
Definition distinct_message_types (history : list MeetingMessage) : nat :=
  List.length
    (filter (fun t => existsb (fun m => MessageType_eqb (msg_message_type m) t) history)
            MessageType_members).

(** [_calculate_engagement_level()]; the division by
    [len(self.participants)] raises when there is no participant. *)
Definition _calculate_engagement_level (c : ConversationManager) : outcome string :=
  let history := conversation_history c in
  match history with
  | [] => Returns "no_activity"
  | _ =>
      match participants c with
      | [] => Raises ZeroDivisionError
      | _ =>
          let participation_score :=
            PrimFloat.div
              (float_of_nat
                 (List.length (filter (fun p => (0 <? p)%Z)
                                      (PyDict.values (turn_counts c)))))
              (float_of_nat (List.length (participants c))) in
          let type_diversity_score :=
            PrimFloat.div (float_of_nat (distinct_message_types history))
                          (float_of_nat (List.length MessageType_members)) in
          let avg_msg_length :=
            PrimFloat.div
              (float_of_nat
                 (fold_left (fun n m => (n + String.length (msg_content m))%nat)
                            history 0%nat))
              (float_of_nat (List.length history)) in
          let scaled := PrimFloat.div avg_msg_length (float_of_Z 100) in
          let length_score :=
            if PrimFloat.ltb 1.0%float scaled then 1.0%float else scaled in
          let overall_score :=
            PrimFloat.div
              (PrimFloat.add (PrimFloat.add participation_score type_diversity_score)
                             length_score)
              (float_of_Z 3) in
          if PrimFloat.ltb 0.7%float overall_score then Returns "high"
          else if PrimFloat.ltb 0.4%float overall_score then Returns "medium"
          else Returns "low"
      end
  end.

(** [sorted(items, key=lambda x: x[1], reverse=True)]: a stable sort, items
    with equal counts keep their order. *)
Fixpoint insert_by_count (x : string * Z) (sorted : list (string * Z))
  : list (string * Z) :=
  match sorted with
  | [] => [x]
  | y :: rest =>
      if (snd y <? snd x)%Z then x :: y :: rest
      else y :: insert_by_count x rest
  end.

Definition sorted_by_count_desc (items : list (string * Z)) : list (string * Z) :=
  fold_left (fun acc x => insert_by_count x acc) items [].

(** The keyword extraction of [get_conversation_summary]. *)
Definition top_keywords_of (history : list MeetingMessage) : list string :=
  let all_content := join " " (map msg_content history) in
  let words := split (lower all_content) in
  let word_freq :=
    fold_left (fun d word =>
                 if (4 <? String.length word)%nat
                 then PyDict.set d word (PyDict.get_default d word 0 + 1)%Z
                 else d)
              words [] in
  map fst (firstn 10 (sorted_by_count_desc word_freq)).

Record ConversationSummary : Type := {
  statistics : ConversationStats;
  most_active_participant : option string;
  top_keywords : list string;
  conversation_flow : ConversationFlow;
  engagement_level : string
}.

(** [get_conversation_summary()] *)
Definition get_conversation_summary (c : ConversationManager)
  : outcome ConversationSummary :=
  let stats := get_conversation_stats c in
  let most_active := max_by snd (turn_counts c) in
  let top := top_keywords_of (conversation_history c) in
  let flow := _analyze_conversation_flow c in
  match _calculate_engagement_level c with
  | Returns level =>
      Returns {| statistics := stats;
                 most_active_participant := option_map fst most_active;
                 top_keywords := top;
                 conversation_flow := flow;
                 engagement_level := level |}
  | Raises e => Raises e
  end.

(** [end_conversation()] *)
Definition end_conversation : M ConversationManager ConversationSummary :=
  modify (set_state IDLE) ;;
  c <- get ;;
  match get_conversation_summary c with
  | Returns summary => ret summary
  | Raises e => raise e
  end.

(** The documented range of the engagement classifier. *)
Definition documented_engagement_levels : list string := ["high"; "medium"; "low"].

(** The invariant the specification states for the conversation state:
    every participant has a turn count, and only participants are queued. *)
Definition state_invariant (c : ConversationManager) : Prop :=
  (forall p, In p (participants c) -> In p (PyDict.keys (turn_counts c))) /\
  (forall q, In q (speaking_queue c) -> In q (participants c)).

(** A decidable form of the same invariant. *)
Definition state_invariantb (c : ConversationManager) : bool :=
  forallb (fun p => mem p (PyDict.keys (turn_counts c))) (participants c) &&
  forallb (fun q => mem q (participants c)) (speaking_queue c).

(** The state a computation leaves, whether it returned or raised. *)
Definition exec {A : Type} (m : M ConversationManager A) (c : ConversationManager)
  : ConversationManager := snd (m c).

(** *** Notions the properties are stated with *)

(** The state [_add_message] leaves. *)
Definition added (c : ConversationManager) (speaker content : string)
  (message_type : MessageType) (t_msg t_seen : datetime) : ConversationManager :=
  {| strategy := strategy c; state := state c; current_speaker := Some speaker;
     speaking_queue := speaking_queue c;
     conversation_history :=
       (conversation_history c ++
        [{| msg_speaker := speaker; msg_content := content;
            msg_message_type := message_type; msg_timestamp := t_msg;
            msg_context_used := None; msg_confidence := 1.0%float |}])%list;
     participants := participants c; facilitator := facilitator c;
     max_response_time := max_response_time c;
     max_consecutive_turns := max_consecutive_turns c;
     turn_counts :=
       PyDict.set (turn_counts c) speaker
         (PyDict.get_default (turn_counts c) speaker 0 + 1)%Z;
     last_speaker_time := PyDict.set (last_speaker_time c) speaker t_seen |}.

(** A text without response-eliciting marker: none of the indicators occurs
    in it, whatever the case of its letters. *)
Definition no_markers (content : string) : Prop :=
  forall indicator, In indicator response_indicators -> ~ occurs_ci indicator content.

(** The participant the starvation rule of [_handle_natural_flow] queues
    when [speaker] has reached the threshold, if there is another one. *)
Definition starvation_pick (c : ConversationManager) (speaker : string)
  : list string :=
  match min_by (fun p => PyDict.get_default (last_speaker_time c) p datetime_min)
               (filter (fun p => negb (String.eqb p speaker)) (participants c)) with
  | Some q => [q]
  | None => []
  end.

(** The number of turns counted for a participant. *)
Definition turns (c : ConversationManager) (p : string) : Z :=
  PyDict.get_default (turn_counts c) p 0%Z.

(** *** Sequences of operations *)

(** The operations of the manager on an initialised conversation. *)
Inductive operation : Type :=
| StartConversation (opening_message : option string) (clock : Clock)
| AddMessage (speaker content : string) (message_type : MessageType) (clock : Clock)
| AddSpeakerToQueue (speaker : string)
| GetNextSpeaker
| PauseConversation
| ResumeConversation.

Definition perform (op : operation) : M ConversationManager unit :=
  match op with
  | StartConversation opening clock => start_conversation opening clock
  | AddMessage speaker content ty clock => add_message speaker content ty clock
  | AddSpeakerToQueue speaker => add_speaker_to_queue speaker
  | GetNextSpeaker => _ <- get_next_speaker ;; ret tt
  | PauseConversation => pause_conversation
  | ResumeConversation => resume_conversation
  end.

(** The state after a sequence of operations; an operation that raises
    leaves the state it had reached. *)
Definition perform_all (ops : list operation) (c : ConversationManager)
  : ConversationManager :=
  fold_left (fun c op => exec (perform op) c) ops c.

(** Only participants have a turn count, and the facilitator that
    [start_conversation] would let speak is a participant. *)
Definition insiders_only (c : ConversationManager) : Prop :=
  (forall k, In k (PyDict.keys (turn_counts c)) -> In k (participants c)) /\
  (forall f, facilitator c = Some f -> truthy f = true -> In f (participants c)).

(** A state that differs by participants appended to the queue. *)
Definition queued_more (c c' : ConversationManager) : Prop :=
  exists extra,
    c' = set_speaking_queue (speaking_queue c ++ extra)%list c /\
    (forall q, In q extra -> In q (participants c)).

(** What the operations preserve. *)
Definition safe (c : ConversationManager) : Prop :=
  state_invariant c /\ insiders_only c.

End CM.

(** ** [AudioAwareMeetingOrchestrator]
    ([meeting_engine/audio_meeting_orchestrator.py]) *)

Module Orchestrator.
Import Py PyStr PyM Datetime Agents.
Local Open Scope pym_scope.

Inductive MeetingState : Type :=
| SCHEDULED | STARTING | ACTIVE | ENDING | COMPLETED | FAILED.

Definition MeetingState_eqb (a b : MeetingState) : bool :=
  match a, b with
  | SCHEDULED, SCHEDULED | STARTING, STARTING | ACTIVE, ACTIVE
  | ENDING, ENDING | COMPLETED, COMPLETED | FAILED, FAILED => true
  | _, _ => false
  end.

(** [meeting_platforms.platform_manager.MeetingPlatform] *)
Inductive MeetingPlatform : Type := TEAMS | GOOGLE_MEET | ZOOM | WEBEX.

(** [MeetingPlatform(value)]; [None] stands for the [ValueError] of a value
    that names no platform. *)
Definition MeetingPlatform_of (value : string) : option MeetingPlatform :=
  if String.eqb value "teams" then Some TEAMS
  else if String.eqb value "google_meet" then Some GOOGLE_MEET
  else if String.eqb value "zoom" then Some ZOOM
  else if String.eqb value "webex" then Some WEBEX
  else None.

(** [speech_processing.speech_manager.SpeechProvider] *)
Inductive SpeechProvider : Type := AZURE | GOOGLE_CLOUD | OPENAI_WHISPER.

Definition SpeechProvider_of (value : string) : option SpeechProvider :=
  if String.eqb value "azure" then Some AZURE
  else if String.eqb value "google_cloud" then Some GOOGLE_CLOUD
  else if String.eqb value "whisper" then Some OPENAI_WHISPER
  else None.

(** An entry of [meeting['transcript']]. *)
Record TranscriptEntry : Type := {
  te_timestamp : datetime;
  te_speaker : string;
  te_text : string;
  te_confidence : float;
  te_type : string;
  te_provider : string
}.

(** The event a speech provider hands to the transcription callback. *)
Record TranscriptionResult : Type := {
  tr_timestamp : datetime;
  tr_speaker : string;
  tr_text : string;
  tr_confidence : float;
  tr_type : string;
  tr_provider : option string
}.

(** What [PostMeetingActionHandler.process_meeting_completion] returns. *)
Record PostMeetingResults : Type := {
  res_summary : option string;
  res_action_items : option (list string);
  res_jira_tickets : option (list string);
  res_confluence_docs : option (list string)
}.

(** A record of [self.active_meetings]. The key ['audio_streams'], an empty
    dictionary that nothing reads or writes, is left out; the keys set later
    in the life of a meeting are [None] until then. *)
Record MeetingRecord : Type := {
  id : string;
  title : string;
  participants : list string;
  start_time : datetime;
  duration_minutes : Z;
  platform : option string;
  meeting_url : string;
  enable_transcription : bool;
  speech_provider : option string;
  state : MeetingState;
  created_time : datetime;
  transcript : list TranscriptEntry;
  participants_joined : list string;
  actual_start_time : option datetime;
  end_time : option datetime;
  end_reason : option string;
  summary : option string;
  action_items : option (list string);
  jira_tickets : option (list string);
  confluence_docs : option (list string)
}.

Definition set_state (v : MeetingState) (m : MeetingRecord) : MeetingRecord :=
  {| id := id m; title := title m; participants := participants m;
     start_time := start_time m; duration_minutes := duration_minutes m;
     platform := platform m; meeting_url := meeting_url m;
     enable_transcription := enable_transcription m;
     speech_provider := speech_provider m; state := v;
     created_time := created_time m; transcript := transcript m;
     participants_joined := participants_joined m;
     actual_start_time := actual_start_time m; end_time := end_time m;
     end_reason := end_reason m; summary := summary m;
     action_items := action_items m; jira_tickets := jira_tickets m;
     confluence_docs := confluence_docs m |}.

Definition set_transcript (v : list TranscriptEntry) (m : MeetingRecord)
  : MeetingRecord :=
  {| id := id m; title := title m; participants := participants m;
     start_time := start_time m; duration_minutes := duration_minutes m;
     platform := platform m; meeting_url := meeting_url m;
     enable_transcription := enable_transcription m;
     speech_provider := speech_provider m; state := state m;
     created_time := created_time m; transcript := v;
     participants_joined := participants_joined m;
     actual_start_time := actual_start_time m; end_time := end_time m;
     end_reason := end_reason m; summary := summary m;
     action_items := action_items m; jira_tickets := jira_tickets m;
     confluence_docs := confluence_docs m |}.

Definition set_participants_joined (v : list string) (m : MeetingRecord)
  : MeetingRecord :=
  {| id := id m; title := title m; participants := participants m;
     start_time := start_time m; duration_minutes := duration_minutes m;
     platform := platform m; meeting_url := meeting_url m;
     enable_transcription := enable_transcription m;
     speech_provider := speech_provider m; state := state m;
     created_time := created_time m; transcript := transcript m;
     participants_joined := v;
     actual_start_time := actual_start_time m; end_time := end_time m;
     end_reason := end_reason m; summary := summary m;
     action_items := action_items m; jira_tickets := jira_tickets m;
     confluence_docs := confluence_docs m |}.

Definition set_actual_start_time (v : option datetime) (m : MeetingRecord)
  : MeetingRecord :=
  {| id := id m; title := title m; participants := participants m;
     start_time := start_time m; duration_minutes := duration_minutes m;
     platform := platform m; meeting_url := meeting_url m;
     enable_transcription := enable_transcription m;
     speech_provider := speech_provider m; state := state m;
     created_time := created_time m; transcript := transcript m;
     participants_joined := participants_joined m;
     actual_start_time := v; end_time := end_time m;
     end_reason := end_reason m; summary := summary m;
     action_items := action_items m; jira_tickets := jira_tickets m;
     confluence_docs := confluence_docs m |}.

Definition set_end (t : option datetime) (reason : option string)
  (m : MeetingRecord) : MeetingRecord :=
  {| id := id m; title := title m; participants := participants m;
     start_time := start_time m; duration_minutes := duration_minutes m;
     platform := platform m; meeting_url := meeting_url m;
     enable_transcription := enable_transcription m;
     speech_provider := speech_provider m; state := state m;
     created_time := created_time m; transcript := transcript m;
     participants_joined := participants_joined m;
     actual_start_time := actual_start_time m; end_time := t;
     end_reason := reason; summary := summary m;
     action_items := action_items m; jira_tickets := jira_tickets m;
     confluence_docs := confluence_docs m |}.

Definition set_results (r : PostMeetingResults) (m : MeetingRecord)
  : MeetingRecord :=
  {| id := id m; title := title m; participants := participants m;
     start_time := start_time m; duration_minutes := duration_minutes m;
     platform := platform m; meeting_url := meeting_url m;
     enable_transcription := enable_transcription m;
     speech_provider := speech_provider m; state := state m;
     created_time := created_time m; transcript := transcript m;
     participants_joined := participants_joined m;
     actual_start_time := actual_start_time m; end_time := end_time m;
     end_reason := end_reason m; summary := res_summary r;
     action_items := Some (match res_action_items r with Some l => l | None => [] end);
     jira_tickets := Some (match res_jira_tickets r with Some l => l | None => [] end);
     confluence_docs :=
       Some (match res_confluence_docs r with Some l => l | None => [] end) |}.

(** The [meeting_config] dictionary of [schedule_meeting]; a key may be
    missing. *)
Record MeetingConfig : Type := {
  cfg_title : option string;
  cfg_participants : option (list string);
  cfg_start_time : option datetime;
  cfg_duration_minutes : option Z;
  cfg_platform : option string;
  cfg_enable_transcription : option bool;
  cfg_speech_provider : option string;
  cfg_meeting_url : option string
}.

(** An agent, as far as the orchestrator looks into it:
    [agent.employee_config.name]. *)
Record Agent : Type := { employee_name : string }.

(** A callable registered with [add_meeting_callback], known by a label. *)
Definition Callback : Type := nat.

(** A coroutine handed to [asyncio.create_task]. *)
Inductive Task : Type :=
| ScheduledStart (meeting_id : string) (delay : timedelta)
| Start (meeting_id : string)
| Timeout (meeting_id : string)
| AgentResponse (meeting_id agent_id : string) (message : MeetingMessage)
    (context : MeetingContext).

(** What the orchestrator does that can be seen from outside, in program
    order: assignments to a meeting's state, spawned tasks, calls to the
    collaborators with their results, and calls of registered callbacks. *)
Inductive Event : Type :=
| EvState (meeting_id : string) (new_state : MeetingState)
| EvSpawn (task : Task)
| EvCreateMeeting (title : string) (url : string)
| EvStartTranscription (meeting_id : string) (provider : option SpeechProvider)
    (started : bool)
| EvStopTranscription (meeting_id : string)
| EvJoin (meeting_url agent_id : string) (platform : option MeetingPlatform)
    (joined : bool)
| EvLeave (agent_id : string)
| EvPostMeeting (meeting_id : string) (messages : list MeetingMessage)
| EvGenerateResponse (agent_id content : string)
| EvCallback (callback : Callback) (event meeting_id : string)
| EvPlatformCleanup
| EvSpeechCleanup.

Inductive LogLevel : Type := WARNING | ERROR.

(** The attributes of [self]; the two managers are present or [None]. *)
Record Orchestrator : Type := {
  active_meetings : PyDict.t MeetingRecord;
  agents : PyDict.t Agent;
  meeting_callbacks : PyDict.t (list Callback);
  max_concurrent_meetings : Z;
  meeting_timeout_minutes : Z;
  auto_transcription : bool;
  platform_manager : bool;
  speech_manager : bool
}.

(** The orchestrator with what it has done so far and what it has logged at
    the levels warning and error. *)
Record World : Type := {
  self : Orchestrator;
  trace : list Event;
  log : list (LogLevel * string)
}.

(** The collaborators and the clock, as one call meets them: [now k] is the
    [k]-th [datetime.now()] of the call; the other fields are what the
    awaited collaborator answers. *)
Record Env : Type := {
  now : nat -> datetime;
  create_meeting :
    string -> list string -> datetime -> Z -> option MeetingPlatform -> string;
  join_meeting : string -> string -> option MeetingPlatform -> bool;
  start_meeting_transcription : string -> option SpeechProvider -> bool;
  process_meeting_completion :
    list MeetingMessage -> MeetingContext -> outcome PostMeetingResults;
  generate_response :
    string -> string -> MeetingContext -> outcome (option MeetingMessage)
}.

Definition Op (A : Type) : Type := M World A.

(** [AudioAwareMeetingOrchestrator(config_manager)], from the three values
    [__init__] reads in [config.meeting_config]. *)
Definition new (max_concurrent timeout_minutes : option Z)
  (auto_transcription : option bool) : World :=
  {| self :=
       {| active_meetings := []; agents := []; meeting_callbacks := [];
          max_concurrent_meetings :=
            match max_concurrent with Some n => n | None => 3%Z end;
          meeting_timeout_minutes :=
            match timeout_minutes with Some n => n | None => 120%Z end;
          auto_transcription :=
            match auto_transcription with Some b => b | None => true end;
          platform_manager := false; speech_manager := false |};
     trace := []; log := [] |}.

Definition set_active_meetings (v : PyDict.t MeetingRecord) (o : Orchestrator)
  : Orchestrator :=
  {| active_meetings := v; agents := agents o;
     meeting_callbacks := meeting_callbacks o;
     max_concurrent_meetings := max_concurrent_meetings o;
     meeting_timeout_minutes := meeting_timeout_minutes o;
     auto_transcription := auto_transcription o;
     platform_manager := platform_manager o;
     speech_manager := speech_manager o |}.

Definition set_meeting_callbacks (v : PyDict.t (list Callback))
  (o : Orchestrator) : Orchestrator :=
  {| active_meetings := active_meetings o; agents := agents o;
     meeting_callbacks := v;
     max_concurrent_meetings := max_concurrent_meetings o;
     meeting_timeout_minutes := meeting_timeout_minutes o;
     auto_transcription := auto_transcription o;
     platform_manager := platform_manager o;
     speech_manager := speech_manager o |}.

(** [initialize(agents)]: the registry of agents and the two managers. *)
Definition initialize (registry : PyDict.t Agent) : Op unit :=
  modify (fun w =>
    {| self :=
         {| active_meetings := active_meetings (self w); agents := registry;
            meeting_callbacks := meeting_callbacks (self w);
            max_concurrent_meetings := max_concurrent_meetings (self w);
            meeting_timeout_minutes := meeting_timeout_minutes (self w);
            auto_transcription := auto_transcription (self w);
            platform_manager := true; speech_manager := true |};
       trace := trace w; log := log w |}).

Definition update_self (f : Orchestrator -> Orchestrator) : Op unit :=
  modify (fun w => {| self := f (self w); trace := trace w; log := log w |}).

Definition emit (e : Event) : Op unit :=
  modify (fun w => {| self := self w; trace := trace w ++ [e]; log := log w |}).

(** [self.logger.warning(...)], [self.logger.error(...)] *)
Definition logger (level : LogLevel) (message : string) : Op unit :=
  modify (fun w =>
    {| self := self w; trace := trace w; log := log w ++ [(level, message)] |}).

(** [self.active_meetings.get(meeting_id)] *)
Definition lookup (meeting_id : string) : Op (option MeetingRecord) :=
  gets (fun w => PyDict.get (active_meetings (self w)) meeting_id).

(** [self.active_meetings[meeting_id]] *)
Definition meeting_of (meeting_id : string) : Op MeetingRecord :=
  found <- lookup meeting_id ;; expect KeyError found.

(** A change made through the reference [self.active_meetings[meeting_id]]
    to the record the registry holds. *)
Definition update_meeting (meeting_id : string)
  (f : MeetingRecord -> MeetingRecord) : Op unit :=
  update_self (fun o =>
    match PyDict.get (active_meetings o) meeting_id with
    | Some m => set_active_meetings (PyDict.set (active_meetings o) meeting_id (f m)) o
    | None => o
    end).

(** [meeting['state'] = new_state] *)
Definition assign_state (meeting_id : string) (new_state : MeetingState)
  : Op unit :=
  update_meeting meeting_id (set_state new_state) ;;
  emit (EvState meeting_id new_state).

(** [MeetingPlatform(platform) if platform else None] *)
Definition platform_enum_of (platform : option string)
  : Op (option MeetingPlatform) :=
  match platform with
  | Some p =>
      if truthy p
      then e <- expect ValueError (MeetingPlatform_of p) ;; ret (Some e)
      else ret None
  | None => ret None
  end.

(** [SpeechProvider(speech_provider) if speech_provider else None] *)
Definition provider_enum_of (speech_provider : option string)
  : Op (option SpeechProvider) :=
  match speech_provider with
  | Some p =>
      if truthy p
      then e <- expect ValueError (SpeechProvider_of p) ;; ret (Some e)
      else ret None
  | None => ret None
  end.

(** [_validate_meeting_config(config)] *)
Definition _validate_meeting_config (config : MeetingConfig) : Op bool :=
  match cfg_title config, cfg_participants config, cfg_start_time config with
  | None, _, _ => logger ERROR "Missing required field: title" ;; ret false
  | Some _, None, _ =>
      logger ERROR "Missing required field: participants" ;; ret false
  | Some _, Some _, None =>
      logger ERROR "Missing required field: start_time" ;; ret false
  | Some _, Some ps, Some _ =>
      w <- get ;;
      match find (fun p => negb (PyDict.mem (agents (self w)) p)) ps with
      | Some p => logger ERROR ("Unknown participant agent: " ++ p) ;; ret false
      | None => ret true
      end
  end.

(** [_create_meeting_url(meeting_config)] *)
Definition _create_meeting_url (env : Env) (config : MeetingConfig) : Op string :=
  try_except
    (w <- get ;;
     if negb (platform_manager (self w)) then ret ""
     else
       platform_enum <- platform_enum_of (cfg_platform config) ;;
       title <- expect KeyError (cfg_title config) ;;
       ps <- expect KeyError (cfg_participants config) ;;
       start <- expect KeyError (cfg_start_time config) ;;
       let url := create_meeting env title ps start
                    (match cfg_duration_minutes config with
                     | Some d => d | None => 60%Z end)
                    platform_enum in
       emit (EvCreateMeeting title url) ;;
       ret url)
    (fun _ => logger ERROR "Error creating meeting URL" ;; ret "").

(** [schedule_meeting(meeting_config)]; the clock is read for the
    identifier, for [created_time] and for the start delay. *)
Definition schedule_meeting (env : Env) (config : MeetingConfig) : Op string :=
  try_except
    (let meeting_id := "meeting_" ++ strftime_Ymd_HMS (now env 0%nat) in
     valid <- _validate_meeting_config config ;;
     if negb valid then ret ""
     else
       w <- get ;;
       if (max_concurrent_meetings (self w) <=? PyDict.len (active_meetings (self w)))%Z
       then logger ERROR "Maximum concurrent meetings reached" ;; ret ""
       else
         url <- match cfg_meeting_url config with
                | Some u => if truthy u then ret u
                            else _create_meeting_url env config
                | None => _create_meeting_url env config
                end ;;
         if negb (truthy url)
         then logger ERROR "Failed to create meeting URL" ;; ret ""
         else
           w <- get ;;
           title <- expect KeyError (cfg_title config) ;;
           ps <- expect KeyError (cfg_participants config) ;;
           start <- expect KeyError (cfg_start_time config) ;;
           let meeting_record :=
             {| id := meeting_id; title := title; participants := ps;
                start_time := start;
                duration_minutes :=
                  match cfg_duration_minutes config with
                  | Some d => d | None => 60%Z end;
                platform := cfg_platform config;
                meeting_url := url;
                enable_transcription :=
                  match cfg_enable_transcription config with
                  | Some b => b | None => auto_transcription (self w) end;
                speech_provider := cfg_speech_provider config;
                state := SCHEDULED;
                created_time := now env 1%nat;
                transcript := []; participants_joined := [];
                actual_start_time := None; end_time := None;
                end_reason := None; summary := None; action_items := None;
                jira_tickets := None; confluence_docs := None |} in
           update_self (fun o =>
             set_active_meetings
               (PyDict.set (active_meetings o) meeting_id meeting_record) o) ;;
           let start_delay := (start - now env 2%nat)%Z in
           (if (0 <? start_delay)%Z
            then emit (EvSpawn (ScheduledStart meeting_id start_delay))
            else emit (EvSpawn (Start meeting_id))) ;;
           ret meeting_id)
    (fun _ => logger ERROR "Error scheduling meeting" ;; ret "").

(** [_join_agent_to_meeting(meeting_id, agent_id)] *)
Definition _join_agent_to_meeting (env : Env) (meeting_id agent_id : string)
  : Op bool :=
  try_except
    (w <- get ;;
     if negb (platform_manager (self w)) then ret false
     else
       meeting <- meeting_of meeting_id ;;
       platform_enum <- platform_enum_of (platform meeting) ;;
       let success := join_meeting env (meeting_url meeting) agent_id platform_enum in
       emit (EvJoin (meeting_url meeting) agent_id platform_enum success) ;;
       if success
       then
         update_meeting meeting_id
           (fun m => set_participants_joined (participants_joined m ++ [agent_id]) m) ;;
         ret true
       else
         logger ERROR ("Agent " ++ agent_id ++ " failed to join meeting " ++ meeting_id) ;;
         ret false)
    (fun _ =>
       logger ERROR ("Error joining agent " ++ agent_id ++ " to meeting " ++ meeting_id) ;;
       ret false).

(** [_notify_meeting_callbacks(meeting_id, event, data)]; what a callback
    raises is caught and logged, so every registered callback is called. *)
Definition _notify_meeting_callbacks (meeting_id event : string) : Op unit :=
  w <- get ;;
  match PyDict.get (meeting_callbacks (self w)) meeting_id with
  | Some callbacks =>
      for_each callbacks (fun callback => emit (EvCallback callback event meeting_id))
  | None => ret tt
  end.

(** [add_meeting_callback(meeting_id, callback)] *)
Definition add_meeting_callback (meeting_id : string) (callback : Callback)
  : Op unit :=
  update_self (fun o =>
    set_meeting_callbacks
      (PyDict.set (meeting_callbacks o) meeting_id
         (PyDict.get_default (meeting_callbacks o) meeting_id [] ++ [callback])%list) o).

(** An answer of a collaborator, or the exception it raised. *)
Definition lift {A : Type} (o : outcome A) : Op A :=
  match o with
  | Returns a => ret a
  | Raises e => raise e
  end.

Definition response_triggers : list string :=
  [ "status"; "update"; "progress"; "working on"; "blocker";
    "blocked"; "impediment"; "help"; "question" ].

(** [_should_agent_respond(agent, message, context)]; nothing in its [try]
    block raises on strings. *)
Definition _should_agent_respond (agent : Agent) (message : MeetingMessage)
  (context : MeetingContext) : bool :=
  let agent_name := lower (employee_name agent) in
  let message_lower := lower (msg_content message) in
  if contains agent_name message_lower then true
  else if existsb (fun trigger => contains trigger message_lower) response_triggers
  then true
  else if endswith (strip (msg_content message)) "?" then true
  else false.

(** What the specification of the response decision says, in its words:
    the agent's name occurs in the message whatever the case of the letters,
    or a trigger word does, or the trimmed message ends with a question
    mark. *)
Definition eligible_to_respond (agent_name content : string) : Prop :=
  occurs_ci agent_name content \/
  (exists trigger, In trigger response_triggers /\ occurs_ci trigger content) \/
  trimmed_ends_with "?"%char content.

(** [_generate_and_send_agent_response(meeting_id, agent_id, message, context)] *)
Definition _generate_and_send_agent_response (env : Env)
  (meeting_id agent_id : string) (message : MeetingMessage)
  (context : MeetingContext) : Op unit :=
  try_except
    (w <- get ;;
     match PyDict.get (agents (self w)) agent_id with
     | None => ret tt
     | Some agent =>
         emit (EvGenerateResponse agent_id (msg_content message)) ;;
         response <- lift (generate_response env agent_id (msg_content message) context) ;;
         match response with
         | Some r =>
             when (truthy (msg_content r))
               (meeting <- meeting_of meeting_id ;;
                update_meeting meeting_id (fun m =>
                  set_transcript
                    (transcript m ++
                     [{| te_timestamp := now env 0%nat;
                         te_speaker := employee_name agent;
                         te_text := msg_content r;
                         te_confidence := msg_confidence r;
                         te_type := "agent_response";
                         te_provider := "agent" |}])%list m))
         | None => ret tt
         end
     end)
    (fun _ => logger ERROR "Error generating agent response").

(** [meeting.get('actual_start_time', meeting['start_time'])] *)
Definition effective_start (meeting : MeetingRecord) : datetime :=
  match actual_start_time meeting with
  | Some t => t
  | None => start_time meeting
  end.

(** The context both [_process_transcription_for_agents] and
    [_process_meeting_completion] build; neither passes [duration_minutes]. *)
Definition audio_meeting_context (meeting_id : string) (meeting : MeetingRecord)
  : outcome MeetingContext :=
  MeetingContext_new meeting_id (title meeting) (participants_joined meeting)
    (effective_start meeting) (Some "") "audio_meeting" None.

(** [_process_transcription_for_agents(meeting_id, transcription)] *)
Definition _process_transcription_for_agents (env : Env) (meeting_id : string)
  (transcription : TranscriptionResult) : Op unit :=
  try_except
    (meeting <- meeting_of meeting_id ;;
     let message :=
       {| msg_speaker := tr_speaker transcription;
          msg_content := tr_text transcription;
          msg_message_type := GENERAL;
          msg_timestamp := tr_timestamp transcription;
          msg_context_used := Some [];
          msg_confidence := tr_confidence transcription |} in
     context <- lift (audio_meeting_context meeting_id meeting) ;;
     for_each (participants_joined meeting) (fun agent_id =>
       w <- get ;;
       match PyDict.get (agents (self w)) agent_id with
       | Some agent =>
           when (negb (String.eqb (tr_speaker transcription) (employee_name agent)))
             (when (_should_agent_respond agent message context)
                (emit (EvSpawn (AgentResponse meeting_id agent_id message context))))
       | None => ret tt
       end))
    (fun _ => logger ERROR "Error processing transcription for agents").

(** The transcript entry the callback makes of an event. *)
Definition entry_of (result : TranscriptionResult) : TranscriptEntry :=
  {| te_timestamp := tr_timestamp result;
     te_speaker := tr_speaker result;
     te_text := tr_text result;
     te_confidence := tr_confidence result;
     te_type := tr_type result;
     te_provider := match tr_provider result with
                    | Some p => p
                    | None => "unknown"
                    end |}.

(** The coroutine [_create_meeting_transcription_callback(meeting_id)]
    returns, applied to an event. *)
Definition transcription_callback (env : Env) (meeting_id : string)
  (result : TranscriptionResult) : Op unit :=
  try_except
    (w <- get ;;
     when (PyDict.mem (active_meetings (self w)) meeting_id)
       (update_meeting meeting_id
          (fun m => set_transcript (transcript m ++ [entry_of result])%list m) ;;
        when (String.eqb (tr_type result) "final")
          (_process_transcription_for_agents env meeting_id result)))
    (fun _ => logger ERROR ("Error in transcription callback for meeting " ++ meeting_id)).

(** [_process_meeting_completion(meeting_id)] *)
Definition _process_meeting_completion (env : Env) (meeting_id : string)
  : Op unit :=
  try_except
    (meeting <- meeting_of meeting_id ;;
     let transcript_messages :=
       map (fun entry =>
              {| msg_speaker := te_speaker entry;
                 msg_content := te_text entry;
                 msg_message_type := GENERAL;
                 msg_timestamp := te_timestamp entry;
                 msg_context_used := Some [];
                 msg_confidence := te_confidence entry |})
           (filter (fun entry => mem (te_type entry) ["final"; "agent_response"])
                   (transcript meeting)) in
     context <- lift (audio_meeting_context meeting_id meeting) ;;
     emit (EvPostMeeting meeting_id transcript_messages) ;;
     results <- lift (process_meeting_completion env transcript_messages context) ;;
     update_meeting meeting_id (set_results results))
    (fun _ => logger ERROR "Error processing meeting completion").

(** [end_meeting(meeting_id, reason="manual")] *)
Definition end_meeting (env : Env) (meeting_id reason : string) : Op bool :=
  try_except
    (found <- lookup meeting_id ;;
     match found with
     | None => logger ERROR ("Meeting not found: " ++ meeting_id) ;; ret false
     | Some meeting =>
         if negb (MeetingState_eqb (state meeting) ACTIVE ||
                  MeetingState_eqb (state meeting) STARTING)
         then
           logger WARNING ("Meeting " ++ meeting_id ++ " not in active state") ;;
           ret false
         else
           assign_state meeting_id ENDING ;;
           w <- get ;;
           when (enable_transcription meeting && speech_manager (self w))
             (emit (EvStopTranscription meeting_id)) ;;
           for_each (participants_joined meeting) (fun agent_id =>
             when (platform_manager (self w)) (emit (EvLeave agent_id))) ;;
           _process_meeting_completion env meeting_id ;;
           assign_state meeting_id COMPLETED ;;
           update_meeting meeting_id (set_end (Some (now env 0%nat)) (Some reason)) ;;
           _notify_meeting_callbacks meeting_id "meeting_ended" ;;
           ret true
     end)
    (fun _ => logger ERROR ("Error ending meeting " ++ meeting_id) ;; ret false).

(** [_setup_meeting_timeout(meeting_id)], once its sleep is over. *)
Definition _setup_meeting_timeout (env : Env) (meeting_id : string) : Op unit :=
  try_except
    (found <- lookup meeting_id ;;
     match found with
     | Some meeting =>
         if MeetingState_eqb (state meeting) ACTIVE
         then _ <- end_meeting env meeting_id "timeout" ;; ret tt
         else ret tt
     | None => ret tt
     end)
    (fun _ => logger ERROR ("Error in meeting timeout for " ++ meeting_id)).

(** [start_meeting(meeting_id)]; the joins of the participants are run in
    the order of the participant list. *)
Definition start_meeting (env : Env) (meeting_id : string) : Op bool :=
  try_except
    (found <- lookup meeting_id ;;
     match found with
     | None => logger ERROR ("Meeting not found: " ++ meeting_id) ;; ret false
     | Some meeting =>
         if negb (MeetingState_eqb (state meeting) SCHEDULED)
         then
           logger WARNING ("Meeting " ++ meeting_id ++ " not in scheduled state") ;;
           ret false
         else
           assign_state meeting_id STARTING ;;
           w <- get ;;
           when (enable_transcription meeting && speech_manager (self w))
             (provider_enum <- provider_enum_of (speech_provider meeting) ;;
              let transcription_started :=
                start_meeting_transcription env meeting_id provider_enum in
              emit (EvStartTranscription meeting_id provider_enum transcription_started) ;;
              when (negb transcription_started)
                (logger WARNING
                   ("Failed to start transcription for meeting: " ++ meeting_id))) ;;
           join_results <-
             map_m (filter (fun participant_id =>
                              PyDict.mem (agents (self w)) participant_id)
                           (participants meeting))
                   (fun participant_id =>
                      _join_agent_to_meeting env meeting_id participant_id) ;;
           let successful_joins :=
             List.length (filter (fun result => result) join_results) in
           if (0 <? successful_joins)%nat
           then
             assign_state meeting_id ACTIVE ;;
             update_meeting meeting_id (set_actual_start_time (Some (now env 0%nat))) ;;
             emit (EvSpawn (Timeout meeting_id)) ;;
             _notify_meeting_callbacks meeting_id "meeting_started" ;;
             ret true
           else
             assign_state meeting_id FAILED ;;
             logger ERROR ("No agents could join meeting: " ++ meeting_id) ;;
             ret false
     end)
    (fun _ =>
       logger ERROR ("Error starting meeting " ++ meeting_id) ;;
       w <- get ;;
       when (PyDict.mem (active_meetings (self w)) meeting_id)
         (assign_state meeting_id FAILED) ;;
       ret false).

(** [_schedule_meeting_start(meeting_id, delay_seconds)], once its sleep is
    over. *)
Definition _schedule_meeting_start (env : Env) (meeting_id : string) : Op unit :=
  try_except
    (_ <- start_meeting env meeting_id ;; ret tt)
    (fun _ => logger ERROR "Error in scheduled meeting start").

(** What [get_meeting_status] adds to the copy of the record. *)
Record MeetingStatus : Type := {
  status_record : MeetingRecord;
  transcript_length : nat;
  participants_count : nat;
  running_minutes : option float
}.

(** [get_meeting_status(meeting_id)] *)
Definition get_meeting_status (env : Env) (w : World) (meeting_id : string)
  : option MeetingStatus :=
  match PyDict.get (active_meetings (self w)) meeting_id with
  | Some meeting =>
      Some {| status_record := meeting;
              transcript_length := List.length (transcript meeting);
              participants_count := List.length (participants_joined meeting);
              running_minutes :=
                if MeetingState_eqb (state meeting) ACTIVE
                then Some (PrimFloat.div
                             (total_seconds (now env 0%nat - effective_start meeting)%Z)
                             (float_of_Z 60))
                else None |}
  | None => None
  end.

(** A meeting that counts as running: scheduled, starting or active. *)
Definition is_live (meeting : MeetingRecord) : bool :=
  MeetingState_eqb (state meeting) SCHEDULED ||
  MeetingState_eqb (state meeting) STARTING ||
  MeetingState_eqb (state meeting) ACTIVE.

(** [get_active_meetings()] *)
Definition get_active_meetings (env : Env) (w : World) : list MeetingStatus :=
  flat_map (fun item =>
              if is_live (snd item)
              then match get_meeting_status env w (fst item) with
                   | Some status => [status]
                   | None => []
                   end
              else [])
           (active_meetings (self w)).

(** The number of meetings in the states scheduled, starting or active. *)
Definition live_meetings (w : World) : Z :=
  Z.of_nat (List.length (filter (fun item => is_live (snd item))
                                (active_meetings (self w)))).

(** [cleanup()] *)
Definition cleanup (env : Env) : Op unit :=
  try_except
    (w <- get ;;
     for_each (PyDict.keys (active_meetings (self w))) (fun meeting_id =>
       meeting <- meeting_of meeting_id ;;
       when (MeetingState_eqb (state meeting) ACTIVE ||
             MeetingState_eqb (state meeting) STARTING)
         (_ <- end_meeting env meeting_id "cleanup" ;; ret tt)) ;;
     when (platform_manager (self w)) (emit EvPlatformCleanup) ;;
     when (speech_manager (self w)) (emit EvSpeechCleanup) ;;
     update_self (set_active_meetings []) ;;
     update_self (set_meeting_callbacks []))
    (fun _ => logger ERROR "Error during meeting orchestrator cleanup").

(** The body of a spawned task, run when the event loop gets to it. *)
Definition run_task (env : Env) (task : Task) : Op unit :=
  match task with
  | ScheduledStart meeting_id _ => _schedule_meeting_start env meeting_id
  | Start meeting_id => _ <- start_meeting env meeting_id ;; ret tt
  | Timeout meeting_id => _setup_meeting_timeout env meeting_id
  | AgentResponse meeting_id agent_id message context =>
      _generate_and_send_agent_response env meeting_id agent_id message context
  end.

(** The tasks a stretch of the trace spawned. *)
Definition spawned (events : list Event) : list Task :=
  flat_map (fun e => match e with EvSpawn t => [t] | _ => [] end) events.

(** The callbacks a stretch of the trace called for an event of a meeting. *)
Definition called (event meeting_id : string) (events : list Event)
  : list Callback :=
  flat_map (fun e =>
              match e with
              | EvCallback cb ev mid =>
                  if String.eqb ev event && String.eqb mid meeting_id
                  then [cb] else []
              | _ => []
              end) events.

(** The states a stretch of the trace assigned to a meeting, in order. *)
Definition transitions (meeting_id : string) (events : list Event)
  : list MeetingState :=
  flat_map (fun e =>
              match e with
              | EvState mid st => if String.eqb mid meeting_id then [st] else []
              | _ => []
              end) events.

(** The joins a stretch of the trace attempted, with their results. *)
Definition joins (events : list Event) : list (string * bool) :=
  flat_map (fun e =>
              match e with
              | EvJoin _ agent_id _ joined => [(agent_id, joined)]
              | _ => []
              end) events.

(** The callbacks registered for a meeting. *)
Definition callbacks_of (w : World) (meeting_id : string) : list Callback :=
  PyDict.get_default (meeting_callbacks (self w)) meeting_id [].

(** *** Notions the properties are stated with *)

(** The record the registry holds under an identifier. *)
Definition record_of (w : World) (meeting_id : string) : option MeetingRecord :=
  PyDict.get (active_meetings (self w)) meeting_id.

(** A meeting [end_meeting] accepts: registered, and active or starting. *)
Definition endable (w : World) (meeting_id : string) : bool :=
  match PyDict.get (active_meetings (self w)) meeting_id with
  | Some m => MeetingState_eqb (state m) ACTIVE || MeetingState_eqb (state m) STARTING
  | None => false
  end.

(** The world with another record under [meeting_id], with more events,
    with more log lines. *)
Definition put (w : World) (meeting_id : string) (m : MeetingRecord) : World :=
  {| self := set_active_meetings
               (PyDict.set (active_meetings (self w)) meeting_id m) (self w);
     trace := trace w; log := log w |}.

Definition did (w : World) (events : list Event) : World :=
  {| self := self w; trace := (trace w ++ events)%list; log := log w |}.

Definition logged (w : World) (lines : list (LogLevel * string)) : World :=
  {| self := self w; trace := trace w; log := (log w ++ lines)%list |}.

Definition after (w : World) (meeting_id : string) (m : MeetingRecord)
  (events : list Event) (lines : list (LogLevel * string)) : World :=
  logged (did (put w meeting_id m) events) lines.

Definition is_join (e : Event) : Prop :=
  match e with EvJoin _ _ _ _ => True | _ => False end.

Definition is_transcription (e : Event) : Prop :=
  match e with EvStartTranscription _ _ _ => True | _ => False end.

(** Two stretches of [start_meeting], named apart for the proofs: the start
    of the transcription, where [w0] is the orchestrator as [start_meeting]
    read it, and the conclusion drawn from the results of the joins. *)
Definition transcription_step (env : Env) (meeting_id : string)
  (meeting : MeetingRecord) (w0 : World) : Op unit :=
  when (enable_transcription meeting && speech_manager (self w0))
    (provider_enum <- provider_enum_of (speech_provider meeting) ;;
     let transcription_started :=
       start_meeting_transcription env meeting_id provider_enum in
     emit (EvStartTranscription meeting_id provider_enum transcription_started) ;;
     when (negb transcription_started)
       (logger WARNING
          ("Failed to start transcription for meeting: " ++ meeting_id))).

Definition conclude_start (env : Env) (meeting_id : string)
  (join_results : list bool) : Op bool :=
  let successful_joins :=
    List.length (filter (fun result => result) join_results) in
  if (0 <? successful_joins)%nat
  then
    assign_state meeting_id ACTIVE ;;
    update_meeting meeting_id (set_actual_start_time (Some (now env 0%nat))) ;;
    emit (EvSpawn (Timeout meeting_id)) ;;
    _notify_meeting_callbacks meeting_id "meeting_started" ;;
    ret true
  else
    assign_state meeting_id FAILED ;;
    logger ERROR ("No agents could join meeting: " ++ meeting_id) ;;
    ret false.

(** The part of a list a call appended to it. *)
Definition appended_to {A : Type} (before after_call : list A) : list A :=
  skipn (List.length before) after_call.

End Orchestrator.


(** ** Concrete inputs for the examples *)

Module Examples.
Import Py PyM Datetime Agents.
Local Open Scope pym_scope.

(** 2026-11-04 12:00:00.500000 *)
Definition noon : datetime := 63929390400500000%Z.
Definition second : timedelta := 1000000%Z.

(** A clock that starts at [base] and advances one microsecond per reading. *)
Definition ticking (base : datetime) : nat -> datetime :=
  fun k => (base + Z.of_nat k)%Z.

(** Three messages without response-eliciting marker. *)
Definition quiet_1 : string := "Looks good.".
Definition quiet_2 : string := "Merged the branch yesterday".
Definition quiet_3 : string := "Deploying it now".

(** A conversation whose facilitator is no participant: the facilitator
    opens, then A and B speak twice each. *)
Definition outsider_run : M CM.ConversationManager unit :=
  CM.initialize_conversation ["A"; "B"] (Some "F") ;;
  CM.start_conversation (Some "welcome") (ticking 0%Z) ;;
  CM.add_message "A" "first" GENERAL (ticking 100%Z) ;;
  CM.add_message "A" "second" GENERAL (ticking 200%Z) ;;
  CM.add_message "B" "third" GENERAL (ticking 300%Z) ;;
  CM.add_message "B" "fourth" GENERAL (ticking 400%Z).

Import Orchestrator.

Definition registry : PyDict.t Agent :=
  [("sarah", {| employee_name := "Sarah" |}); ("bob", {| employee_name := "Bob" |})].

(** An orchestrator with the default configuration, initialised with two
    agents. *)
Definition fresh : World := snd (initialize registry (new None None None)).

(** Collaborators: [joiner] says which agents the platform lets in, the
    transcription starts, the post-meeting handler and the agents answer
    nothing. *)
Definition env_at (base : datetime) (joiner : string -> bool) : Env :=
  {| now := ticking base;
     create_meeting := fun _ _ _ _ _ => "";
     join_meeting := fun _ agent_id _ => joiner agent_id;
     start_meeting_transcription := fun _ _ => true;
     process_meeting_completion :=
       fun _ _ => Returns {| res_summary := None; res_action_items := None;
                             res_jira_tickets := None;
                             res_confluence_docs := None |};
     generate_response := fun _ _ _ => Returns None |}.

Definition everyone (agent_id : string) : bool := true.
Definition nobody (agent_id : string) : bool := false.
Definition only_bob (agent_id : string) : bool := String.eqb agent_id "bob".

(** A valid configuration: required fields, known participants, a URL. *)
Definition config (title : string) (start : datetime) : MeetingConfig :=
  {| cfg_title := Some title; cfg_participants := Some ["sarah"; "bob"];
     cfg_start_time := Some start; cfg_duration_minutes := None;
     cfg_platform := None; cfg_enable_transcription := None;
     cfg_speech_provider := None;
     cfg_meeting_url := Some "https://meet.google.com/abc-defg-hij" |}.

Definition standup_id : string := "meeting_20261104_120000".

(** One meeting scheduled, with one callback registered for it. *)
Definition one_scheduled : World :=
  snd ((_ <- schedule_meeting (env_at noon everyone) (config "Daily Standup" noon) ;;
        add_meeting_callback standup_id 7%nat) fresh).

(** That meeting started (only bob could join), then ended. *)
Definition one_active : World :=
  snd (start_meeting (env_at (noon + second)%Z only_bob) standup_id one_scheduled).

Definition one_completed : World :=
  snd (end_meeting (env_at (noon + 5 * second)%Z everyone) standup_id "test" one_active).

(** Schedule, start and end one meeting at the second [k] after noon. *)
Definition whole_meeting (k : Z) (title : string) : Op bool :=
  meeting_id <- schedule_meeting (env_at (noon + k * second)%Z everyone)
                                 (config title noon) ;;
  _ <- start_meeting (env_at (noon + k * second + 10)%Z everyone) meeting_id ;;
  end_meeting (env_at (noon + k * second + 20)%Z everyone) meeting_id "done".

(** Three meetings held one after the other, all of them over. *)
Definition three_completed : World :=
  snd ((_ <- whole_meeting 0%Z "Sprint Planning" ;;
        _ <- whole_meeting 1%Z "Technical Review" ;;
        whole_meeting 2%Z "Daily Standup") fresh).

(** A final and a partial transcription event. *)
Definition heard (kind text : string) : TranscriptionResult :=
  {| tr_timestamp := noon; tr_speaker := "Human"; tr_text := text;
     tr_confidence := 0.9%float; tr_type := kind; tr_provider := Some "azure" |}.

End Examples.

(** ** Notions for the further properties of the conversation manager *)

Module Turns.
Import Py PyStr PyM Datetime Agents CM.
Local Open Scope pym_scope.

(** [sum(d.values())] *)
Definition total {V : Type} (count : V -> Z) (d : PyDict.t V) : Z :=
  fold_right (fun item acc => (count (snd item) + acc)%Z) 0%Z d.

(** The message [_add_message] builds. *)
Definition message_of (speaker content : string) (message_type : MessageType)
  (t_msg : datetime) : MeetingMessage :=
  {| msg_speaker := speaker; msg_content := content;
     msg_message_type := message_type; msg_timestamp := t_msg;
     msg_context_used := None; msg_confidence := 1.0%float |}.

(** The first participant, in the order of the participant list, whose name
    occurs in the text whatever the case of the letters. *)
Definition first_mentioned (c : ConversationManager) (content : string)
  : option string :=
  find (fun p => contains (lower p) (lower content)) (participants c).

(** The turn counts add up to the number of messages of the history. *)
Definition counted (c : ConversationManager) : Prop :=
  total (fun n : Z => n) (turn_counts c)
  = Z.of_nat (List.length (conversation_history c)).

(** The words the keyword extraction of [get_conversation_summary] reads. *)
Definition words_of (history : list MeetingMessage) : list string :=
  split (lower (join " " (map msg_content history))).

(** A conversation of three, set up for each strategy. *)
Definition three (s : TurnTakingStrategy) : ConversationManager :=
  exec (initialize_conversation ["A"; "B"; "C"] None) (new s).

(** A conversation that lost its participants: the facilitator opened it,
    then a second initialisation with an empty list raised. *)
Definition emptied (s : TurnTakingStrategy) (first opening : string)
  (clock : Clock) : ConversationManager :=
  exec (initialize_conversation [] None)
    (exec (initialize_conversation [first] None ;;
           start_conversation (Some opening) clock) (new s)).

End Turns.

(** ** Notions for the further properties of the orchestrator *)

Module Lifecycle.
Import Py PyStr PyM Datetime Agents Orchestrator.
Local Open Scope pym_scope.

(** A meeting [start_meeting] accepts: registered and scheduled. *)
Definition startable (w : World) (meeting_id : string) : bool :=
  match PyDict.get (active_meetings (self w)) meeting_id with
  | Some m => MeetingState_eqb (state m) SCHEDULED
  | None => false
  end.

(** What [_join_agent_to_meeting] returns for an agent: [false] without a
    platform manager or when the platform of the record is no value of the
    enumeration, the answer of the platform manager otherwise. *)
Definition join_answer (env : Env) (w : World) (m : MeetingRecord)
  (agent_id : string) : bool :=
  platform_manager (self w) &&
  match platform m with
  | Some p =>
      if truthy p
      then match MeetingPlatform_of p with
           | Some pe => join_meeting env (meeting_url m) agent_id (Some pe)
           | None => false
           end
      else join_meeting env (meeting_url m) agent_id None
  | None => join_meeting env (meeting_url m) agent_id None
  end.

(** The participants [start_meeting] tries to join: those that are
    registered agents. *)
Definition candidates (w : World) (m : MeetingRecord) : list string :=
  filter (fun p => PyDict.mem (agents (self w)) p) (participants m).

(** The transcription is wanted for the meeting, and its provider is no
    value of the enumeration. *)
Definition provider_unknown (w : World) (m : MeetingRecord) : bool :=
  enable_transcription m && speech_manager (self w) &&
  match speech_provider m with
  | Some p =>
      truthy p && match SpeechProvider_of p with Some _ => false | None => true end
  | None => false
  end.

(** The agents a call of [start_meeting] joins to the meeting. *)
Definition let_in (env : Env) (w : World) (m : MeetingRecord) : list string :=
  if provider_unknown w m then []
  else filter (join_answer env w m) (candidates w m).

(** A state no call but [schedule_meeting] leaves. *)
Definition final (s : MeetingState) : bool :=
  MeetingState_eqb s COMPLETED || MeetingState_eqb s FAILED.

(** The calls that act on a registered meeting. *)
Inductive call : Type :=
| StartMeeting (env : Env) (meeting_id : string)
| EndMeeting (env : Env) (meeting_id reason : string)
| MeetingTimeout (env : Env) (meeting_id : string)
| Transcription (env : Env) (meeting_id : string) (result : TranscriptionResult)
| Respond (env : Env) (meeting_id agent_id : string) (message : MeetingMessage)
    (context : MeetingContext)
| AddCallback (meeting_id : string) (callback : Callback).

Definition run (c : call) : Op unit :=
  match c with
  | StartMeeting env meeting_id => _ <- start_meeting env meeting_id ;; ret tt
  | EndMeeting env meeting_id reason => _ <- end_meeting env meeting_id reason ;; ret tt
  | MeetingTimeout env meeting_id => _setup_meeting_timeout env meeting_id
  | Transcription env meeting_id result => transcription_callback env meeting_id result
  | Respond env meeting_id agent_id message context =>
      _generate_and_send_agent_response env meeting_id agent_id message context
  | AddCallback meeting_id callback => add_meeting_callback meeting_id callback
  end.

(** The world after a sequence of calls. *)
Definition run_all (calls : list call) (w : World) : World :=
  fold_left (fun w c => snd (run c w)) calls w.

(** What the calls on meetings leave of a record: everything but what a
    meeting gathers while it runs. *)
Definition same_meeting (m m' : MeetingRecord) : Prop :=
  id m' = id m /\ title m' = title m /\ participants m' = participants m /\
  start_time m' = start_time m /\ duration_minutes m' = duration_minutes m /\
  platform m' = platform m /\ meeting_url m' = meeting_url m /\
  created_time m' = created_time m.

(** How the calls on meetings may change a record: the configuration
    stays, the transcript and the list of joined agents only grow, and a
    record in a final state keeps its state, its joined agents and the end
    of the meeting. *)
Definition evolves (m m' : MeetingRecord) : Prop :=
  same_meeting m m' /\
  (exists more, transcript m' = (transcript m ++ more)%list) /\
  (exists more, participants_joined m' = (participants_joined m ++ more)%list) /\
  (final (state m) = true ->
     state m' = state m /\ participants_joined m' = participants_joined m /\
     actual_start_time m' = actual_start_time m /\
     end_time m' = end_time m /\ end_reason m' = end_reason m).

(** The events [end_meeting] adds to the trace for a meeting it accepts. *)
Definition ending_events (w : World) (meeting_id : string) (m : MeetingRecord)
  : list Event :=
  ([EvState meeting_id ENDING] ++
   (if enable_transcription m && speech_manager (self w)
    then [EvStopTranscription meeting_id] else []) ++
   (if platform_manager (self w) then map EvLeave (participants_joined m) else []) ++
   [EvState meeting_id COMPLETED] ++
   map (fun cb => EvCallback cb "meeting_ended" meeting_id)
       (callbacks_of w meeting_id))%list.

(** A meeting scheduled with the platform written ["Teams"]. *)
Definition teams_config : MeetingConfig :=
  {| cfg_title := Some "Daily Standup"; cfg_participants := Some ["sarah"; "bob"];
     cfg_start_time := Some Examples.noon; cfg_duration_minutes := None;
     cfg_platform := Some "Teams"; cfg_enable_transcription := None;
     cfg_speech_provider := None;
     cfg_meeting_url := Some "https://teams.microsoft.com/l/meetup-join/19" |}.

Definition capitalised : World :=
  snd (schedule_meeting (Examples.env_at Examples.noon Examples.everyone)
         teams_config Examples.fresh).

(** The record [schedule_meeting] makes of a configuration. *)
Definition scheduled_record (env : Env) (w : World) (config : MeetingConfig)
  (title url : string) (ps : list string) (start : datetime) : MeetingRecord :=
  {| id := "meeting_" ++ strftime_Ymd_HMS (now env 0%nat);
     title := title; participants := ps; start_time := start;
     duration_minutes :=
       match cfg_duration_minutes config with Some d => d | None => 60%Z end;
     platform := cfg_platform config;
     meeting_url := url;
     enable_transcription :=
       match cfg_enable_transcription config with
       | Some b => b | None => auto_transcription (self w) end;
     speech_provider := cfg_speech_provider config;
     state := SCHEDULED;
     created_time := now env 1%nat;
     transcript := []; participants_joined := [];
     actual_start_time := None; end_time := None;
     end_reason := None; summary := None; action_items := None;
     jira_tickets := None; confluence_docs := None |}.

(** A configuration [_validate_meeting_config] rejects: a required field is
    missing, or a participant is no registered agent. *)
Definition invalid (w : World) (config : MeetingConfig) : Prop :=
  cfg_title config = None \/ cfg_participants config = None \/
  cfg_start_time config = None \/
  exists ps p, cfg_participants config = Some ps /\ In p ps /\
               PyDict.mem (agents (self w)) p = false.

(** A configuration that names somebody unknown. *)
Definition stranger_config : MeetingConfig :=
  {| cfg_title := Some "Daily Standup"; cfg_participants := Some ["sarah"; "mallory"];
     cfg_start_time := Some Examples.noon; cfg_duration_minutes := None;
     cfg_platform := None; cfg_enable_transcription := None;
     cfg_speech_provider := None;
     cfg_meeting_url := Some "https://meet.google.com/abc-defg-hij" |}.

End Lifecycle.

(** ** [MeetingPlatformManager] ([meeting_platforms/platform_manager.py]) *)

Module PlatformManager.
Import Py PyStr PyM Datetime Orchestrator.

(** [platform.value] *)
Definition MeetingPlatform_value (p : MeetingPlatform) : string :=
  match p with
  | TEAMS => "teams"
  | GOOGLE_MEET => "google_meet"
  | ZOOM => "zoom"
  | WEBEX => "webex"
  end.

Definition MeetingPlatform_eqb (a b : MeetingPlatform) : bool :=
  match a, b with
  | TEAMS, TEAMS | GOOGLE_MEET, GOOGLE_MEET | ZOOM, ZOOM | WEBEX, WEBEX => true
  | _, _ => false
  end.

(** The attributes of [self] the routing reads.  An integration is either
    an object, which is truthy, or [None]. *)
Record MeetingPlatformManager : Type := {
  teams_integration : bool;
  google_meet_integration : bool;
  preferred_platform : MeetingPlatform;
  enabled_platforms : list MeetingPlatform
}.

(** What the integrations do when they are constructed, initialised and
    awaited: they return, or raise. *)
Record Integrations : Type := {
  teams_new : outcome unit;
  teams_initialize : outcome unit;
  teams_join_meeting : string -> string -> outcome bool;
  teams_create_meeting : string -> list string -> datetime -> Z -> outcome string;
  google_meet_new : outcome unit;
  google_meet_initialize : outcome unit;
  google_meet_join_meeting : string -> string -> outcome bool
}.

(** [_get_preferred_platform()]; [configured] is the value of
    ['preferred_platform'] in the configuration, if the key is there. *)
Definition _get_preferred_platform (configured : option string) : MeetingPlatform :=
  let platform_name := match configured with Some n => n | None => "teams" end in
  match MeetingPlatform_of (lower platform_name) with
  | Some p => p
  | None => TEAMS
  end.

(** [_get_enabled_platforms()] *)
Definition _get_enabled_platforms (configured : option (list string))
  : list MeetingPlatform :=
  let enabled :=
    match configured with Some l => l | None => ["teams"; "google_meet"] end in
  flat_map (fun platform_name =>
              match MeetingPlatform_of (lower platform_name) with
              | Some p => [p]
              | None => []
              end) enabled.

(** [MeetingPlatformManager(config_manager)] *)
Definition new (preferred : option string) (enabled : option (list string))
  : MeetingPlatformManager :=
  {| teams_integration := false; google_meet_integration := false;
     preferred_platform := _get_preferred_platform preferred;
     enabled_platforms := _get_enabled_platforms enabled |}.

(** [_initialize_teams_integration(agents)]: the attribute is assigned once
    the object is constructed, before its initialisation is awaited; what
    either raises is logged and swallowed. *)
Definition _initialize_teams_integration (io : Integrations)
  (pm : MeetingPlatformManager) : MeetingPlatformManager :=
  match teams_new io with
  | Returns _ =>
      let assigned :=
        {| teams_integration := true;
           google_meet_integration := google_meet_integration pm;
           preferred_platform := preferred_platform pm;
           enabled_platforms := enabled_platforms pm |} in
      match teams_initialize io with
      | Returns _ => assigned
      | Raises _ => assigned
      end
  | Raises _ => pm
  end.

(** [_initialize_google_meet_integration(agents)] *)
Definition _initialize_google_meet_integration (io : Integrations)
  (pm : MeetingPlatformManager) : MeetingPlatformManager :=
  match google_meet_new io with
  | Returns _ =>
      let assigned :=
        {| teams_integration := teams_integration pm;
           google_meet_integration := true;
           preferred_platform := preferred_platform pm;
           enabled_platforms := enabled_platforms pm |} in
      match google_meet_initialize io with
      | Returns _ => assigned
      | Raises _ => assigned
      end
  | Raises _ => pm
  end.

(** [initialize(agents)] *)
Definition initialize (io : Integrations) (pm : MeetingPlatformManager)
  : MeetingPlatformManager :=
  let pm1 := if existsb (MeetingPlatform_eqb TEAMS) (enabled_platforms pm)
             then _initialize_teams_integration io pm else pm in
  if existsb (MeetingPlatform_eqb GOOGLE_MEET) (enabled_platforms pm1)
  then _initialize_google_meet_integration io pm1 else pm1.

(** [_detect_platform_from_url(meeting_url)] *)
Definition _detect_platform_from_url (pm : MeetingPlatformManager)
  (meeting_url : string) : MeetingPlatform :=
  let url_lower := lower meeting_url in
  if contains "teams.microsoft.com" url_lower then TEAMS
  else if contains "meet.google.com" url_lower then GOOGLE_MEET
  else if contains "zoom.us" url_lower then ZOOM
  else if contains "webex.com" url_lower then WEBEX
  else preferred_platform pm.

(** The platform [join_meeting] routes to. *)
Definition join_platform (pm : MeetingPlatformManager) (meeting_url : string)
  (platform : option MeetingPlatform) : MeetingPlatform :=
  match platform with
  | Some p => p
  | None => _detect_platform_from_url pm meeting_url
  end.

(** [join_meeting(meeting_url, agent_id, platform=None)]; what an
    integration raises is logged and answered by [False]. *)
Definition join_meeting (io : Integrations) (pm : MeetingPlatformManager)
  (meeting_url agent_id : string) (platform : option MeetingPlatform) : bool :=
  let platform := join_platform pm meeting_url platform in
  if MeetingPlatform_eqb platform TEAMS && teams_integration pm then
    match teams_join_meeting io meeting_url agent_id with
    | Returns joined => joined
    | Raises _ => false
    end
  else if MeetingPlatform_eqb platform GOOGLE_MEET && google_meet_integration pm then
    match google_meet_join_meeting io meeting_url agent_id with
    | Returns joined => joined
    | Raises _ => false
    end
  else false.

(** The platform [create_meeting] routes to. *)
Definition create_platform (pm : MeetingPlatformManager)
  (platform : option MeetingPlatform) : MeetingPlatform :=
  match platform with
  | Some p => p
  | None => preferred_platform pm
  end.

(** [create_meeting(title, participants, start_time, duration_minutes,
    platform=None)] *)
Definition create_meeting (io : Integrations) (pm : MeetingPlatformManager)
  (title : string) (participants : list string) (start_time : datetime)
  (duration_minutes : Z) (platform : option MeetingPlatform) : string :=
  let platform := create_platform pm platform in
  if MeetingPlatform_eqb platform TEAMS && teams_integration pm then
    match teams_create_meeting io title participants start_time duration_minutes with
    | Returns url => url
    | Raises _ => ""
    end
  else if MeetingPlatform_eqb platform GOOGLE_MEET then ""
  else "".

(** [get_available_platforms()] *)
Definition get_available_platforms (pm : MeetingPlatformManager)
  : list MeetingPlatform :=
  ((if teams_integration pm then [TEAMS] else []) ++
   (if google_meet_integration pm then [GOOGLE_MEET] else []))%list.

(** [is_platform_available(platform)] *)
Definition is_platform_available (pm : MeetingPlatformManager)
  (platform : MeetingPlatform) : bool :=
  existsb (MeetingPlatform_eqb platform) (get_available_platforms pm).

(** [leave_meeting(agent_id, platform=None)]: whether the call reaches the
    Google Meet integration; it never reaches the Teams integration. *)
Definition leave_meeting_reaches_google_meet (pm : MeetingPlatformManager)
  (platform : option MeetingPlatform) : bool :=
  match platform with
  | None => google_meet_integration pm
  | Some p =>
      if MeetingPlatform_eqb p TEAMS && teams_integration pm then false
      else MeetingPlatform_eqb p GOOGLE_MEET && google_meet_integration pm
  end.

(** The orchestrator's collaborators when its platform manager is [pm]:
    the clock and the other collaborators are those of [base]. *)
Definition with_platform_manager (io : Integrations) (pm : MeetingPlatformManager)
  (base : Env) : Env :=
  {| now := now base;
     Orchestrator.create_meeting := create_meeting io pm;
     Orchestrator.join_meeting := join_meeting io pm;
     start_meeting_transcription := start_meeting_transcription base;
     process_meeting_completion := process_meeting_completion base;
     generate_response := generate_response base |}.

(** The platform a record is joined on: the one its platform text names
    and, without such a text, the one read off its address. *)
Definition platform_of_record (pm : MeetingPlatformManager) (m : MeetingRecord)
  : option MeetingPlatform :=
  match platform m with
  | Some p =>
      if truthy p then MeetingPlatform_of p
      else Some (_detect_platform_from_url pm (meeting_url m))
  | None => Some (_detect_platform_from_url pm (meeting_url m))
  end.

(** Integrations that construct, initialise and let everybody in. *)
Definition obliging : Integrations :=
  {| teams_new := Returns tt; teams_initialize := Returns tt;
     teams_join_meeting := fun _ _ => Returns true;
     teams_create_meeting :=
       fun _ _ _ _ => Returns "https://teams.microsoft.com/l/meetup-join/mock_meeting_id";
     google_meet_new := Returns tt; google_meet_initialize := Returns tt;
     google_meet_join_meeting := fun _ _ => Returns true |}.

(** The manager of the default configuration, initialised. *)
Definition default_manager : MeetingPlatformManager :=
  initialize obliging (new None None).

(** A meeting scheduled at a Zoom address, platform not given. *)
Definition zoom_config : MeetingConfig :=
  {| cfg_title := Some "Daily Standup"; cfg_participants := Some ["sarah"; "bob"];
     cfg_start_time := Some Examples.noon; cfg_duration_minutes := None;
     cfg_platform := None; cfg_enable_transcription := None;
     cfg_speech_provider := None;
     cfg_meeting_url := Some "https://us02web.Zoom.us/j/8765" |}.

Definition zoom_scheduled : World :=
  snd (schedule_meeting (Examples.env_at Examples.noon Examples.everyone)
         zoom_config Examples.fresh).

(** A configuration without address, for Google Meet. *)
Definition meet_config : MeetingConfig :=
  {| cfg_title := Some "Daily Standup"; cfg_participants := Some ["sarah"; "bob"];
     cfg_start_time := Some Examples.noon; cfg_duration_minutes := None;
     cfg_platform := Some "google_meet"; cfg_enable_transcription := None;
     cfg_speech_provider := None; cfg_meeting_url := None |}.

(** The platform a configuration without address is created on: the one
    its platform text names and, without such a text, the preferred one. *)
Definition platform_of_config (pm : MeetingPlatformManager) (config : MeetingConfig)
  : option MeetingPlatform :=
  match cfg_platform config with
  | Some p => if truthy p then MeetingPlatform_of p else Some (preferred_platform pm)
  | None => Some (preferred_platform pm)
  end.

End PlatformManager.

(** ** [SpeechProcessingManager] ([speech_processing/speech_manager.py]) *)

Module SpeechManager.
Import Py PyStr PyM Datetime Orchestrator.
Local Open Scope pym_scope.

(** [provider.value] *)
Definition SpeechProvider_value (p : SpeechProvider) : string :=
  match p with
  | AZURE => "azure"
  | GOOGLE_CLOUD => "google_cloud"
  | OPENAI_WHISPER => "whisper"
  end.

Definition SpeechProvider_eqb (a b : SpeechProvider) : bool :=
  match a, b with
  | AZURE, AZURE | GOOGLE_CLOUD, GOOGLE_CLOUD | OPENAI_WHISPER, OPENAI_WHISPER => true
  | _, _ => false
  end.

(** A value of [self.active_transcriptions]; the callback it also holds is
    left out. *)
Record TranscriptionInfo : Type := {
  info_provider : SpeechProvider;
  info_start_time : datetime
}.

(** The attributes of [self]; an integration is an object, which is
    truthy, or [None]. *)
Record SpeechProcessingManager : Type := {
  azure_integration : bool;
  google_integration : bool;
  whisper_integration : bool;
  preferred_provider : SpeechProvider;
  enabled_providers : list SpeechProvider;
  fallback_enabled : bool;
  active_transcriptions : PyDict.t TranscriptionInfo
}.

(** A call that reached an integration. *)
Inductive Call : Type :=
| StartCall (provider : SpeechProvider) (meeting_id : string)
| StopCall (provider : SpeechProvider) (meeting_id : string).

(** The manager with the calls it has made to its integrations. *)
Record Studio : Type := {
  manager : SpeechProcessingManager;
  calls : list Call
}.

(** What the integrations answer when they are set up and awaited, and the
    clock. *)
Record Services : Type := {
  set_up : SpeechProvider -> outcome bool;
  starts : SpeechProvider -> string -> outcome bool;
  stops : SpeechProvider -> string -> outcome unit;
  clock : nat -> datetime
}.

(** [del d[k]] for a key that is there. *)
Fixpoint remove {V : Type} (d : PyDict.t V) (k : string) : PyDict.t V :=
  match d with
  | [] => []
  | (k', v) :: d' => if String.eqb k' k then d' else (k', v) :: remove d' k
  end.

(** [_get_preferred_provider()] *)
Definition _get_preferred_provider (configured : option string) : SpeechProvider :=
  let provider_name := match configured with Some n => n | None => "azure" end in
  match SpeechProvider_of (lower provider_name) with
  | Some p => p
  | None => AZURE
  end.

(** [_get_enabled_providers()] *)
Definition _get_enabled_providers (configured : option (list string))
  : list SpeechProvider :=
  let enabled :=
    match configured with
    | Some l => l
    | None => ["azure"; "google_cloud"; "whisper"]
    end in
  flat_map (fun provider_name =>
              match SpeechProvider_of (lower provider_name) with
              | Some p => [p]
              | None => []
              end) enabled.

(** [SpeechProcessingManager(config_manager)] *)
Definition new (preferred : option string) (enabled : option (list string))
  (enable_fallback : option bool) : SpeechProcessingManager :=
  {| azure_integration := false; google_integration := false;
     whisper_integration := false;
     preferred_provider := _get_preferred_provider preferred;
     enabled_providers := _get_enabled_providers enabled;
     fallback_enabled := match enable_fallback with Some b => b | None => true end;
     active_transcriptions := [] |}.

(** The integration of a provider. *)
Definition integration (m : SpeechProcessingManager) (p : SpeechProvider) : bool :=
  match p with
  | AZURE => azure_integration m
  | GOOGLE_CLOUD => google_integration m
  | OPENAI_WHISPER => whisper_integration m
  end.

Definition set_integration (p : SpeechProvider) (v : bool)
  (m : SpeechProcessingManager) : SpeechProcessingManager :=
  {| azure_integration := match p with AZURE => v | _ => azure_integration m end;
     google_integration := match p with GOOGLE_CLOUD => v | _ => google_integration m end;
     whisper_integration :=
       match p with OPENAI_WHISPER => v | _ => whisper_integration m end;
     preferred_provider := preferred_provider m;
     enabled_providers := enabled_providers m;
     fallback_enabled := fallback_enabled m;
     active_transcriptions := active_transcriptions m |}.

Definition set_active_transcriptions (v : PyDict.t TranscriptionInfo)
  (m : SpeechProcessingManager) : SpeechProcessingManager :=
  {| azure_integration := azure_integration m;
     google_integration := google_integration m;
     whisper_integration := whisper_integration m;
     preferred_provider := preferred_provider m;
     enabled_providers := enabled_providers m;
     fallback_enabled := fallback_enabled m;
     active_transcriptions := v |}.

(** [_initialize_azure_integration()] and its two siblings: the
    integration stays only if its set-up answers true; when it answers
    false or raises, the attribute is [None]. *)
Definition _initialize_integration (io : Services) (p : SpeechProvider)
  (m : SpeechProcessingManager) : SpeechProcessingManager :=
  match set_up io p with
  | Returns true => set_integration p true m
  | Returns false => set_integration p false m
  | Raises _ => set_integration p false m
  end.

(** [initialize()] *)
Definition initialize (io : Services) (m : SpeechProcessingManager)
  : SpeechProcessingManager :=
  fold_left (fun m p =>
               if existsb (SpeechProvider_eqb p) (enabled_providers m)
               then _initialize_integration io p m else m)
            [AZURE; GOOGLE_CLOUD; OPENAI_WHISPER] m.

(** [get_available_providers()] *)
Definition get_available_providers (m : SpeechProcessingManager)
  : list SpeechProvider :=
  ((if azure_integration m then [AZURE] else []) ++
   (if google_integration m then [GOOGLE_CLOUD] else []) ++
   (if whisper_integration m then [OPENAI_WHISPER] else []))%list.

(** [is_provider_available(provider)] *)
Definition is_provider_available (m : SpeechProcessingManager)
  (provider : SpeechProvider) : bool :=
  existsb (SpeechProvider_eqb provider) (get_available_providers m).

(** [_select_best_provider()] *)
Definition _select_best_provider (m : SpeechProcessingManager) : SpeechProvider :=
  if is_provider_available m (preferred_provider m) then preferred_provider m
  else
    match find (is_provider_available m) [AZURE; GOOGLE_CLOUD; OPENAI_WHISPER] with
    | Some p => p
    | None =>
        match get_available_providers m with
        | p :: _ => p
        | [] => preferred_provider m
        end
    end.

(** [_select_fallback_provider()] *)
Definition _select_fallback_provider (m : SpeechProcessingManager)
  : option SpeechProvider :=
  hd_error (filter (fun p => negb (SpeechProvider_eqb p (preferred_provider m)))
                   (get_available_providers m)).

Definition update_manager (f : SpeechProcessingManager -> SpeechProcessingManager)
  : M Studio unit :=
  modify (fun s => {| manager := f (manager s); calls := calls s |}).

Definition call (c : Call) : M Studio unit :=
  modify (fun s => {| manager := manager s; calls := calls s ++ [c] |}).

Definition lift {A : Type} (o : outcome A) : M Studio A :=
  match o with
  | Returns a => ret a
  | Raises e => raise e
  end.

(** The provider [start_meeting_transcription] settles on, or [None] where
    it returns [False] for want of one. *)
Definition settle (m : SpeechProcessingManager) (provider : option SpeechProvider)
  : option SpeechProvider :=
  let provider :=
    match provider with Some p => p | None => _select_best_provider m end in
  if negb (is_provider_available m provider)
  then if fallback_enabled m then _select_fallback_provider m else None
  else Some provider.

(** [start_meeting_transcription(meeting_id, provider=None, callback=None)] *)
Definition start_meeting_transcription (io : Services) (meeting_id : string)
  (provider : option SpeechProvider) : M Studio bool :=
  try_except
    (s <- get ;;
     if PyDict.mem (active_transcriptions (manager s)) meeting_id then ret true
     else
       match settle (manager s) provider with
       | None => ret false
       | Some provider =>
           success <-
             (if integration (manager s) provider
              then call (StartCall provider meeting_id) ;;
                   lift (starts io provider meeting_id)
              else ret false) ;;
           if success
           then
             update_manager (fun m =>
               set_active_transcriptions
                 (PyDict.set (active_transcriptions m) meeting_id
                    {| info_provider := provider;
                       info_start_time := clock io 0%nat |}) m) ;;
             ret true
           else ret false
       end)
    (fun _ => ret false).

(** [stop_meeting_transcription(meeting_id)] *)
Definition stop_meeting_transcription (io : Services) (meeting_id : string)
  : M Studio unit :=
  try_except
    (s <- get ;;
     match PyDict.get (active_transcriptions (manager s)) meeting_id with
     | None => ret tt
     | Some transcription_info =>
         let provider := info_provider transcription_info in
         when (integration (manager s) provider)
           (call (StopCall provider meeting_id) ;;
            lift (stops io provider meeting_id)) ;;
         update_manager (fun m =>
           set_active_transcriptions (remove (active_transcriptions m) meeting_id) m)
     end)
    (fun _ => ret tt).

(** A manager with the default configuration on which only the preferred
    provider, Azure, could be set up. *)
Definition only_azure : Services :=
  {| set_up := fun p => Returns (SpeechProvider_eqb p AZURE);
     starts := fun _ _ => Returns true;
     stops := fun _ _ => Returns tt;
     clock := Examples.ticking Examples.noon |}.

Definition azure_studio : Studio :=
  {| manager := initialize only_azure (new None None None); calls := [] |}.

End SpeechManager.

(** * Facts about the Python primitives *)

Module DictFacts.
Import PyDict.

Lemma get_set_same {V : Type} (d : t V) (k : string) (v : V) :
  get (set d k v) k = Some v.
Proof.
  induction d as [ | [k' v'] d IH]; simpl.
  - now rewrite String.eqb_refl.
  - destruct (String.eqb k' k) eqn:E; simpl; rewrite E; auto.
Qed.

Lemma get_set_other {V : Type} (d : t V) (k k' : string) (v : V) :
  k <> k' -> get (set d k v) k' = get d k'.
Proof.
  intros Hne. induction d as [ | [k0 v0] d IH]; simpl.
  - destruct (String.eqb_spec k k'); [ contradiction | reflexivity ].
  - destruct (String.eqb_spec k0 k) as [-> | Hk0]; simpl.
    + destruct (String.eqb_spec k k'); [ contradiction | reflexivity ].
    + destruct (String.eqb_spec k0 k'); [ reflexivity | exact IH ].
Qed.

Lemma keys_set {V : Type} (d : t V) (k : string) (v : V) (x : string) :
  In x (keys (set d k v)) <-> x = k \/ In x (keys d).
Proof.
  unfold keys. induction d as [ | [k0 v0] d IH]; simpl.
  - intuition.
  - destruct (String.eqb_spec k0 k) as [-> | Hk0]; simpl.
    + intuition.
    + rewrite IH. intuition.
Qed.

Lemma get_in_keys {V : Type} (d : t V) (k : string) :
  In k (keys d) <-> exists v, get d k = Some v.
Proof.
  unfold keys. induction d as [ | [k0 v0] d IH]; simpl.
  - split; [ intros [] | intros [v Hv]; discriminate ].
  - destruct (String.eqb_spec k0 k) as [-> | Hk0].
    + split; [ intros _; now exists v0 | now left ].
    + rewrite <- IH. split; [ intros [H | H]; [ contradiction | exact H ] | now right ].
Qed.

Lemma from_keys_get {V : Type} (f : string -> V) (ks : list string) (k : string) :
  In k ks -> get (from_keys f ks) k = Some (f k).
Proof.
  unfold from_keys.
  assert (G : forall d, (In k ks \/ get d k = Some (f k)) ->
            get (fold_left (fun d k => set d k (f k)) ks d) k = Some (f k)).
  { induction ks as [ | k0 ks IH]; intros d [H | H]; simpl.
    - destruct H.
    - exact H.
    - apply IH. destruct H as [-> | H]; [ right; apply get_set_same | now left ].
    - apply IH. right. destruct (String.eqb_spec k0 k) as [-> | Hne].
      + apply get_set_same.
      + now rewrite get_set_other. }
  intros H. apply G. now left.
Qed.

Lemma from_keys_keys {V : Type} (f : string -> V) (ks : list string) (k : string) :
  In k (keys (from_keys f ks)) <-> In k ks.
Proof.
  unfold from_keys.
  assert (G : forall d, In k (keys (fold_left (fun d k => set d k (f k)) ks d))
                        <-> In k ks \/ In k (keys d)).
  { induction ks as [ | k0 ks IH]; intros d; simpl.
    - intuition.
    - rewrite IH, keys_set. intuition. }
  rewrite G. simpl. intuition.
Qed.

Lemma set_set {V : Type} (d : PyDict.t V) (k : string) (v v' : V) :
  PyDict.set (PyDict.set d k v) k v' = PyDict.set d k v'.
Proof.
  induction d as [ | [k0 v0] d IH]; simpl.
  - now rewrite String.eqb_refl.
  - destruct (String.eqb k0 k) eqn:E; simpl; rewrite E; [ reflexivity | now rewrite IH ].
Qed.

Lemma set_get {V : Type} (d : PyDict.t V) (k : string) (v : V) :
  PyDict.get d k = Some v -> PyDict.set d k v = d.
Proof.
  induction d as [ | [k0 v0] d IH]; simpl; [ discriminate | ].
  destruct (String.eqb_spec k0 k) as [-> | Hne].
  - now intros [= ->].
  - intros H. now rewrite IH.
Qed.

Lemma mem_get {V : Type} (d : PyDict.t V) (k : string) (v : V) :
  PyDict.get d k = Some v -> PyDict.mem d k = true.
Proof. unfold PyDict.mem. now intros ->. Qed.

End DictFacts.

Module StrFacts.
Import PyStr.

Lemma append_nil_r (s : string) : s ++ "" = s.
Proof. induction s; simpl; congruence. Qed.

Lemma append_assoc (a b c : string) : (a ++ b) ++ c = a ++ (b ++ c).
Proof. induction a; simpl; congruence. Qed.

Lemma startswith_spec (s p : string) :
  startswith s p = true <-> exists post, s = p ++ post.
Proof.
  revert s. induction p as [ | a p IH]; intros s; simpl.
  - split; [ intros _; now exists s | reflexivity ].
  - destruct s as [ | b s].
    + split; [ discriminate | intros [post H]; discriminate ].
    + rewrite andb_true_iff, IH. split.
      * intros [E [post ->]]. apply Ascii.eqb_eq in E. subst. now exists post.
      * intros [post [= -> ->]]. split; [ apply Ascii.eqb_refl | now exists post ].
Qed.

Lemma contains_spec (needle hay : string) :
  contains needle hay = true <-> occurs_in needle hay.
Proof.
  unfold occurs_in. induction hay as [ | c hay IH].
  - simpl. rewrite orb_false_r, startswith_spec. split.
    + intros [post H]. now exists "", post.
    + intros [pre [post H]]. destruct pre; [ now exists post | discriminate ].
  - cbn [contains]. rewrite orb_true_iff, startswith_spec, IH. split.
    + intros [[post H] | [pre [post H]]].
      * now exists "", post.
      * exists (String c pre), post. simpl. now rewrite H.
    + intros [pre [post H]]. destruct pre as [ | c' pre].
      * left. now exists post.
      * right. injection H as _ H. now exists pre, post.
Qed.

Lemma lower_app (a b : string) : lower (a ++ b) = lower a ++ lower b.
Proof. induction a; simpl; congruence. Qed.

Lemma lower_length (s : string) : String.length (lower s) = String.length s.
Proof. induction s; simpl; congruence. Qed.

(** A split of the lowered text comes from a split of the text. *)
Lemma lower_split (s a b : string) :
  lower s = a ++ b -> exists x y, s = x ++ y /\ lower x = a /\ lower y = b.
Proof.
  revert s. induction a as [ | c a IH]; intros s H.
  - exists "", s. auto.
  - destruct s as [ | d s]; [ discriminate | ].
    simpl in H. injection H as Hc H.
    destruct (IH s H) as [x [y [-> [Hx Hy]]]].
    exists (String d x), y. simpl. now rewrite Hc, Hx.
Qed.

Lemma lower_ascii_idem (c : ascii) : lower_ascii (lower_ascii c) = lower_ascii c.
Proof.
  destruct c as [[] [] [] [] [] [] [] []]; reflexivity.
Qed.

Lemma lower_idem (s : string) : lower (lower s) = lower s.
Proof. induction s; simpl; [ | rewrite lower_ascii_idem ]; congruence. Qed.

(** [lower(needle) in lower(hay)] is the case-insensitive occurrence. *)
Lemma contains_lower_spec (needle hay : string) :
  contains (lower needle) (lower hay) = true <-> occurs_ci needle hay.
Proof.
  rewrite contains_spec. unfold occurs_in, occurs_ci. split.
  - intros [pre [post H]].
    destruct (lower_split _ _ _ H) as [x [y [-> [Hx Hy]]]].
    destruct (lower_split _ _ _ Hy) as [mid [z [-> [Hm Hz]]]].
    now exists x, mid, z.
  - intros [pre [mid [post [-> H]]]].
    exists (lower pre), (lower post). now rewrite !lower_app, H.
Qed.

Lemma endswith_spec (s suffix : string) :
  endswith s suffix = true <-> exists body, s = body ++ suffix.
Proof.
  induction s as [ | c s IH].
  - cbn [endswith]. rewrite orb_false_r, String.eqb_eq. split.
    + intros <-. now exists "".
    + intros [body H]. destruct body; [ exact H | discriminate ].
  - cbn [endswith]. rewrite orb_true_iff, String.eqb_eq, IH. split.
    + intros [<- | [body ->]]; [ now exists "" | now exists (String c body) ].
    + intros [body H]. destruct body as [ | c' body].
      * now left.
      * right. injection H as _ H. now exists body.
Qed.

Lemma rstrip_all_space (ws : string) : all_space ws = true -> rstrip ws = "".
Proof.
  induction ws as [ | c ws IH]; simpl; [ reflexivity | ].
  intros H. apply andb_true_iff in H as [Hc Hws].
  now rewrite (IH Hws), Hc.
Qed.

Lemma rstrip_keeps (body r : string) :
  rstrip r <> "" -> rstrip (body ++ r) = body ++ rstrip r.
Proof.
  intros Hr. induction body as [ | c body IH]; simpl; [ reflexivity | ].
  rewrite IH. destruct (body ++ rstrip r) eqn:E; [ | reflexivity ].
  destruct body; simpl in E; [ contradiction | discriminate ].
Qed.

Lemma rstrip_after (body ws : string) (d : ascii) :
  isspace d = false -> all_space ws = true ->
  rstrip (body ++ String d ws) = body ++ String d "".
Proof.
  intros Hd Hws.
  assert (E : rstrip (String d ws) = String d "").
  { simpl. now rewrite (rstrip_all_space ws Hws), Hd. }
  rewrite rstrip_keeps; rewrite E; [ reflexivity | discriminate ].
Qed.

(** What [rstrip] removes is white space. *)
Lemma rstrip_decompose (s : string) :
  exists ws, s = rstrip s ++ ws /\ all_space ws = true.
Proof.
  induction s as [ | c s [ws [Hs Hws]]]; simpl.
  - now exists "".
  - destruct (rstrip s) as [ | c' r] eqn:E.
    + destruct (isspace c) eqn:Hc.
      * exists (String c ws). cbn [append all_space] in *.
        rewrite Hc, Hws. split; [ now rewrite <- Hs | reflexivity ].
      * exists ws. cbn [append] in *. split; [ now rewrite <- Hs | exact Hws ].
    + exists ws. cbn [append] in *. split; [ now rewrite <- Hs | exact Hws ].
Qed.

Lemma rstrip_ends_with (c : ascii) (s : string) :
  isspace c = false ->
  endswith (rstrip s) (String c "") = true <-> trimmed_ends_with c s.
Proof.
  intros Hc. rewrite endswith_spec. unfold trimmed_ends_with. split.
  - intros [body Hb]. destruct (rstrip_decompose s) as [ws [Hs Hws]].
    exists body, ws. split; [ | exact Hws ].
    rewrite Hs at 1. rewrite Hb. now rewrite append_assoc.
  - intros [body [ws [-> Hws]]]. exists body. now apply rstrip_after.
Qed.

Lemma lstrip_ends_with (c : ascii) (s : string) :
  isspace c = false ->
  trimmed_ends_with c (lstrip s) <-> trimmed_ends_with c s.
Proof.
  intros Hc. unfold trimmed_ends_with. induction s as [ | d s IH]; simpl.
  - reflexivity.
  - destruct (isspace d) eqn:Hd; [ | reflexivity ].
    rewrite IH. split.
    + intros [body [ws [-> Hws]]]. now exists (String d body), ws.
    + intros [body [ws [H Hws]]]. destruct body as [ | d' body].
      * simpl in H. injection H as -> _. congruence.
      * injection H as _ ->. now exists body, ws.
Qed.

(** [s.strip().endswith(c)] for a character that is not white space. *)
Lemma strip_ends_with (c : ascii) (s : string) :
  isspace c = false ->
  endswith (strip s) (String c "") = true <-> trimmed_ends_with c s.
Proof.
  intros Hc. unfold strip. now rewrite rstrip_ends_with, lstrip_ends_with.
Qed.

End StrFacts.

(** * Properties of the conversation manager *)

Module ConversationProps.
Import Py PyStr PyM Datetime Agents CM DictFacts StrFacts.
Local Open Scope pym_scope.

Lemma mem_In (x : string) (xs : list string) : mem x xs = true <-> In x xs.
Proof.
  unfold mem. rewrite existsb_exists. split.
  - intros [y [Hy E]]. apply String.eqb_eq in E. now subst.
  - intros H. exists x. split; [ exact H | apply String.eqb_refl ].
Qed.

Lemma last_error_app {A : Type} (xs : list A) (x : A) :
  last_error (xs ++ [x])%list = Some x.
Proof.
  induction xs as [ | y ys IH]; simpl; [ reflexivity | ].
  destruct (ys ++ [x])%list eqn:E; [ destruct ys; discriminate | exact IH ].
Qed.

Lemma min_from_In {A : Type} (key : A -> Z) (xs : list A) (best : A) :
  In (min_from key best xs) (best :: xs).
Proof.
  revert best. induction xs as [ | y ys IH]; intros best; simpl.
  - now left.
  - destruct (IH (if (key y <? key best)%Z then y else best)) as [H | H].
    + destruct (key y <? key best)%Z; rewrite <- H; auto.
    + auto.
Qed.

Lemma min_by_In {A : Type} (key : A -> Z) (xs : list A) (x : A) :
  min_by key xs = Some x -> In x xs.
Proof.
  destruct xs as [ | y ys]; simpl; [ discriminate | ].
  intros [= <-]. apply min_from_In.
Qed.

Lemma _add_message_eq c speaker content ty t_msg t_seen :
  _add_message speaker content ty t_msg t_seen c
  = (Returns tt, added c speaker content ty t_msg t_seen).
Proof. reflexivity. Qed.

Lemma add_message_eq c speaker content ty (clock : Clock) :
  In speaker (participants c) ->
  add_message speaker content ty clock c
  = _process_turn_taking speaker (clock 2%nat)
      (added c speaker content ty (clock 0%nat) (clock 1%nat)).
Proof.
  intros Hin. unfold add_message, bind, get.
  apply mem_In in Hin. rewrite Hin. reflexivity.
Qed.

Lemma add_message_outsider c speaker content ty (clock : Clock) :
  ~ In speaker (participants c) ->
  add_message speaker content ty clock c = (Returns tt, c).
Proof.
  intros Hout. unfold add_message, bind, get.
  destruct (mem speaker (participants c)) eqn:E; [ | reflexivity ].
  apply mem_In in E. contradiction.
Qed.


Lemma find_responder_participant c m t r :
  _find_appropriate_responder c m t = Some r -> In r (participants c).
Proof.
  unfold _find_appropriate_responder.
  destruct (find _ (participants c)) as [p | ] eqn:Ef.
  - intros [= <-]. now apply find_some in Ef.
  - destruct (MessageType_eqb _ _); [ | discriminate ].
    match goal with |- hd_error ?l = _ -> _ => destruct l as [ | x xs] eqn:El end;
      [ discriminate | ].
    intros [= <-].
    assert (Hx : In x (x :: xs)) by now left.
    rewrite <- El in Hx. now apply filter_In in Hx.
Qed.

Lemma others_pick c A q :
  min_by (fun p => PyDict.get_default (last_speaker_time c) p datetime_min)
         (filter (fun p => negb (String.eqb p A)) (participants c)) = Some q ->
  q <> A /\ In q (participants c).
Proof.
  intros H. apply min_by_In in H. apply filter_In in H as [Hin Hne].
  split; [ | exact Hin ].
  apply negb_true_iff in Hne. now apply String.eqb_neq in Hne.
Qed.

Lemma others_nonempty c A :
  (exists q, In q (participants c) /\ q <> A) ->
  min_by (fun p => PyDict.get_default (last_speaker_time c) p datetime_min)
         (filter (fun p => negb (String.eqb p A)) (participants c)) <> None.
Proof.
  intros [q [Hin Hne]].
  assert (Hq : In q (filter (fun p => negb (String.eqb p A)) (participants c))).
  { apply filter_In. split; [ exact Hin | ].
    apply negb_true_iff. now apply String.eqb_neq. }
  destruct (filter _ (participants c)); [ destruct Hq | discriminate ].
Qed.

Lemma natural_flow_step c A content ty (clock : Clock) :
  strategy c = NATURAL_FLOW ->
  In A (participants c) ->
  (exists q, In q (participants c) /\ q <> A) ->
  (max_consecutive_turns c <= PyDict.get_default (turn_counts c) A 0 + 1)%Z ->
  exists extra,
    fst (add_message A content ty clock c) = Returns tt /\
    speaking_queue (exec (add_message A content ty clock) c)
      = (speaking_queue c ++ extra)%list /\
    extra <> [] /\
    (forall q, In q extra -> q <> A /\ In q (participants c)).
Proof.
  intros Hstrat HA Hother Hmax.
  unfold exec. rewrite add_message_eq by exact HA.
  unfold _process_turn_taking, bind, get. cbn [strategy added]. rewrite Hstrat.
  unfold _handle_natural_flow, bind, get.
  cbn [conversation_history added]. rewrite last_error_app.
  set (c1 := added c A content ty (clock 0%nat) (clock 1%nat)).
  set (m := {| msg_speaker := A; msg_content := content; msg_message_type := ty;
               msg_timestamp := clock 0%nat; msg_context_used := None;
               msg_confidence := 1.0%float |}).
  assert (Ha : exists pa,
             when (_message_requires_response m)
               match _find_appropriate_responder c1 m (clock 2%nat) with
               | Some responder =>
                   when (truthy responder && negb (String.eqb responder A))
                     (enqueue responder)
               | None => ret tt
               end c1
             = (Returns tt, set_speaking_queue (speaking_queue c ++ pa)%list c1) /\
             (forall q, In q pa -> q <> A /\ In q (participants c))).
  { destruct (_message_requires_response m); simpl.
    - destruct (_find_appropriate_responder c1 m (clock 2%nat)) as [r | ] eqn:Er.
      + destruct (truthy r && negb (String.eqb r A)) eqn:Eg; simpl.
        * exists [r]. split; [ reflexivity | ].
          intros q [<- | []]. apply andb_true_iff in Eg as [_ Hne].
          apply negb_true_iff, String.eqb_neq in Hne. split; [ exact Hne | ].
          now apply find_responder_participant in Er.
        * exists []. rewrite app_nil_r. split; [ reflexivity | intros q [] ].
      + exists []. rewrite app_nil_r. split; [ reflexivity | intros q [] ].
    - exists []. rewrite app_nil_r. split; [ reflexivity | intros q [] ]. }
  destruct Ha as [pa [-> Hpa]].
  cbn [turn_counts set_speaking_queue c1 added]. rewrite get_set_same.
  cbn [expect ret max_consecutive_turns last_speaker_time participants].
  apply Z.leb_le in Hmax.
  change (max_consecutive_turns (set_speaking_queue (speaking_queue c ++ pa)%list c1))
    with (max_consecutive_turns c).
  rewrite Hmax. cbn [when].
  change (last_speaker_time (set_speaking_queue (speaking_queue c ++ pa)%list c1))
    with (last_speaker_time c1).
  change (participants (set_speaking_queue (speaking_queue c ++ pa)%list c1))
    with (participants c1).
  destruct (min_by _ _) as [q | ] eqn:Eq.
  - exists (pa ++ [q])%list. cbn. split; [ reflexivity | split; [ | split ] ].
    + now rewrite app_assoc.
    + destruct pa; discriminate.
    + intros x Hx. apply in_app_or in Hx as [Hx | [<- | []]]; [ now apply Hpa | ].
      now apply (others_pick c1) in Eq.
  - exfalso. revert Eq. now apply (others_nonempty c1).
Qed.


Lemma indicators_lower (i : string) : In i response_indicators -> lower i = i.
Proof.
  unfold response_indicators. simpl.
  intros H. repeat (destruct H as [<- | H]; [ reflexivity | ]). destruct H.
Qed.

Lemma no_markers_spec (m : MeetingMessage) :
  _message_requires_response m = false <-> no_markers (msg_content m).
Proof.
  unfold _message_requires_response, no_markers.
  rewrite <- not_true_iff_false, existsb_exists. split.
  - intros H i Hi Hocc. apply H. exists i. split; [ exact Hi | ].
    apply contains_lower_spec in Hocc. now rewrite (indicators_lower i Hi) in Hocc.
  - intros H [i [Hi Hc]]. apply (H i Hi).
    apply contains_lower_spec. now rewrite (indicators_lower i Hi).
Qed.

Lemma quiet_step c A content ty (clock : Clock) :
  strategy c = NATURAL_FLOW ->
  In A (participants c) ->
  no_markers content ->
  add_message A content ty clock c
  = (Returns tt,
     let c1 := added c A content ty (clock 0%nat) (clock 1%nat) in
     if (max_consecutive_turns c <=? PyDict.get_default (turn_counts c) A 0 + 1)%Z
     then set_speaking_queue (speaking_queue c ++ starvation_pick c1 A)%list c1
     else c1).
Proof.
  intros Hstrat HA Hquiet.
  rewrite add_message_eq by exact HA.
  unfold _process_turn_taking, bind, get. cbn [strategy added]. rewrite Hstrat.
  unfold _handle_natural_flow, bind, get.
  cbn [conversation_history added]. rewrite last_error_app.
  match goal with |- context [_message_requires_response ?m] =>
    replace (_message_requires_response m) with false
      by (symmetry; now apply no_markers_spec) end.
  cbn [when ret turn_counts added]. rewrite get_set_same.
  cbn [expect ret max_consecutive_turns added].
  destruct (max_consecutive_turns c <=? _)%Z; cbn [when]; [ | reflexivity ].
  unfold starvation_pick. cbn [last_speaker_time participants added].
  destruct (min_by _ _); [ reflexivity | ].
  now rewrite app_nil_r.
Qed.

Lemma three_quiet_messages (c0 : ConversationManager) (A B C : string)
  (fac : option string) (x1 x2 x3 : string) (ty1 ty2 ty3 : MessageType)
  (k1 k2 k3 : Clock) :
  strategy c0 = NATURAL_FLOW ->
  max_consecutive_turns c0 = 3%Z ->
  A <> B -> A <> C ->
  no_markers x1 -> no_markers x2 -> no_markers x3 ->
  speaking_queue
    (exec (bind (initialize_conversation [A; B; C] fac) (fun _ =>
           bind (add_message A x1 ty1 k1) (fun _ =>
           bind (add_message A x2 ty2 k2) (fun _ =>
                 add_message A x3 ty3 k3)))) c0) = [B].
Proof.
  intros Hstrat Hmax HAB HAC Hq1 Hq2 Hq3.
  assert (Hinit : exists f,
    initialize_conversation [A; B; C] fac c0
    = (Returns tt,
       set_state IDLE (set_last_speaker_time []
         (set_turn_counts (PyDict.from_keys (fun _ => 0%Z) [A; B; C])
           (set_speaking_queue [] (set_facilitator (Some f)
             (set_participants [A; B; C] c0))))))).
  { unfold initialize_conversation, bind, modify, expect, ret.
    destruct fac as [f | ]; [ destruct (truthy f) | ]; eexists; reflexivity. }
  destruct Hinit as [f Hinit].
  unfold exec, bind at 1. rewrite Hinit. clear Hinit.
  set (c1 := set_state IDLE _).
  assert (HA : In A [A; B; C]) by now left.
  unfold bind at 1. rewrite quiet_step; [ | exact Hstrat | exact HA | exact Hq1 ].
  change (max_consecutive_turns c1) with (max_consecutive_turns c0). rewrite Hmax.
  change (turn_counts c1) with (PyDict.from_keys (fun _ : string => 0%Z) [A; B; C]).
  unfold PyDict.get_default at 1. rewrite (from_keys_get _ _ A HA).
  cbn [Z.leb Z.add Z.compare Pos.compare Pos.compare_cont].
  cbv zeta.
  set (c2 := added c1 A x1 ty1 (k1 0%nat) (k1 1%nat)).
  unfold bind at 1. rewrite quiet_step; [ | exact Hstrat | exact HA | exact Hq2 ].
  change (max_consecutive_turns c2) with (max_consecutive_turns c0). rewrite Hmax.
  unfold PyDict.get_default at 1.
  change (turn_counts c2)
    with (PyDict.set (turn_counts c1) A (PyDict.get_default (turn_counts c1) A 0 + 1)%Z).
  rewrite get_set_same.
  change (turn_counts c1) with (PyDict.from_keys (fun _ : string => 0%Z) [A; B; C]).
  unfold PyDict.get_default at 1. rewrite (from_keys_get _ _ A HA).
  cbn [Z.leb Z.add Z.compare Pos.compare Pos.compare_cont Pos.add Pos.succ].
  cbv zeta.
  set (c3 := added c2 A x2 ty2 (k2 0%nat) (k2 1%nat)).
  rewrite quiet_step; [ | exact Hstrat | exact HA | exact Hq3 ].
  change (max_consecutive_turns c3) with (max_consecutive_turns c0). rewrite Hmax.
  unfold PyDict.get_default at 1.
  change (turn_counts c3)
    with (PyDict.set (turn_counts c2) A (PyDict.get_default (turn_counts c2) A 0 + 1)%Z).
  rewrite get_set_same.
  unfold PyDict.get_default at 1.
  change (turn_counts c2)
    with (PyDict.set (turn_counts c1) A (PyDict.get_default (turn_counts c1) A 0 + 1)%Z).
  rewrite get_set_same.
  change (turn_counts c1) with (PyDict.from_keys (fun _ : string => 0%Z) [A; B; C]).
  unfold PyDict.get_default at 1. rewrite (from_keys_get _ _ A HA).
  cbn [Z.leb Z.add Z.compare Pos.compare Pos.compare_cont Pos.add Pos.succ].
  cbv zeta. cbn [snd speaking_queue set_speaking_queue].
  change (speaking_queue c3) with (@nil string). cbn [app].
  unfold starvation_pick.
  change (participants (added c3 A x3 ty3 (k3 0%nat) (k3 1%nat))) with [A; B; C].
  cbn [filter]. rewrite String.eqb_refl.
  apply not_eq_sym, String.eqb_neq in HAB, HAC. rewrite HAB, HAC.
  cbn [negb min_by min_from].
  assert (Hunseen : forall p, p <> A ->
            PyDict.get_default
              (last_speaker_time (added c3 A x3 ty3 (k3 0%nat) (k3 1%nat))) p datetime_min
            = datetime_min).
  { intros p Hp. unfold PyDict.get_default.
    cbn [last_speaker_time added c3 c2 c1 set_state set_last_speaker_time].
    rewrite !get_set_other by congruence. reflexivity. }
  apply String.eqb_neq in HAB, HAC.
  rewrite !Hunseen by assumption. reflexivity.
Qed.


(** ** Starvation prevention under [natural_flow] *)

(** C6. Under the natural-flow strategy, in a conversation that has a
    participant other than the speaker, a message of a participant whose
    turn count reaches or has reached [max_consecutive_turns] queues a
    participant other than the speaker: the call returns, the queue grows at
    its end, and everything it grows by is a participant different from the
    speaker.  In particular, with the three participants A, B and C and the
    threshold 3, after A has sent three messages without response-eliciting
    marker, starting from the initialisation, the queue is [[B]]: not empty,
    and its head is not A. *)
Theorem natural_flow_starvation_prevention :
  (forall (c : ConversationManager) (A content : string) (ty : MessageType)
          (clock : Clock),
      strategy c = NATURAL_FLOW ->
      In A (participants c) ->
      (exists q, In q (participants c) /\ q <> A) ->
      (max_consecutive_turns c <= turns c A + 1)%Z ->
      exists extra,
        fst (add_message A content ty clock c) = Returns tt /\
        speaking_queue (exec (add_message A content ty clock) c)
          = (speaking_queue c ++ extra)%list /\
        extra <> [] /\
        (forall q, In q extra -> q <> A /\ In q (participants c))) /\
  (forall (c0 : ConversationManager) (A B C : string) (fac : option string)
          (x1 x2 x3 : string) (ty1 ty2 ty3 : MessageType) (k1 k2 k3 : Clock),
      strategy c0 = NATURAL_FLOW ->
      max_consecutive_turns c0 = 3%Z ->
      A <> B -> A <> C ->
      no_markers x1 -> no_markers x2 -> no_markers x3 ->
      speaking_queue
        (exec (initialize_conversation [A; B; C] fac ;;
               add_message A x1 ty1 k1 ;;
               add_message A x2 ty2 k2 ;;
               add_message A x3 ty3 k3) c0) = [B]).
Proof.
  split.
  - intros c A content ty clock. apply natural_flow_step.
  - intros c0 A B C fac x1 x2 x3 ty1 ty2 ty3 k1 k2 k3.
    apply three_quiet_messages.
Qed.

Lemma quiet_has_no_markers (content : string) :
  existsb (fun indicator => contains indicator (lower content)) response_indicators
  = false ->
  no_markers content.
Proof.
  intros H.
  apply (no_markers_spec {| msg_speaker := ""; msg_content := content;
                            msg_message_type := GENERAL; msg_timestamp := 0%Z;
                            msg_context_used := None;
                            msg_confidence := 1.0%float |}).
  exact H.
Qed.

Lemma natural_flow_starvation_prevention_witness :
  strategy (new NATURAL_FLOW) = NATURAL_FLOW /\
  max_consecutive_turns (new NATURAL_FLOW) = 3%Z /\
  no_markers Examples.quiet_1 /\
  speaking_queue
    (exec (initialize_conversation ["A"; "B"; "C"] None ;;
           add_message "A" Examples.quiet_1 GENERAL (Examples.ticking 100%Z) ;;
           add_message "A" Examples.quiet_2 STATUS_UPDATE (Examples.ticking 200%Z) ;;
           add_message "A" Examples.quiet_3 GENERAL (Examples.ticking 300%Z))
          (new NATURAL_FLOW)) = ["B"].
Proof.
  split; [ reflexivity | split; [ reflexivity | split ] ].
  - apply quiet_has_no_markers. reflexivity.
  - apply (proj2 natural_flow_starvation_prevention);
      try reflexivity; try discriminate;
      apply quiet_has_no_markers; reflexivity.
Defined.

(** ** The queue and the participants *)

Lemma queued_more_refl c : queued_more c c.
Proof.
  exists []. split; [ | intros q [] ]. rewrite app_nil_r. now destruct c.
Qed.

Lemma queued_more_one c p :
  In p (participants c) ->
  queued_more c (set_speaking_queue (speaking_queue c ++ [p])%list c).
Proof.
  intros H. exists [p]. split; [ reflexivity | ]. now intros q [<- | []].
Qed.

Lemma queued_more_trans c1 c2 c3 :
  queued_more c1 c2 -> queued_more c2 c3 -> queued_more c1 c3.
Proof.
  intros [e1 [-> H1]] [e2 [-> H2]]. exists (e1 ++ e2)%list. split.
  - cbn. now rewrite app_assoc.
  - intros q Hq. apply in_app_or in Hq as [Hq | Hq]; [ now apply H1 | now apply H2 ].
Qed.

Lemma round_robin_queues c speaker :
  queued_more c (snd (_handle_round_robin speaker c)).
Proof.
  cbv beta iota zeta delta [_handle_round_robin bind get expect ret raise].
  destruct (index speaker (participants c)) as [i | ]; [ | apply queued_more_refl ].
  match goal with |- context [nth_error (participants c) ?n] =>
    destruct (nth_error (participants c) n) as [p | ] eqn:E end;
    [ | apply queued_more_refl ].
  destruct (negb (String.eqb p speaker)); cbn; [ | apply queued_more_refl ].
  apply queued_more_one. now apply nth_error_In in E.
Qed.

Lemma priority_based_queues c speaker :
  (forall k, In k (PyDict.keys (turn_counts c)) -> In k (participants c)) ->
  queued_more c (snd (_handle_priority_based speaker c)).
Proof.
  intros Hkeys.
  cbv beta iota zeta delta [_handle_priority_based bind get expect ret raise].
  destruct (min_by snd (turn_counts c)) as [[k v] | ] eqn:E; [ | apply queued_more_refl ].
  cbn [fst snd]. destruct (String.eqb k speaker); [ apply queued_more_refl | ].
  destruct (PyDict.get (turn_counts c) speaker) as [n | ]; [ | apply queued_more_refl ].
  destruct (v <? n)%Z; cbn; [ | apply queued_more_refl ].
  apply queued_more_one. apply Hkeys. apply min_by_In in E.
  unfold PyDict.keys. now apply (in_map fst) in E.
Qed.

Lemma natural_flow_queues c speaker t :
  queued_more c (snd (_handle_natural_flow speaker t c)).
Proof.
  cbv beta iota zeta delta [_handle_natural_flow bind get].
  destruct (last_error (conversation_history c)) as [m | ]; [ | apply queued_more_refl ].
  assert (Ha : exists c1,
             when (_message_requires_response m)
               match _find_appropriate_responder c m t with
               | Some responder =>
                   when (truthy responder && negb (String.eqb responder speaker))
                     (enqueue responder)
               | None => ret tt
               end c = (Returns tt, c1) /\ queued_more c c1).
  { destruct (_message_requires_response m); cbn [when];
      [ | eexists; split; [ reflexivity | apply queued_more_refl ] ].
    destruct (_find_appropriate_responder c m t) as [r | ] eqn:Er;
      [ | eexists; split; [ reflexivity | apply queued_more_refl ] ].
    destruct (truthy r && negb (String.eqb r speaker)); cbn [when];
      [ | eexists; split; [ reflexivity | apply queued_more_refl ] ].
    eexists. split; [ reflexivity | ].
    apply queued_more_one. now apply find_responder_participant in Er. }
  destruct Ha as [c1 [-> Hc1]].
  apply (queued_more_trans _ c1); [ exact Hc1 | ].
  cbv beta iota zeta delta [expect ret raise].
  destruct (PyDict.get (turn_counts c1) speaker) as [n | ]; [ | apply queued_more_refl ].
  destruct (max_consecutive_turns c1 <=? n)%Z; cbn [when]; [ | apply queued_more_refl ].
  destruct (min_by _ _) as [q | ] eqn:Eq; [ | apply queued_more_refl ].
  apply queued_more_one. now apply others_pick in Eq.
Qed.

Lemma facilitator_controlled_queues c speaker :
  queued_more c (snd (_handle_facilitator_controlled speaker c)).
Proof.
  cbv beta iota zeta delta [_handle_facilitator_controlled bind get].
  destruct (facilitator c) as [f | ]; [ | apply queued_more_refl ].
  destruct (String.eqb speaker f); cbn [when]; [ | apply queued_more_refl ].
  destruct (last_error (conversation_history c)) as [m | ]; [ | apply queued_more_refl ].
  destruct (_message_mentions_participant c m); cbn [when]; [ | apply queued_more_refl ].
  destruct (_extract_mentioned_participant c m) as [p | ] eqn:E; [ | apply queued_more_refl ].
  destruct (truthy p); cbn [when]; [ | apply queued_more_refl ].
  apply queued_more_one. unfold _extract_mentioned_participant in E.
  now apply find_some in E.
Qed.

Lemma process_turn_taking_queues c speaker t :
  (forall k, In k (PyDict.keys (turn_counts c)) -> In k (participants c)) ->
  queued_more c (snd (_process_turn_taking speaker t c)).
Proof.
  intros Hkeys. cbv beta iota zeta delta [_process_turn_taking bind get].
  destruct (strategy c).
  - apply round_robin_queues.
  - now apply priority_based_queues.
  - apply natural_flow_queues.
  - apply facilitator_controlled_queues.
Qed.

Lemma safe_queued_more c c' : safe c -> queued_more c c' -> safe c'.
Proof.
  intros [[Hk Hq] [Hi Hf]] [extra [-> Hextra]].
  repeat split; cbn; try assumption.
  intros q Hin. apply in_app_or in Hin as [Hin | Hin]; [ now apply Hq | now apply Hextra ].
Qed.

Lemma safe_added c speaker content ty t1 t2 :
  In speaker (participants c) -> safe c -> safe (added c speaker content ty t1 t2).
Proof.
  intros Hs [[Hk Hq] [Hi Hf]]. repeat split; cbn; try assumption.
  - intros p Hp. apply keys_set. right. now apply Hk.
  - intros k Hkk. apply keys_set in Hkk as [-> | Hkk]; [ exact Hs | now apply Hi ].
Qed.

Lemma safe_set_state c st : safe c -> safe (set_state st c).
Proof. intros [[Hk Hq] [Hi Hf]]. repeat split; cbn; assumption. Qed.

Lemma perform_safe (op : operation) (c : ConversationManager) :
  safe c -> safe (exec (perform op) c).
Proof.
  intros Hsafe. unfold exec. destruct op as [om clock | s x ty clock | s | | | ]; cbn [perform].
  - (* start_conversation *)
    cbv beta iota zeta delta [start_conversation bind modify get].
    cbn [facilitator set_state].
    destruct om as [o | ]; [ | now apply safe_set_state ].
    destruct (facilitator c) as [f | ] eqn:Ef; [ | now apply safe_set_state ].
    destruct (truthy o); cbn [andb when]; [ | now apply safe_set_state ].
    destruct (truthy f) eqn:Et; cbn [when]; [ | now apply safe_set_state ].
    rewrite _add_message_eq. cbn [snd].
    apply safe_added; [ | now apply safe_set_state ].
    cbn. destruct Hsafe as [_ [_ Hf]]. now apply Hf.
  - (* add_message *)
    destruct (in_dec string_dec s (participants c)) as [Hin | Hout].
    + rewrite add_message_eq by exact Hin.
      assert (Ha : safe (added c s x ty (clock 0%nat) (clock 1%nat)))
        by now apply safe_added.
      apply (safe_queued_more _ _ Ha).
      apply process_turn_taking_queues. apply Ha.
    + now rewrite add_message_outsider.
  - (* add_speaker_to_queue *)
    cbv beta iota zeta delta [add_speaker_to_queue bind get].
    destruct (mem s (participants c)) eqn:Em; cbn [andb when]; [ | exact Hsafe ].
    destruct (negb (mem s (speaking_queue c))); cbn [when]; [ | exact Hsafe ].
    apply (safe_queued_more c); [ exact Hsafe | ].
    apply queued_more_one. now apply mem_In.
  - (* get_next_speaker *)
    cbv beta iota zeta delta [get_next_speaker bind get].
    destruct (speaking_queue c) as [ | q rest ] eqn:Eq; [ exact Hsafe | ].
    cbn. destruct Hsafe as [[Hk Hq] [Hi Hf]]. repeat split; cbn; try assumption.
    intros p Hp. apply Hq. rewrite Eq. now right.
  - now apply safe_set_state.
  - now apply safe_set_state.
Qed.

Lemma perform_all_safe (ops : list operation) (c : ConversationManager) :
  safe c -> safe (perform_all ops c).
Proof.
  revert c. induction ops as [ | op ops IH]; intros c Hsafe; [ exact Hsafe | ].
  cbn. apply IH. now apply perform_safe.
Qed.

Lemma initialize_safe (ps : list string) (fac : option string) (c0 : ConversationManager) :
  ps <> [] ->
  (forall f, fac = Some f -> truthy f = true -> In f ps) ->
  fst (initialize_conversation ps fac c0) = Returns tt /\
  safe (exec (initialize_conversation ps fac) c0).
Proof.
  intros Hne Hfac. destruct ps as [ | p ps]; [ contradiction | ].
  assert (E : exists f,
    initialize_conversation (p :: ps) fac c0
    = (Returns tt,
       set_state IDLE (set_last_speaker_time []
         (set_turn_counts (PyDict.from_keys (fun _ => 0%Z) (p :: ps))
           (set_speaking_queue [] (set_facilitator (Some f)
             (set_participants (p :: ps) c0)))))) /\
    (truthy f = true -> In f (p :: ps))).
  { unfold initialize_conversation, bind, modify, expect, ret.
    destruct fac as [f | ].
    - destruct (truthy f) eqn:Et.
      + exists f. split; [ reflexivity | intros _; now apply Hfac ].
      + exists p. split; [ reflexivity | intros _; now left ].
    - exists p. split; [ reflexivity | intros _; now left ]. }
  destruct E as [f [E Hf]]. unfold exec. rewrite E. cbn [fst snd].
  split; [ reflexivity | ].
  repeat split;
    cbn [turn_counts participants speaking_queue facilitator set_state
         set_last_speaker_time set_turn_counts set_speaking_queue set_facilitator
         set_participants].
  - intros q Hq. now apply from_keys_keys.
  - intros q [].
  - intros k Hk. now apply from_keys_keys in Hk.
  - intros f' [= <-]. exact Hf.
Qed.

(** With a facilitator taken from the participants (or defaulted to the
    first of them) the invariant holds after every sequence of operations,
    under every strategy. *)
Lemma invariant_with_inside_facilitator
  (ps : list string) (fac : option string) (c0 : ConversationManager)
  (ops : list operation) :
  ps <> [] ->
  (forall f, fac = Some f -> truthy f = true -> In f ps) ->
  state_invariant (perform_all ops (exec (initialize_conversation ps fac) c0)).
Proof.
  intros Hne Hfac.
  apply (perform_all_safe ops). now apply initialize_safe.
Qed.

(** C8. The invariant fails under the priority-based strategy when the
    facilitator is no participant.  The facilitator F opens the conversation
    of A and B, which gives F a turn count; after A and B have spoken twice
    each, F has the lowest count of all and [_handle_priority_based] queues
    it: the queue holds F, which is not in the participant list.
    ([invariant_with_inside_facilitator] is what holds.) *)
Theorem priority_based_queues_outsider :
  fst (Examples.outsider_run (new PRIORITY_BASED)) = Returns tt /\
  participants (exec Examples.outsider_run (new PRIORITY_BASED)) = ["A"; "B"] /\
  turn_counts (exec Examples.outsider_run (new PRIORITY_BASED))
    = [("A", 2%Z); ("B", 2%Z); ("F", 1%Z)] /\
  speaking_queue (exec Examples.outsider_run (new PRIORITY_BASED)) = ["B"; "B"; "F"] /\
  ~ state_invariant (exec Examples.outsider_run (new PRIORITY_BASED)).
Proof.
  repeat split.
  intros [_ Hqueue].
  assert (H : In "F" ["A"; "B"]).
  { apply (Hqueue "F"). cbn. auto. }
  cbn in H. destruct H as [H | [H | []]]; discriminate H.
Qed.

(** ** Initialisation *)

(** C10. [initialize_conversation] with an empty participant list and no
    facilitator (none given, or the empty string, which counts as none)
    raises [IndexError] when it takes the first participant as facilitator.
    The manager is left half initialised: [participants] is already the
    empty list, every other attribute is what it was.  With a participant
    list that is not empty the call returns normally, whatever the
    facilitator. *)
Theorem initialize_conversation_empty_raises :
  (forall c : ConversationManager,
      initialize_conversation [] None c
      = (Raises IndexError, set_participants [] c)) /\
  (forall c : ConversationManager,
      initialize_conversation [] (Some "") c
      = (Raises IndexError, set_participants [] c)) /\
  (forall (c : ConversationManager) (p : string) (ps : list string)
          (fac : option string),
      fst (initialize_conversation (p :: ps) fac c) = Returns tt).
Proof.
  split; [ | split ].
  - intros c. reflexivity.
  - intros c. reflexivity.
  - intros c p ps fac.
    unfold initialize_conversation, bind, modify, expect, ret.
    destruct fac as [f | ]; simpl.
    + destruct (truthy f); reflexivity.
    + reflexivity.
Qed.

(** ** Engagement level *)

Lemma summary_engagement_level (c : ConversationManager) (level : string) :
  _calculate_engagement_level c = Returns level ->
  exists s, get_conversation_summary c = Returns s /\ engagement_level s = level.
Proof.
  intros H. unfold get_conversation_summary. rewrite H.
  eexists. split; reflexivity.
Qed.

(** C9. With an empty history the engagement classifier answers
    ["no_activity"], which is none of the documented levels high, medium and
    low; [get_conversation_summary] and [end_conversation] hand that value
    on unchanged in the field [engagement_level]. *)
Theorem empty_history_no_activity (c : ConversationManager) :
  conversation_history c = [] ->
  _calculate_engagement_level c = Returns "no_activity" /\
  ~ In "no_activity" documented_engagement_levels /\
  (exists s, get_conversation_summary c = Returns s /\
             engagement_level s = "no_activity") /\
  (exists s, fst (end_conversation c) = Returns s /\
             engagement_level s = "no_activity").
Proof.
  intros Hempty.
  assert (Hlevel : forall st, _calculate_engagement_level (set_state st c)
                              = Returns "no_activity").
  { intros st. unfold _calculate_engagement_level. simpl. now rewrite Hempty. }
  assert (Hc : _calculate_engagement_level c = Returns "no_activity").
  { unfold _calculate_engagement_level. now rewrite Hempty. }
  split; [ exact Hc | split; [ | split ] ].
  - unfold documented_engagement_levels. simpl.
    intros [H | [H | [H | []]]]; discriminate H.
  - now apply summary_engagement_level.
  - destruct (summary_engagement_level (set_state IDLE c) "no_activity" (Hlevel IDLE))
      as [s [Hs Hl]].
    exists s. split; [ | exact Hl ].
    unfold end_conversation, bind, modify, get. simpl. now rewrite Hs.
Qed.

Lemma empty_history_no_activity_witness :
  conversation_history (new NATURAL_FLOW) = [] /\
  _calculate_engagement_level (new NATURAL_FLOW) = Returns "no_activity" /\
  ~ In "no_activity" documented_engagement_levels /\
  (exists s, get_conversation_summary (new NATURAL_FLOW) = Returns s /\
             engagement_level s = "no_activity") /\
  (exists s, fst (end_conversation (new NATURAL_FLOW)) = Returns s /\
             engagement_level s = "no_activity").
Proof.
  split; [ reflexivity | ].
  apply (empty_history_no_activity (new NATURAL_FLOW)). reflexivity.
Defined.

End ConversationProps.

(** * Properties of the orchestrator *)

Module OrchestratorProps.
Import Py PyStr PyM Datetime Agents Orchestrator DictFacts StrFacts.
Local Open Scope pym_scope.

Lemma world_eta (w : World) :
  {| self := self w; trace := trace w; log := log w |} = w.
Proof. now destruct w. Qed.

Lemma orchestrator_eta (o : Orchestrator) :
  set_active_meetings (active_meetings o) o = o.
Proof. now destruct o. Qed.

Lemma did_nil w : did w [] = w.
Proof. unfold did. rewrite app_nil_r. apply world_eta. Qed.

Lemma did_did w e1 e2 : did (did w e1) e2 = did w (e1 ++ e2)%list.
Proof. unfold did. simpl. now rewrite app_assoc. Qed.

Lemma update_meeting_found w mid f m :
  record_of w mid = Some m ->
  update_meeting mid f w = (Returns tt, put w mid (f m)).
Proof.
  unfold record_of, update_meeting, update_self, modify, put. now intros ->.
Qed.

Lemma assign_state_found w mid st m :
  record_of w mid = Some m ->
  assign_state mid st w = (Returns tt, did (put w mid (set_state st m)) [EvState mid st]).
Proof.
  intros H. unfold assign_state, bind. now rewrite (update_meeting_found _ _ _ _ H).
Qed.

Lemma record_of_put w mid m : record_of (put w mid m) mid = Some m.
Proof. unfold record_of, put. simpl. apply get_set_same. Qed.

Lemma record_of_did w ev mid : record_of (did w ev) mid = record_of w mid.
Proof. reflexivity. Qed.

Lemma record_of_logged w l mid : record_of (logged w l) mid = record_of w mid.
Proof. reflexivity. Qed.

Lemma put_put w mid m m' : put (put w mid m) mid m' = put w mid m'.
Proof. unfold put. simpl. now rewrite set_set. Qed.

Lemma process_completion_eq env mid w :
  _process_meeting_completion env mid w
  = (Returns tt, logged w [(ERROR, "Error processing meeting completion")]).
Proof.
  cbv beta iota delta [_process_meeting_completion try_except bind meeting_of
                         lookup gets].
  destruct (PyDict.get (active_meetings (self w)) mid); reflexivity.
Qed.

Lemma notify_eq mid event w :
  _notify_meeting_callbacks mid event w
  = (Returns tt,
     did w (map (fun cb => EvCallback cb event mid) (callbacks_of w mid))).
Proof.
  unfold _notify_meeting_callbacks, bind, get, callbacks_of, PyDict.get_default.
  destruct (PyDict.get (meeting_callbacks (self w)) mid) as [cbs | ];
    [ | now rewrite did_nil ].
  revert w. induction cbs as [ | cb cbs IH]; intros w; simpl.
  - now rewrite did_nil.
  - unfold bind. simpl. fold (did w [EvCallback cb event mid]).
    rewrite IH. now rewrite did_did.
Qed.

Lemma leaves_eq (pm : bool) (l : list string) w :
  for_each l (fun agent_id => when pm (emit (EvLeave agent_id))) w
  = (Returns tt, did w (if pm then map EvLeave l else [])).
Proof.
  revert w. induction l as [ | a l IH]; intros w; simpl.
  - destruct pm; now rewrite did_nil.
  - unfold bind. destruct pm; simpl.
    + fold (did w [EvLeave a]). rewrite IH. now rewrite did_did.
    + rewrite IH. reflexivity.
Qed.


Lemma transitions_app mid (e1 e2 : list Event) :
  transitions mid (e1 ++ e2)%list = (transitions mid e1 ++ transitions mid e2)%list.
Proof. unfold transitions. apply flat_map_app. Qed.

Lemma called_app ev mid (e1 e2 : list Event) :
  called ev mid (e1 ++ e2)%list = (called ev mid e1 ++ called ev mid e2)%list.
Proof. unfold called. apply flat_map_app. Qed.

Lemma transitions_leaves mid l : transitions mid (map EvLeave l) = [].
Proof. induction l; simpl; auto. Qed.

Lemma transitions_callbacks mid ev mid' l :
  transitions mid (map (fun cb => EvCallback cb ev mid') l) = [].
Proof. induction l; simpl; auto. Qed.

Lemma called_leaves ev mid l : called ev mid (map EvLeave l) = [].
Proof. induction l; simpl; auto. Qed.

Lemma called_callbacks ev mid l :
  called ev mid (map (fun cb => EvCallback cb ev mid) l) = l.
Proof.
  induction l as [ | cb l IH]; simpl; [ reflexivity | ].
  rewrite !String.eqb_refl. simpl. now rewrite IH.
Qed.

Lemma end_meeting_rejected env mid reason w :
  endable w mid = false ->
  exists line, end_meeting env mid reason w = (Returns false, logged w [line]).
Proof.
  unfold endable. intros H.
  cbv beta iota delta [end_meeting try_except bind lookup gets].
  destruct (PyDict.get (active_meetings (self w)) mid) as [m | ].
  - rewrite H. cbn [negb]. eexists. reflexivity.
  - eexists. reflexivity.
Qed.

Lemma end_meeting_done env mid reason w m :
  record_of w mid = Some m ->
  endable w mid = true ->
  exists delta line,
    end_meeting env mid reason w
    = (Returns true,
       did (logged (put w mid (set_end (Some (now env 0%nat)) (Some reason)
                                 (set_state COMPLETED (set_state ENDING m))))
                   [line]) delta) /\
    transitions mid delta = [ENDING; COMPLETED] /\
    called "meeting_ended" mid delta = callbacks_of w mid.
Proof.
  unfold endable, record_of. intros Hm He. rewrite Hm in He.
  exists ([EvState mid ENDING] ++
          (if enable_transcription m && speech_manager (self w)
           then [EvStopTranscription mid] else []) ++
          (if platform_manager (self w) then map EvLeave (participants_joined m) else []) ++
          [EvState mid COMPLETED] ++
          map (fun cb => EvCallback cb "meeting_ended" mid) (callbacks_of w mid))%list.
  eexists. split; [ | split ].
  - cbv beta iota delta [end_meeting try_except bind lookup gets].
    rewrite Hm, He. cbn [negb].
    rewrite (assign_state_found w mid ENDING m Hm).
    cbv beta iota delta [get].
    change (self (did (put w mid (set_state ENDING m)) [EvState mid ENDING]))
      with (set_active_meetings
              (PyDict.set (active_meetings (self w)) mid (set_state ENDING m)) (self w)).
    cbn [speech_manager platform_manager set_active_meetings].
    set (w1 := did (put w mid (set_state ENDING m)) [EvState mid ENDING]).
    assert (Hstop : when (enable_transcription m && speech_manager (self w))
                      (emit (EvStopTranscription mid)) w1
                    = (Returns tt,
                       did w1 (if enable_transcription m && speech_manager (self w)
                               then [EvStopTranscription mid] else []))).
    { destruct (enable_transcription m && speech_manager (self w));
        [ reflexivity | now rewrite did_nil ]. }
    rewrite Hstop, leaves_eq, process_completion_eq.
    match goal with |- context [assign_state mid COMPLETED ?w2] =>
      rewrite (assign_state_found w2 mid COMPLETED (set_state ENDING m))
        by apply record_of_put end.
    match goal with |- context [update_meeting mid ?f ?w2] =>
      rewrite (update_meeting_found w2 mid f (set_state COMPLETED (set_state ENDING m)))
        by apply record_of_put end.
    rewrite notify_eq. cbv beta iota delta [ret].
    f_equal. unfold did, logged, put, callbacks_of. cbn.
    rewrite !set_set, <- !app_assoc. reflexivity.
  - rewrite !transitions_app. cbn [transitions flat_map app]. rewrite String.eqb_refl.
    rewrite transitions_callbacks.
    destruct (enable_transcription m && speech_manager (self w));
      destruct (platform_manager (self w)); cbn; rewrite ?transitions_leaves; reflexivity.
  - rewrite !called_app. rewrite called_callbacks.
    destruct (enable_transcription m && speech_manager (self w));
      destruct (platform_manager (self w)); cbn; rewrite ?called_leaves; reflexivity.
Qed.


Lemma after_after w mid m1 e1 l1 m2 e2 l2 :
  after (after w mid m1 e1 l1) mid m2 e2 l2
  = after w mid m2 (e1 ++ e2)%list (l1 ++ l2)%list.
Proof.
  unfold after, logged, did, put. cbn. now rewrite set_set, !app_assoc.
Qed.

Lemma after_same w mid m :
  record_of w mid = Some m -> after w mid m [] [] = w.
Proof.
  unfold record_of, after, logged, did, put. intros H. cbn.
  rewrite (set_get _ _ _ H), orchestrator_eta, !app_nil_r. apply world_eta.
Qed.

Lemma record_of_after w mid m e l : record_of (after w mid m e l) mid = Some m.
Proof. unfold after. now rewrite record_of_logged, record_of_did, record_of_put. Qed.

Lemma joins_only_transitions mid dj : Forall is_join dj -> transitions mid dj = [].
Proof.
  induction 1 as [ | e dj He _ IH]; [ reflexivity | ].
  destruct e; try destruct He. exact IH.
Qed.

Lemma joins_only_called ev mid dj : Forall is_join dj -> called ev mid dj = [].
Proof.
  induction 1 as [ | e dj He _ IH]; [ reflexivity | ].
  destruct e; try destruct He. exact IH.
Qed.

Lemma joins_app (e1 e2 : list Event) : joins (e1 ++ e2)%list = (joins e1 ++ joins e2)%list.
Proof. unfold joins. apply flat_map_app. Qed.

Lemma platform_enum_of_pure (p : option string) (w : World) :
  exists o, platform_enum_of p w = (o, w).
Proof.
  unfold platform_enum_of. destruct p as [p | ]; [ | eexists; reflexivity ].
  destruct (truthy p); [ | eexists; reflexivity ].
  cbv beta iota delta [bind expect ret raise].
  destruct (MeetingPlatform_of p); eexists; reflexivity.
Qed.

Lemma provider_enum_of_pure (p : option string) (w : World) :
  exists o, provider_enum_of p w = (o, w).
Proof.
  unfold provider_enum_of. destruct p as [p | ]; [ | eexists; reflexivity ].
  destruct (truthy p); [ | eexists; reflexivity ].
  cbv beta iota delta [bind expect ret raise].
  destruct (SpeechProvider_of p); eexists; reflexivity.
Qed.

(** One join: the answer, and a world that differs by the joined list of the
    meeting, by at most one join event and by log lines. *)
Lemma join_one env mid a w m :
  record_of w mid = Some m ->
  exists (ok : bool) dj lines,
    _join_agent_to_meeting env mid a w
    = (Returns ok,
       after w mid
         (set_participants_joined
            (participants_joined m ++ (if ok then [a] else []))%list m) dj lines) /\
    Forall is_join dj /\
    (ok = true <-> exists b, In (b, true) (joins dj)).
Proof.
  intros Hm.
  assert (Hsame : set_participants_joined (participants_joined m ++ [])%list m = m).
  { rewrite app_nil_r. now destruct m. }
  cbv beta iota delta [_join_agent_to_meeting try_except bind get meeting_of lookup gets].
  destruct (platform_manager (self w)); cbn [negb].
  - unfold record_of in Hm. rewrite Hm. cbv beta iota delta [expect ret].
    destruct (platform_enum_of_pure (platform m) w) as [o ->].
    destruct o as [pe | e].
    + destruct (join_meeting env (meeting_url m) a pe) eqn:Ej.
      * exists true, [EvJoin (meeting_url m) a pe true], [].
        split; [ | split ].
        -- cbv beta iota delta [emit modify].
           erewrite update_meeting_found by (unfold record_of; exact Hm).
           cbv beta iota delta [ret]. f_equal.
           unfold after, logged, did, put. cbn. now rewrite app_nil_r.
        -- repeat constructor.
        -- split; [ intros _; exists a; now left | reflexivity ].
      * exists false, [EvJoin (meeting_url m) a pe false]. eexists.
        split; [ | split ].
        -- cbv beta iota delta [emit modify logger ret]. f_equal.
           rewrite Hsame. unfold after, logged, did, put. cbn.
           now rewrite (set_get _ _ _ Hm), orchestrator_eta.
        -- repeat constructor.
        -- split; [ discriminate | ].
           intros [b [H | []]]. discriminate H.
    + exists false, []. eexists. split; [ | split ].
      * cbv beta iota delta [logger modify bind ret]. f_equal.
        rewrite Hsame. unfold after, logged, did, put. cbn.
        now rewrite (set_get _ _ _ Hm), orchestrator_eta, app_nil_r.
      * constructor.
      * split; [ discriminate | intros [b []] ].
  - exists false, [], []. split; [ | split ].
    + cbv beta iota delta [ret]. rewrite Hsame, after_same; [ reflexivity | exact Hm ].
    + constructor.
    + split; [ discriminate | intros [b []] ].
Qed.

Lemma join_loop env mid (l : list string) : forall w m,
  record_of w mid = Some m ->
  exists results jl dj lines,
    map_m l (fun participant_id => _join_agent_to_meeting env mid participant_id) w
    = (Returns results,
       after w mid
         (set_participants_joined (participants_joined m ++ jl)%list m) dj lines) /\
    Forall is_join dj /\
    (existsb (fun r => r) results = true <-> exists b, In (b, true) (joins dj)).
Proof.
  induction l as [ | a l IH]; intros w m Hm.
  - exists [], [], [], []. split; [ | split ].
    + cbn. unfold ret. rewrite app_nil_r.
      replace (set_participants_joined (participants_joined m) m) with m
        by now destruct m.
      now rewrite after_same.
    + constructor.
    + split; [ discriminate | intros [b []] ].
  - destruct (join_one env mid a w m Hm) as [ok [dj1 [l1 [E1 [F1 R1]]]]].
    cbn [map_m]. cbv beta iota delta [bind]. rewrite E1.
    set (m1 := set_participants_joined _ m) in *.
    destruct (IH (after w mid m1 dj1 l1) m1 (record_of_after _ _ _ _ _))
      as [results [jl [dj2 [l2 [E2 [F2 R2]]]]]].
    rewrite E2. cbv beta iota delta [ret].
    exists (ok :: results), ((if ok then [a] else []) ++ jl)%list,
           (dj1 ++ dj2)%list, (l1 ++ l2)%list.
    split; [ | split ].
    + f_equal. rewrite after_after. f_equal.
      unfold m1. cbn. now rewrite app_assoc.
    + now apply Forall_app.
    + cbn [existsb]. rewrite orb_true_iff, R1, R2, joins_app. split.
      * intros [[b H] | [b H]]; exists b; apply in_or_app; auto.
      * intros [b H]. apply in_app_or in H as [H | H]; [ left | right ]; now exists b.
Qed.


Lemma lookup_eq mid w : lookup mid w = (Returns (record_of w mid), w).
Proof. reflexivity. Qed.

Lemma bind_returns {S A B : Type} (m : M S A) (k : A -> M S B) (s s' : S) (a : A) :
  m s = (Returns a, s') -> bind m k s = k a s'.
Proof. unfold bind. now intros ->. Qed.

Lemma bind_raises {S A B : Type} (m : M S A) (k : A -> M S B) (s s' : S) (e : PyExc) :
  m s = (Raises e, s') -> bind m k s = (Raises e, s').
Proof. unfold bind. now intros ->. Qed.

Lemma transcription_step_spec env mid m w0 w :
  (exists e, transcription_step env mid m w0 w = (Raises e, w)) \/
  (exists tr lines,
      transcription_step env mid m w0 w = (Returns tt, logged (did w tr) lines) /\
      Forall is_transcription tr).
Proof.
  unfold transcription_step.
  destruct (enable_transcription m && speech_manager (self w0)); cbn [when].
  - destruct (provider_enum_of_pure (speech_provider m) w) as [o Ho].
    destruct o as [pe | e];
      [ right | left; exists e; unfold bind at 1; now rewrite Ho ].
    destruct (start_meeting_transcription env mid pe) eqn:Et.
    + exists [EvStartTranscription mid pe true], []. split; [ | repeat constructor ].
      unfold bind at 1. rewrite Ho.
      cbv beta iota delta [bind emit modify when ret negb logged did].
      rewrite Et. cbn. now rewrite app_nil_r.
    + exists [EvStartTranscription mid pe false]. eexists. split; [ | repeat constructor ].
      unfold bind at 1. rewrite Ho.
      cbv beta iota delta [bind emit modify when ret negb logged did logger].
      rewrite Et. cbn. reflexivity.
  - right. exists [], []. split; [ | constructor ].
    unfold ret, logged, did. cbn. rewrite !app_nil_r. now destruct w.
Qed.

Lemma length_filter_existsb (results : list bool) :
  (0 <? List.length (filter (fun r : bool => r) results))%nat
  = existsb (fun r => r) results.
Proof.
  induction results as [ | [] results IH]; cbn; [ reflexivity | reflexivity | exact IH ].
Qed.

Lemma conclude_start_spec env mid results w m :
  record_of w mid = Some m ->
  exists m' delta lines,
    conclude_start env mid results w
    = (Returns (existsb (fun r => r) results), after w mid m' delta lines) /\
    joins delta = [] /\
    (existsb (fun r => r) results = true ->
       m' = set_actual_start_time (Some (now env 0%nat)) (set_state ACTIVE m) /\
       transitions mid delta = [ACTIVE] /\
       called "meeting_started" mid delta = callbacks_of w mid /\
       spawned delta = [Timeout mid]) /\
    (existsb (fun r => r) results = false ->
       m' = set_state FAILED m /\
       transitions mid delta = [FAILED] /\
       (forall ev, called ev mid delta = []) /\
       spawned delta = []).
Proof.
  intros Hm. unfold conclude_start. rewrite length_filter_existsb.
  destruct (existsb (fun r => r) results).
  - exists (set_actual_start_time (Some (now env 0%nat)) (set_state ACTIVE m)),
           ([EvState mid ACTIVE; EvSpawn (Timeout mid)] ++
            map (fun cb => EvCallback cb "meeting_started" mid) (callbacks_of w mid))%list,
           [].
    split; [ | split; [ | split; [ | discriminate ] ] ].
    + cbv beta iota delta [bind].
      rewrite (assign_state_found w mid ACTIVE m Hm).
      match goal with |- context [update_meeting mid ?f ?w2] =>
        rewrite (update_meeting_found w2 mid f (set_state ACTIVE m))
          by apply record_of_put end.
      cbv beta iota delta [emit modify]. rewrite notify_eq.
      cbv beta iota delta [ret]. f_equal.
      unfold after, logged, did, put, callbacks_of. cbn.
      now rewrite set_set, app_nil_r, <- !app_assoc.
    + rewrite joins_app. cbn. induction (callbacks_of w mid); cbn; auto.
    + intros _. split; [ reflexivity | split; [ | split ] ].
      * rewrite transitions_app, transitions_callbacks. cbn. now rewrite String.eqb_refl.
      * rewrite called_app, called_callbacks. reflexivity.
      * unfold spawned. rewrite flat_map_app. cbn.
        induction (callbacks_of w mid); cbn; auto.
  - exists (set_state FAILED m), [EvState mid FAILED]. eexists.
    split; [ | split; [ | split; [ discriminate | ] ] ].
    + cbv beta iota delta [bind].
      rewrite (assign_state_found w mid FAILED m Hm).
      cbv beta iota delta [logger modify ret]. f_equal.
      unfold after, logged, did, put. cbn. reflexivity.
    + reflexivity.
    + intros _. split; [ reflexivity | split; [ | split ] ].
      * cbn. now rewrite String.eqb_refl.
      * reflexivity.
      * reflexivity.
Qed.


Lemma get_eq (w : World) : get w = (Returns w, w).
Proof. reflexivity. Qed.

Lemma transcription_only_transitions mid tr :
  Forall is_transcription tr -> transitions mid tr = [].
Proof.
  induction 1 as [ | e tr He _ IH]; [ reflexivity | ].
  destruct e; try destruct He. exact IH.
Qed.

Lemma transcription_only_called ev mid tr :
  Forall is_transcription tr -> called ev mid tr = [].
Proof.
  induction 1 as [ | e tr He _ IH]; [ reflexivity | ].
  destruct e; try destruct He. exact IH.
Qed.

Lemma transcription_only_joins tr : Forall is_transcription tr -> joins tr = [].
Proof.
  induction 1 as [ | e tr He _ IH]; [ reflexivity | ].
  destruct e; try destruct He. exact IH.
Qed.

Lemma start_meeting_scheduled env mid w m :
  record_of w mid = Some m ->
  state m = SCHEDULED ->
  exists (ok : bool) m' delta lines,
    start_meeting env mid w = (Returns ok, after w mid m' delta lines) /\
    (ok = true <-> exists b, In (b, true) (joins delta)) /\
    (ok = true ->
       state m' = ACTIVE /\ actual_start_time m' = Some (now env 0%nat) /\
       transitions mid delta = [STARTING; ACTIVE] /\
       called "meeting_started" mid delta = callbacks_of w mid) /\
    (ok = false ->
       state m' = FAILED /\
       transitions mid delta = [STARTING; FAILED] /\
       called "meeting_started" mid delta = []).
Proof.
  intros Hm Hs.
  unfold start_meeting, try_except.
  rewrite (bind_returns _ _ _ _ _ (lookup_eq mid w)). rewrite Hm, Hs.
  cbn [MeetingState_eqb negb].
  rewrite (bind_returns _ _ _ _ _ (assign_state_found w mid STARTING m Hm)).
  set (m1 := set_state STARTING m).
  set (w1 := did (put w mid m1) [EvState mid STARTING]).
  assert (Hw1 : w1 = after w mid m1 [EvState mid STARTING] []).
  { unfold w1, after, logged. cbn. now rewrite app_nil_r. }
  rewrite (bind_returns _ _ _ _ _ (get_eq w1)).
  match goal with
  | |- context [bind (when ?b ?body) _ w1] =>
      change (when b body) with (transcription_step env mid m w1)
  end.
  destruct (transcription_step_spec env mid m w1 w1)
    as [[e He] | [tr [lines [Htr Ftr]]]].
  - (* the speech provider is not one the enumeration knows *)
    rewrite (bind_raises _ _ _ _ _ He).
    exists false, (set_state FAILED m1), [EvState mid STARTING; EvState mid FAILED].
    eexists. split; [ | split; [ | split; [ discriminate | ] ] ].
    + cbv beta iota delta [bind logger modify get]. cbn [self].
      assert (Hmem : PyDict.mem (active_meetings (self w1)) mid = true).
      { apply (mem_get _ _ m1). apply record_of_put. }
      rewrite Hmem. cbn [when].
      match goal with |- context [assign_state mid FAILED ?w2] =>
        rewrite (assign_state_found w2 mid FAILED m1) by apply record_of_put end.
      cbv beta iota delta [ret]. f_equal.
      unfold after, logged, did, put, w1. cbn. rewrite set_set, <- app_assoc. reflexivity.
    + split; [ discriminate | intros [b []] ].
    + intros _. cbn. rewrite String.eqb_refl. cbn. auto.
  - rewrite (bind_returns _ _ _ _ _ Htr).
    set (w2 := logged (did w1 tr) lines).
    assert (Hw2 : w2 = after w mid m1 (EvState mid STARTING :: tr) lines).
    { unfold w2. rewrite Hw1. unfold after, logged, did, put. cbn.
      now rewrite app_nil_r, <- app_assoc. }
    assert (Hr2 : record_of w2 mid = Some m1) by (rewrite Hw2; apply record_of_after).
    destruct (join_loop env mid
                (filter (fun participant_id => PyDict.mem (agents (self w1)) participant_id)
                        (participants m)) w2 m1 Hr2)
      as [results [jl [dj [l2 [Ej [Fj Rj]]]]]].
    rewrite (bind_returns _ _ _ _ _ Ej). cbv beta.
    set (m2 := set_participants_joined (participants_joined m1 ++ jl)%list m1) in *.
    destruct (conclude_start_spec env mid results (after w2 mid m2 dj l2) m2
                (record_of_after _ _ _ _ _))
      as [m' [delta [l3 [Ec [Jc [Hok Hko]]]]]].
    match goal with
    | |- context [let (o, s') := ?body (after w2 mid m2 dj l2) in _] =>
        change body with (conclude_start env mid results)
    end.
    rewrite Ec.
    exists (existsb (fun r => r) results), m',
           (EvState mid STARTING :: tr ++ dj ++ delta)%list, (lines ++ l2 ++ l3)%list.
    assert (Hjoins : joins (EvState mid STARTING :: tr ++ dj ++ delta)%list = joins dj).
    { change (EvState mid STARTING :: tr ++ dj ++ delta)%list
        with ([EvState mid STARTING] ++ tr ++ dj ++ delta)%list.
      rewrite !joins_app, Jc, (transcription_only_joins tr Ftr), app_nil_r. reflexivity. }
    assert (Htrans : transitions mid (EvState mid STARTING :: tr ++ dj ++ delta)%list
                     = STARTING :: transitions mid delta).
    { change (EvState mid STARTING :: tr ++ dj ++ delta)%list
        with ([EvState mid STARTING] ++ tr ++ dj ++ delta)%list.
      rewrite !transitions_app, (transcription_only_transitions mid tr Ftr),
        (joins_only_transitions mid dj Fj).
      cbn. now rewrite String.eqb_refl. }
    assert (Hcalled : forall ev,
              called ev mid (EvState mid STARTING :: tr ++ dj ++ delta)%list
              = called ev mid delta).
    { intros ev.
      change (EvState mid STARTING :: tr ++ dj ++ delta)%list
        with ([EvState mid STARTING] ++ tr ++ dj ++ delta)%list.
      rewrite !called_app, (transcription_only_called ev mid tr Ftr),
        (joins_only_called ev mid dj Fj). reflexivity. }
    split; [ | split; [ | split ] ].
    + f_equal. rewrite Hw2, !after_after. reflexivity.
    + now rewrite Hjoins.
    + intros Hb. destruct (Hok Hb) as [-> [Ht [Hc _]]].
      rewrite Htrans, Hcalled, Ht, Hc. repeat split.
    + intros Hb. destruct (Hko Hb) as [-> [Ht [Hc _]]].
      rewrite Htrans, Hcalled, Ht, Hc. repeat split.
Qed.


(** *** The transcription callback *)

Lemma process_transcription_eq env mid result w :
  _process_transcription_for_agents env mid result w
  = (Returns tt, logged w [(ERROR, "Error processing transcription for agents")]).
Proof.
  cbv beta iota delta [_process_transcription_for_agents try_except bind meeting_of
                         lookup gets].
  destruct (PyDict.get (active_meetings (self w)) mid); reflexivity.
Qed.

Lemma transcription_callback_registered env mid result w m :
  record_of w mid = Some m ->
  transcription_callback env mid result w
  = (Returns tt,
     let appended :=
       put w mid (set_transcript (transcript m ++ [entry_of result])%list m) in
     if String.eqb (tr_type result) "final"
     then snd (_process_transcription_for_agents env mid result appended)
     else appended).
Proof.
  intros Hm.
  cbv beta iota delta [transcription_callback try_except bind get].
  rewrite (mem_get _ _ _ Hm). cbn [when].
  cbv beta iota delta [bind].
  rewrite (update_meeting_found w mid _ m Hm).
  destruct (String.eqb (tr_type result) "final"); cbn [when].
  - rewrite process_transcription_eq. reflexivity.
  - reflexivity.
Qed.

Lemma transcription_callback_unregistered env mid result w :
  record_of w mid = None ->
  transcription_callback env mid result w = (Returns tt, w).
Proof.
  unfold record_of. intros Hm.
  cbv beta iota delta [transcription_callback try_except bind get PyDict.mem].
  now rewrite Hm.
Qed.

Lemma transcription_callback_facts env mid result w m :
  record_of w mid = Some m ->
  let w' := snd (transcription_callback env mid result w) in
  let appended := put w mid (set_transcript (transcript m ++ [entry_of result])%list m) in
  fst (transcription_callback env mid result w) = Returns tt /\
  record_of w' mid
  = Some (set_transcript (transcript m ++ [entry_of result])%list m) /\
  w' = (if String.eqb (tr_type result) "final"
        then snd (_process_transcription_for_agents env mid result appended)
        else appended) /\
  (In (ERROR, "Error processing transcription for agents")
      (skipn (List.length (log w)) (log w'))
   <-> tr_type result = "final") /\
  (tr_type result <> "final" -> w' = appended) /\
  trace w' = trace w.
Proof.
  intros Hm. cbv zeta. rewrite (transcription_callback_registered env mid result w m Hm).
  cbn [fst snd].
  destruct (String.eqb_spec (tr_type result) "final") as [E | E].
  - rewrite process_transcription_eq. cbn [snd].
    repeat split; try (intros; contradiction).
    + apply record_of_put.
    + intros _. exact E.
    + intros _. unfold logged, put. cbn.
      rewrite skipn_app, Nat.sub_diag, skipn_all. now left.
  - repeat split.
    + apply record_of_put.
    + unfold put. cbn. rewrite skipn_all. intros [].
    + intros H. contradiction.
Qed.

(** *** Ending twice *)

Lemma endable_logged w l mid : endable (logged w l) mid = endable w mid.
Proof. reflexivity. Qed.

Lemma end_meeting_twice :
  (forall env mid reason w,
      endable w mid = false ->
      fst (end_meeting env mid reason w) = Returns false /\
      self (snd (end_meeting env mid reason w)) = self w /\
      trace (snd (end_meeting env mid reason w)) = trace w) /\
  (forall env1 env2 mid reason1 reason2 w,
      let w1 := snd (end_meeting env1 mid reason1 w) in
      let w2 := snd (end_meeting env2 mid reason2 w1) in
      fst (end_meeting env2 mid reason2 w1) = Returns false /\
      self w2 = self w1 /\ trace w2 = trace w1 /\
      (endable w mid = true ->
       fst (end_meeting env1 mid reason1 w) = Returns true /\
       exists delta m',
         trace w2 = (trace w ++ delta)%list /\
         transitions mid delta = [ENDING; COMPLETED] /\
         record_of w2 mid = Some m' /\
         state m' = COMPLETED /\ end_reason m' = Some reason1)).
Proof.
  assert (Hrej : forall env mid reason w,
      endable w mid = false ->
      fst (end_meeting env mid reason w) = Returns false /\
      self (snd (end_meeting env mid reason w)) = self w /\
      trace (snd (end_meeting env mid reason w)) = trace w).
  { intros env mid reason w H.
    destruct (end_meeting_rejected env mid reason w H) as [line ->]. now cbn. }
  split; [ exact Hrej | ].
  intros env1 env2 mid reason1 reason2 w w1 w2.
  destruct (endable w mid) eqn:He.
  - assert (Hm : exists m, record_of w mid = Some m).
    { unfold endable in He. unfold record_of.
      destruct (PyDict.get (active_meetings (self w)) mid) as [m | ];
        [ now exists m | discriminate ]. }
    destruct Hm as [m Hm].
    destruct (end_meeting_done env1 mid reason1 w m Hm He) as [delta [line [E [Ht _]]]].
    assert (He1 : endable w1 mid = false).
    { unfold w1. rewrite E. cbn [snd]. unfold endable, did, logged, put. cbn.
      now rewrite get_set_same. }
    destruct (Hrej env2 mid reason2 w1 He1) as [R1 [R2 R3]].
    fold w2 in R2, R3. repeat split; try assumption; [ now rewrite E | ].
    exists delta. eexists. rewrite R3. unfold record_of. rewrite R2.
    unfold w1. rewrite E. cbn [snd]. unfold did, logged, put. cbn.
    rewrite get_set_same. repeat split. exact Ht.
  - destruct (Hrej env1 mid reason1 w He) as [_ [S1 T1]]. fold w1 in S1, T1.
    assert (He1 : endable w1 mid = false).
    { unfold endable in *. now rewrite S1. }
    destruct (Hrej env2 mid reason2 w1 He1) as [R1 [R2 R3]].
    fold w2 in R2, R3. repeat split; try assumption; discriminate.
Qed.


(** ** The response decision *)

Lemma triggers_lower (t : string) : In t response_triggers -> lower t = t.
Proof.
  unfold response_triggers. simpl.
  intros H. repeat (destruct H as [<- | H]; [ reflexivity | ]). destruct H.
Qed.

Lemma triggers_spec (content : string) :
  existsb (fun trigger => contains trigger (lower content)) response_triggers = true
  <-> exists trigger, In trigger response_triggers /\ occurs_ci trigger content.
Proof.
  rewrite existsb_exists. split; intros [t [Hin H]]; exists t; (split; [ exact Hin | ]).
  - apply contains_lower_spec. now rewrite (triggers_lower t Hin).
  - apply contains_lower_spec in H. now rewrite (triggers_lower t Hin) in H.
Qed.

(** C7. [_should_agent_respond] answers true exactly when the agent's name
    occurs in the message whatever the case of the letters, or one of the
    trigger words occurs in it (the message is compared in lower case), or
    the message, trimmed, ends with a question mark.  The message
    "Looks good." makes no agent eligible whose name does not occur in it,
    and "What's your status, Sarah?" makes every agent eligible. *)
Theorem should_agent_respond_spec :
  (forall (agent : Agent) (message : MeetingMessage) (context : MeetingContext),
      _should_agent_respond agent message context = true
      <-> eligible_to_respond (employee_name agent) (msg_content message)) /\
  (forall (agent : Agent) (message : MeetingMessage) (context : MeetingContext),
      msg_content message = "Looks good." ->
      ~ occurs_ci (employee_name agent) "Looks good." ->
      _should_agent_respond agent message context = false) /\
  (forall (agent : Agent) (message : MeetingMessage) (context : MeetingContext),
      msg_content message = "What's your status, Sarah?" ->
      _should_agent_respond agent message context = true).
Proof.
  assert (Hiff : forall agent message context,
      _should_agent_respond agent message context = true
      <-> eligible_to_respond (employee_name agent) (msg_content message)).
  { intros agent message context.
    unfold _should_agent_respond, eligible_to_respond.
    rewrite <- contains_lower_spec, <- triggers_spec,
      <- (strip_ends_with "?"%char) by reflexivity.
    destruct (contains _ _); [ intuition | ].
    destruct (existsb _ _); [ intuition | ].
    destruct (endswith _ _); [ intuition | ].
    intuition discriminate. }
  split; [ exact Hiff | split ].
  - intros agent message context Hc Hname.
    destruct (_should_agent_respond agent message context) eqn:E; [ | reflexivity ].
    exfalso. apply Hiff in E. rewrite Hc in E.
    destruct E as [E | [E | E]].
    + contradiction.
    + apply triggers_spec in E. discriminate E.
    + apply (strip_ends_with "?"%char) in E; [ discriminate E | reflexivity ].
  - intros agent message context Hc.
    apply Hiff. rewrite Hc. right. left. apply triggers_spec. reflexivity.
Qed.


Lemma should_agent_respond_spec_witness :
  ~ occurs_ci "Bob" "Looks good." /\
  _should_agent_respond {| employee_name := "Bob" |}
    {| msg_speaker := "Human"; msg_content := "Looks good.";
       msg_message_type := GENERAL; msg_timestamp := Examples.noon;
       msg_context_used := Some []; msg_confidence := 0.9%float |}
    {| ctx_meeting_id := Examples.standup_id; ctx_title := "Daily Standup";
       ctx_participants := ["bob"]; ctx_agenda := Some "";
       ctx_start_time := Examples.noon; ctx_duration_minutes := 60%Z;
       ctx_meeting_type := "audio_meeting" |} = false.
Proof.
  assert (H : ~ occurs_ci "Bob" "Looks good.").
  { intros H. apply contains_lower_spec in H. discriminate H. }
  split; [ exact H | ].
  apply (proj1 (proj2 should_agent_respond_spec)); [ reflexivity | exact H ].
Defined.


(** ** Starting a meeting *)



(** The same meeting, run: bob joins, sarah does not. *)
Example start_meeting_partial_join :
  fst (start_meeting
         (Examples.env_at (Examples.noon + Examples.second)%Z Examples.only_bob)
         Examples.standup_id Examples.one_scheduled) = Returns true /\
  option_map state (record_of Examples.one_active Examples.standup_id) = Some ACTIVE /\
  option_map participants_joined (record_of Examples.one_active Examples.standup_id)
    = Some ["bob"] /\
  called "meeting_started" Examples.standup_id (trace Examples.one_active) = [7%nat].
Proof. vm_compute. repeat split. Qed.

(** With a platform that lets nobody in, the meeting fails and the callback
    is not called. *)
Example start_meeting_no_join :
  fst (start_meeting
         (Examples.env_at (Examples.noon + Examples.second)%Z Examples.nobody)
         Examples.standup_id Examples.one_scheduled) = Returns false /\
  option_map state
    (record_of
       (snd (start_meeting
               (Examples.env_at (Examples.noon + Examples.second)%Z Examples.nobody)
               Examples.standup_id Examples.one_scheduled))
       Examples.standup_id) = Some FAILED /\
  called "meeting_started" Examples.standup_id
    (trace (snd (start_meeting
                   (Examples.env_at (Examples.noon + Examples.second)%Z Examples.nobody)
                   Examples.standup_id Examples.one_scheduled))) = [].
Proof. vm_compute. repeat split. Qed.


(** ** Ending a meeting *)

(** C3. [end_meeting] on a meeting that is neither active nor starting, or
    that is not registered, returns false and changes neither the
    orchestrator (every record, hence state, transcript, end time and end
    reason) nor the trace (no callback is called); it only logs.  So of two
    calls in a row the second is always rejected and changes nothing; when
    the meeting could be ended, the first returns true and the two calls
    together assign ENDING and COMPLETED once each, with the reason of the
    first call. *)
Theorem end_meeting_rejection :
  (forall (env : Env) (mid reason : string) (w : World),
      endable w mid = false ->
      fst (end_meeting env mid reason w) = Returns false /\
      self (snd (end_meeting env mid reason w)) = self w /\
      trace (snd (end_meeting env mid reason w)) = trace w) /\
  (forall (env1 env2 : Env) (mid reason1 reason2 : string) (w : World),
      let w1 := snd (end_meeting env1 mid reason1 w) in
      let w2 := snd (end_meeting env2 mid reason2 w1) in
      fst (end_meeting env2 mid reason2 w1) = Returns false /\
      self w2 = self w1 /\ trace w2 = trace w1 /\
      (endable w mid = true ->
       fst (end_meeting env1 mid reason1 w) = Returns true /\
       exists delta m',
         trace w2 = (trace w ++ delta)%list /\
         transitions mid delta = [ENDING; COMPLETED] /\
         record_of w2 mid = Some m' /\
         state m' = COMPLETED /\ end_reason m' = Some reason1)).
Proof. exact end_meeting_twice. Qed.

Lemma end_meeting_rejection_witness :
  endable Examples.one_completed Examples.standup_id = false /\
  fst (end_meeting (Examples.env_at Examples.noon Examples.everyone)
         Examples.standup_id "again" Examples.one_completed) = Returns false /\
  self (snd (end_meeting (Examples.env_at Examples.noon Examples.everyone)
               Examples.standup_id "again" Examples.one_completed))
  = self Examples.one_completed /\
  trace (snd (end_meeting (Examples.env_at Examples.noon Examples.everyone)
                Examples.standup_id "again" Examples.one_completed))
  = trace Examples.one_completed.
Proof.
  split; [ vm_compute; reflexivity | ].
  apply (proj1 end_meeting_rejection). vm_compute. reflexivity.
Defined.

(** ** Transcription events *)

(** What the callback does with an event of a registered meeting.  The
    event is appended to the transcript of the meeting, whatever its type;
    nothing else of the record changes.  [_process_transcription_for_agents]
    is run on the result exactly when the type is ["final"], which shows in
    the log; for any other type, ["partial"] included, the append is all
    that happens: no task is spawned and no agent is asked for a response. *)
Theorem transcription_callback_spec (env : Env) (mid : string)
  (result : TranscriptionResult) (w : World) (m : MeetingRecord) :
  record_of w mid = Some m ->
  let w' := snd (transcription_callback env mid result w) in
  let appended :=
    put w mid (set_transcript (transcript m ++ [entry_of result])%list m) in
  fst (transcription_callback env mid result w) = Returns tt /\
  record_of w' mid
  = Some (set_transcript (transcript m ++ [entry_of result])%list m) /\
  w' = (if String.eqb (tr_type result) "final"
        then snd (_process_transcription_for_agents env mid result appended)
        else appended) /\
  (In (ERROR, "Error processing transcription for agents")
      (appended_to (log w) (log w'))
   <-> tr_type result = "final") /\
  (tr_type result <> "final" -> w' = appended /\ spawned (trace w') = spawned (trace w)) /\
  (forall task, In task (spawned (appended_to (trace w) (trace w'))) ->
                tr_type result = "final").
Proof.
  intros Hm.
  destruct (transcription_callback_facts env mid result w m Hm)
    as [H1 [H2 [H3 [H4 [H5 H6]]]]].
  cbv zeta in *. repeat split; try assumption.
  - apply H4.
  - apply H4.
  - now apply H5.
  - rewrite (H5 H). reflexivity.
  - intros task. rewrite H6. unfold appended_to. rewrite skipn_all. intros [].
Qed.

Lemma transcription_callback_spec_witness :
  exists m,
    record_of Examples.one_active Examples.standup_id = Some m /\
    record_of
      (snd (transcription_callback (Examples.env_at Examples.noon Examples.everyone)
              Examples.standup_id (Examples.heard "partial" "What is the sta")
              Examples.one_active)) Examples.standup_id
    = Some (set_transcript
              (transcript m ++ [entry_of (Examples.heard "partial" "What is the sta")])%list
              m).
Proof.
  assert (Hm : exists m, record_of Examples.one_active Examples.standup_id = Some m).
  { eexists. vm_compute. reflexivity. }
  destruct Hm as [m Hm]. exists m. split; [ exact Hm | ].
  pose proof (transcription_callback_spec
                (Examples.env_at Examples.noon Examples.everyone) Examples.standup_id
                (Examples.heard "partial" "What is the sta") Examples.one_active m Hm)
    as H.
  cbv zeta in H. destruct H as [_ [H _]]. exact H.
Defined.

(** A final event on the running meeting: one more transcript entry, the
    evaluation logs its failure, nothing is spawned. *)
Example final_event_on_active_meeting :
  let w' :=
    snd (transcription_callback (Examples.env_at Examples.noon Examples.everyone)
           Examples.standup_id
           (Examples.heard "final" "What's your status, Sarah?")
           Examples.one_active) in
  option_map (fun m => map te_type (transcript m))
    (record_of w' Examples.standup_id) = Some ["final"] /\
  appended_to (log Examples.one_active) (log w')
    = [(ERROR, "Error processing transcription for agents")] /\
  spawned (appended_to (trace Examples.one_active) (trace w')) = [].
Proof. vm_compute. repeat split. Qed.

(** C5. A final event does not reach the agents.  On the running stand-up,
    which Bob has joined, the callback receives the final event
    ["Bob, what is your status?"] spoken by a human.  Bob is a registered
    agent, is not the speaker, and [_should_agent_respond] answers true for
    him whatever the context.  The callback returns and appends the event
    to the transcript, but it adds nothing to the trace: no response task
    is spawned and no agent is asked, so that no entry of type
    ["agent_response"] can follow; the log gets the error of
    [_process_transcription_for_agents].  The cause is the meeting context,
    which is built without the required [duration_minutes] and therefore
    raises for every meeting, before the first joined agent is looked at.
    So it is for every event of every meeting: the callback never adds to
    the trace. *)
Theorem final_event_reaches_no_agent :
  let env := Examples.env_at Examples.noon Examples.everyone in
  let event := Examples.heard "final" "Bob, what is your status?" in
  let w' :=
    snd (transcription_callback env Examples.standup_id event Examples.one_active) in
  tr_type event = "final" /\
  option_map participants_joined (record_of Examples.one_active Examples.standup_id)
  = Some ["bob"] /\
  PyDict.get (agents (self Examples.one_active)) "bob"
  = Some {| employee_name := "Bob" |} /\
  tr_speaker event <> "Bob" /\
  (forall context : MeetingContext,
      _should_agent_respond {| employee_name := "Bob" |}
        {| msg_speaker := tr_speaker event;
           msg_content := tr_text event;
           msg_message_type := GENERAL;
           msg_timestamp := tr_timestamp event;
           msg_context_used := Some [];
           msg_confidence := tr_confidence event |} context = true) /\
  fst (transcription_callback env Examples.standup_id event Examples.one_active)
  = Returns tt /\
  appended_to (trace Examples.one_active) (trace w') = [] /\
  option_map (fun m => map te_type (transcript m)) (record_of w' Examples.standup_id)
  = Some ["final"] /\
  appended_to (log Examples.one_active) (log w')
  = [(ERROR, "Error processing transcription for agents")] /\
  (forall (meeting_id : string) (meeting : MeetingRecord),
      audio_meeting_context meeting_id meeting = Raises ValidationError) /\
  (forall (env0 : Env) (meeting_id : string) (result : TranscriptionResult)
          (w : World),
      trace (snd (transcription_callback env0 meeting_id result w)) = trace w).
Proof.
  cbv zeta.
  split; [ reflexivity | ].
  split; [ vm_compute; reflexivity | ].
  split; [ vm_compute; reflexivity | ].
  split; [ discriminate | ].
  split; [ intros context; vm_compute; reflexivity | ].
  split; [ vm_compute; reflexivity | ].
  split; [ vm_compute; reflexivity | ].
  split; [ vm_compute; reflexivity | ].
  split; [ vm_compute; reflexivity | ].
  split; [ reflexivity | ].
  intros env0 meeting_id result w.
  destruct (record_of w meeting_id) as [m | ] eqn:Hm.
  - rewrite (transcription_callback_registered env0 meeting_id result w m Hm).
    cbv zeta. cbn [snd].
    destruct (String.eqb (tr_type result) "final").
    + rewrite process_transcription_eq. reflexivity.
    + reflexivity.
  - rewrite (transcription_callback_unregistered env0 meeting_id result w Hm).
    reflexivity.
Qed.


(** ** The concurrency ceiling *)

(** What [schedule_meeting] compares with the ceiling is the size of the
    registry. *)
Lemma schedule_meeting_at_ceiling (env : Env) (config : MeetingConfig) (w : World) :
  (max_concurrent_meetings (self w) <= PyDict.len (active_meetings (self w)))%Z ->
  fst (schedule_meeting env config w) = Returns "" /\
  self (snd (schedule_meeting env config w)) = self w /\
  trace (snd (schedule_meeting env config w)) = trace w.
Proof.
  intros Hfull. apply Z.leb_le in Hfull.
  cbv beta iota zeta delta [schedule_meeting try_except bind].
  assert (Hv : exists (b : bool) lines,
            _validate_meeting_config config w = (Returns b, logged w lines)).
  { unfold _validate_meeting_config.
    destruct (cfg_title config); [ | eexists; eexists; reflexivity ].
    destruct (cfg_participants config) as [ps | ]; [ | eexists; eexists; reflexivity ].
    destruct (cfg_start_time config); [ | eexists; eexists; reflexivity ].
    cbv beta iota delta [bind get].
    destruct (find _ ps); [ eexists; eexists; reflexivity | ].
    exists true, []. unfold ret, logged. rewrite app_nil_r. now destruct w. }
  destruct Hv as [b [lines ->]]. destruct b; cbn [negb].
  - cbv beta iota delta [get]. cbn [self logged]. rewrite Hfull. now cbn.
  - now cbn.
Qed.

Lemma schedule_meeting_at_ceiling_witness :
  (max_concurrent_meetings (self Examples.three_completed)
   <= PyDict.len (active_meetings (self Examples.three_completed)))%Z /\
  fst (schedule_meeting (Examples.env_at (Examples.noon + 60 * Examples.second)%Z
                                         Examples.everyone)
         (Examples.config "Retrospective" Examples.noon)
         Examples.three_completed) = Returns "".
Proof.
  split; [ vm_compute; discriminate | ].
  apply schedule_meeting_at_ceiling. vm_compute. discriminate.
Defined.

Lemma validate_known (config : MeetingConfig) (w : World) (t : string)
  (ps : list string) (st : datetime) :
  cfg_title config = Some t ->
  cfg_participants config = Some ps ->
  cfg_start_time config = Some st ->
  (forall p, In p ps -> PyDict.mem (agents (self w)) p = true) ->
  _validate_meeting_config config w = (Returns true, w).
Proof.
  intros Ht Hp Hs Hknown. unfold _validate_meeting_config.
  rewrite Ht, Hp, Hs. cbv beta iota delta [bind get].
  destruct (find _ ps) as [p | ] eqn:E; [ | reflexivity ].
  apply find_some in E as [Hin Hneg].
  rewrite (Hknown p Hin) in Hneg. discriminate Hneg.
Qed.

(** Below the ceiling a valid configuration with a URL is registered, in
    state SCHEDULED and with nobody joined. *)
Lemma schedule_meeting_below_ceiling (env : Env) (config : MeetingConfig)
  (w : World) (t u : string) (ps : list string) (st : datetime) :
  cfg_title config = Some t ->
  cfg_participants config = Some ps ->
  cfg_start_time config = Some st ->
  (forall p, In p ps -> PyDict.mem (agents (self w)) p = true) ->
  cfg_meeting_url config = Some u ->
  truthy u = true ->
  (PyDict.len (active_meetings (self w)) < max_concurrent_meetings (self w))%Z ->
  let meeting_id := "meeting_" ++ strftime_Ymd_HMS (now env 0%nat) in
  fst (schedule_meeting env config w) = Returns meeting_id /\
  exists m,
    record_of (snd (schedule_meeting env config w)) meeting_id = Some m /\
    state m = SCHEDULED /\ participants m = ps /\ participants_joined m = [] /\
    transcript m = [].
Proof.
  intros Ht Hp Hs Hknown Hu Htruthy Hroom. cbv zeta.
  apply Z.ltb_lt in Hroom. rewrite Z.ltb_antisym in Hroom.
  apply negb_true_iff in Hroom.
  cbv beta iota zeta delta [schedule_meeting try_except bind].
  rewrite (validate_known config w t ps st Ht Hp Hs Hknown). cbn [negb].
  cbv beta iota delta [get]. rewrite Hroom, Hu, Htruthy.
  cbv beta iota delta [ret]. rewrite Htruthy. cbn [negb].
  rewrite Ht, Hp, Hs. cbv beta iota delta [expect ret update_self modify].
  destruct (0 <? st - now env 2%nat)%Z; cbv beta iota delta [emit modify ret];
    cbn [fst snd]; (split; [ reflexivity | ]);
    eexists; (split; [ unfold record_of; cbn [self active_meetings set_active_meetings];
                       apply get_set_same | repeat split ]).
Qed.

(** So a valid configuration is refused exactly when the registry, with
    meetings of every state in it, has reached the ceiling. *)
Lemma schedule_meeting_refused_iff (env : Env) (config : MeetingConfig)
  (w : World) (t u : string) (ps : list string) (st : datetime) :
  cfg_title config = Some t ->
  cfg_participants config = Some ps ->
  cfg_start_time config = Some st ->
  (forall p, In p ps -> PyDict.mem (agents (self w)) p = true) ->
  cfg_meeting_url config = Some u ->
  truthy u = true ->
  fst (schedule_meeting env config w) = Returns ""
  <-> (max_concurrent_meetings (self w) <= PyDict.len (active_meetings (self w)))%Z.
Proof.
  intros Ht Hp Hs Hknown Hu Htruthy. split.
  - intros Hrefused.
    destruct (Z_le_gt_dec (max_concurrent_meetings (self w))
                          (PyDict.len (active_meetings (self w)))) as [Hle | Hgt];
      [ exact Hle | exfalso ].
    destruct (schedule_meeting_below_ceiling env config w t u ps st
                Ht Hp Hs Hknown Hu Htruthy) as [Hid _]; [ lia | ].
    rewrite Hid in Hrefused. discriminate Hrefused.
  - intros Hfull. now apply schedule_meeting_at_ceiling.
Qed.

(** C2. Meetings that are over still count.  After three meetings have been
    scheduled, started and ended one after the other, all three records are
    COMPLETED and still in the registry; no meeting is scheduled, starting or
    active, the ceiling is the default 3, and a valid configuration is
    refused with the log line of the ceiling. *)
Theorem completed_meetings_count_toward_ceiling :
  map (fun item => state (snd item)) (active_meetings (self Examples.three_completed))
    = [COMPLETED; COMPLETED; COMPLETED] /\
  live_meetings Examples.three_completed = 0%Z /\
  max_concurrent_meetings (self Examples.three_completed) = 3%Z /\
  fst (schedule_meeting (Examples.env_at (Examples.noon + 60 * Examples.second)%Z
                                         Examples.everyone)
         (Examples.config "Retrospective" Examples.noon)
         Examples.three_completed) = Returns "" /\
  appended_to (log Examples.three_completed)
    (log (snd (schedule_meeting
                 (Examples.env_at (Examples.noon + 60 * Examples.second)%Z
                                  Examples.everyone)
                 (Examples.config "Retrospective" Examples.noon)
                 Examples.three_completed)))
  = [(ERROR, "Maximum concurrent meetings reached")].
Proof. vm_compute. repeat split. Qed.

(** ** Meeting identifiers *)

(** The identifier is a function of the second the clock shows. *)
Lemma meeting_id_of_second (t1 t2 : datetime) :
  (t1 / 1000000 = t2 / 1000000)%Z ->
  strftime_Ymd_HMS t1 = strftime_Ymd_HMS t2.
Proof. unfold strftime_Ymd_HMS. now intros ->. Qed.

Lemma meeting_id_of_second_witness :
  (Examples.noon / 1000000 = (Examples.noon + 300) / 1000000)%Z /\
  strftime_Ymd_HMS Examples.noon = strftime_Ymd_HMS (Examples.noon + 300)%Z.
Proof.
  split; [ vm_compute; reflexivity | ].
  apply meeting_id_of_second. vm_compute. reflexivity.
Defined.

(** C4. Two calls of [schedule_meeting] within one second of the clock get
    the same identifier, and the second record replaces the first: both calls
    succeed and return ["meeting_20261104_120000"], and afterwards the
    registry holds one record, with the title of the second meeting. *)
Theorem same_second_same_meeting_id :
  let first :=
    schedule_meeting (Examples.env_at Examples.noon Examples.everyone)
      (Examples.config "Daily Standup" Examples.noon) Examples.fresh in
  let second :=
    schedule_meeting (Examples.env_at (Examples.noon + 300)%Z Examples.everyone)
      (Examples.config "Code Review Session" Examples.noon) (snd first) in
  fst first = Returns "meeting_20261104_120000" /\
  fst second = Returns "meeting_20261104_120000" /\
  option_map title (record_of (snd first) "meeting_20261104_120000")
    = Some "Daily Standup" /\
  option_map title (record_of (snd second) "meeting_20261104_120000")
    = Some "Code Review Session" /\
  PyDict.len (active_meetings (self (snd second))) = 1%Z.
Proof. vm_compute. repeat split. Qed.

End OrchestratorProps.

(** * Further properties of the conversation manager *)

Module TurnTakingProps.
Import Py PyStr PyM Datetime Agents CM DictFacts StrFacts ConversationProps Turns.
Local Open Scope pym_scope.

Lemma index_nth (x : string) (xs : list string) (i : nat) :
  index x xs = Some i -> nth_error xs i = Some x /\ (i < List.length xs)%nat.
Proof.
  revert i. induction xs as [ | y ys IH]; intros i; simpl; [ discriminate | ].
  destruct (String.eqb_spec y x) as [-> | Hne].
  - intros [= <-]. split; [ reflexivity | lia ].
  - destruct (index x ys) as [j | ]; [ | discriminate ].
    intros [= <-]. destruct (IH j eq_refl) as [H1 H2]. split; [ exact H1 | simpl; lia ].
Qed.

Lemma index_In (x : string) (xs : list string) (i : nat) :
  index x xs = Some i -> In x xs.
Proof. intros H. apply index_nth in H as [H _]. now apply nth_error_In in H. Qed.

Lemma In_index (x : string) (xs : list string) :
  In x xs -> exists i, index x xs = Some i.
Proof.
  induction xs as [ | y ys IH]; simpl; [ intros [] | ].
  destruct (String.eqb_spec y x) as [-> | Hne]; [ now exists 0%nat | ].
  intros [H | H]; [ contradiction | ].
  destruct (IH H) as [i ->]. now exists (S i).
Qed.

Lemma added_participants c A content ty t1 t2 :
  participants (added c A content ty t1 t2) = participants c.
Proof. reflexivity. Qed.

(** X1. Round robin.  Under the round-robin strategy a message of the
    participant at position [i] of the participant list (its first
    position) is accepted without exception and queues the participant at
    position [(i + 1) mod n], and nobody else; when that is the speaker
    itself, as in a conversation of one, nothing is queued. *)
Theorem round_robin_queues_successor (c : ConversationManager)
  (A content : string) (ty : MessageType) (clock : Clock) (i : nat) :
  strategy c = ROUND_ROBIN ->
  index A (participants c) = Some i ->
  exists B,
    nth_error (participants c) ((i + 1) mod List.length (participants c))%nat = Some B /\
    add_message A content ty clock c
    = (Returns tt,
       let c1 := added c A content ty (clock 0%nat) (clock 1%nat) in
       if String.eqb B A then c1
       else set_speaking_queue (speaking_queue c ++ [B])%list c1).
Proof.
  intros Hs Hi.
  destruct (index_nth _ _ _ Hi) as [_ Hlt].
  assert (Hn : ((i + 1) mod List.length (participants c) < List.length (participants c))%nat)
    by (apply Nat.mod_upper_bound; lia).
  destruct (nth_error (participants c) ((i + 1) mod List.length (participants c))%nat)
    as [B | ] eqn:EB; [ | apply nth_error_None in EB; lia ].
  exists B. split; [ reflexivity | ].
  rewrite add_message_eq by (eapply index_In; exact Hi).
  cbv beta iota zeta delta [_process_turn_taking bind get].
  change (strategy (added c A content ty (clock 0%nat) (clock 1%nat))) with (strategy c).
  rewrite Hs.
  cbv beta iota zeta delta [_handle_round_robin bind get expect ret].
  rewrite added_participants, Hi, EB.
  destruct (String.eqb B A); reflexivity.
Qed.

Lemma round_robin_queues_successor_witness :
  strategy (three ROUND_ROBIN) = ROUND_ROBIN /\
  index "C" (participants (three ROUND_ROBIN)) = Some 2%nat /\
  exists B,
    nth_error (participants (three ROUND_ROBIN))
      ((2 + 1) mod List.length (participants (three ROUND_ROBIN)))%nat = Some B /\
    add_message "C" "done" GENERAL (Examples.ticking 0%Z) (three ROUND_ROBIN)
    = (Returns tt,
       let c1 := added (three ROUND_ROBIN) "C" "done" GENERAL
                   (Examples.ticking 0%Z 0%nat) (Examples.ticking 0%Z 1%nat) in
       if String.eqb B "C" then c1
       else set_speaking_queue (speaking_queue (three ROUND_ROBIN) ++ [B])%list c1).
Proof.
  split; [ reflexivity | ]. split; [ reflexivity | ].
  apply (round_robin_queues_successor (three ROUND_ROBIN) "C" "done" GENERAL
           (Examples.ticking 0%Z) 2%nat); reflexivity.
Defined.

(** The item [min] picks is in the dictionary and no item has a smaller
    value. *)
Lemma min_from_least {A : Type} (key : A -> Z) (xs : list A) (best : A) :
  (key (min_from key best xs) <= key best)%Z /\
  (forall x, In x xs -> (key (min_from key best xs) <= key x)%Z).
Proof.
  revert best. induction xs as [ | y ys IH]; intros best; simpl.
  - split; [ lia | intros x [] ].
  - destruct (Z.ltb_spec (key y) (key best)) as [Hlt | Hge].
    + destruct (IH y) as [H1 H2]. split; [ lia | ].
      intros x [<- | Hx]; [ exact H1 | now apply H2 ].
    + destruct (IH best) as [H1 H2]. split; [ exact H1 | ].
      intros x [<- | Hx]; [ lia | now apply H2 ].
Qed.

Lemma min_by_least {A : Type} (key : A -> Z) (xs : list A) (x : A) :
  min_by key xs = Some x ->
  In x xs /\ forall y, In y xs -> (key x <= key y)%Z.
Proof.
  intros H. split; [ now apply (min_by_In key) | ].
  destruct xs as [ | b xs]; [ discriminate | ]. injection H as <-.
  destruct (min_from_least key xs b) as [H1 H2].
  intros y [<- | Hy]; [ exact H1 | now apply H2 ].
Qed.

Lemma turns_added_same c A content ty t1 t2 :
  PyDict.get (turn_counts (added c A content ty t1 t2)) A = Some (turns c A + 1)%Z.
Proof. cbn [added turn_counts]. apply get_set_same. Qed.

(** X2. Priority.  Under the priority-based strategy a message of a
    participant is accepted without exception and queues at most one name: a
    name other than the speaker's whose turn count is the least of all
    counts and strictly below the count the speaker has reached. *)
Theorem priority_based_queues_least_spoken (c : ConversationManager)
  (A content : string) (ty : MessageType) (clock : Clock) :
  strategy c = PRIORITY_BASED ->
  In A (participants c) ->
  let c1 := added c A content ty (clock 0%nat) (clock 1%nat) in
  exists extra,
    add_message A content ty clock c
    = (Returns tt, set_speaking_queue (speaking_queue c ++ extra)%list c1) /\
    (List.length extra <= 1)%nat /\
    (forall q, In q extra ->
       q <> A /\
       exists n, In (q, n) (turn_counts c1) /\
                 (n < turns c A + 1)%Z /\
                 (forall p k, In (p, k) (turn_counts c1) -> (n <= k)%Z)).
Proof.
  intros Hs HA c1.
  rewrite add_message_eq by exact HA. fold c1.
  cbv beta iota zeta delta [_process_turn_taking bind get].
  change (strategy c1) with (strategy c). rewrite Hs.
  cbv beta iota zeta delta [_handle_priority_based bind get expect ret raise].
  destruct (min_by snd (turn_counts c1)) as [[q n] | ] eqn:Emin.
  - destruct (min_by_least _ _ _ Emin) as [Hin Hleast].
    cbn [fst snd].
    destruct (String.eqb_spec q A) as [-> | Hne].
    + exists []. split; [ | split; [ cbn; lia | intros q [] ] ].
      rewrite app_nil_r. reflexivity.
    + unfold c1 at 1. rewrite turns_added_same.
      destruct (Z.ltb_spec n (turns c A + 1)) as [Hlt | Hge].
      * exists [q]. split; [ reflexivity | split; [ cbn; lia | ] ].
        intros q' [<- | []]. split; [ exact Hne | ].
        exists n. split; [ exact Hin | split; [ exact Hlt | ] ].
        intros p k Hpk. apply (Hleast (p, k) Hpk).
      * exists []. split; [ | split; [ cbn; lia | intros q' [] ] ].
        cbn [when]. unfold ret. rewrite app_nil_r. reflexivity.
  - exfalso. unfold min_by in Emin.
    destruct (turn_counts c1) as [ | x xs] eqn:E; [ | discriminate ].
    pose proof (turns_added_same c A content ty (clock 0%nat) (clock 1%nat)) as H.
    fold c1 in H. rewrite E in H. discriminate H.
Qed.

Lemma priority_based_queues_least_spoken_witness :
  strategy (three PRIORITY_BASED) = PRIORITY_BASED /\
  In "B" (participants (three PRIORITY_BASED)) /\
  exists extra,
    add_message "B" "done" GENERAL (Examples.ticking 0%Z) (three PRIORITY_BASED)
    = (Returns tt,
       set_speaking_queue (speaking_queue (three PRIORITY_BASED) ++ extra)%list
         (added (three PRIORITY_BASED) "B" "done" GENERAL
            (Examples.ticking 0%Z 0%nat) (Examples.ticking 0%Z 1%nat))) /\
    (List.length extra <= 1)%nat.
Proof.
  split; [ reflexivity | ]. split; [ right; left; reflexivity | ].
  destruct (priority_based_queues_least_spoken (three PRIORITY_BASED) "B" "done"
              GENERAL (Examples.ticking 0%Z) eq_refl (or_intror (or_introl eq_refl)))
    as [extra [H1 [H2 _]]].
  exists extra. split; [ exact H1 | exact H2 ].
Defined.


Lemma set_speaking_queue_same (c : ConversationManager) :
  set_speaking_queue (speaking_queue c ++ [])%list c = c.
Proof. rewrite app_nil_r. now destruct c. Qed.

(** Whatever the strategy, the turn-taking step after an accepted message
    returns and only appends to the queue. *)
Lemma turn_taking_appends (c1 : ConversationManager) (A : string) (t : datetime) (n : Z) :
  In A (participants c1) ->
  PyDict.get (turn_counts c1) A = Some n ->
  conversation_history c1 <> [] ->
  exists extra,
    _process_turn_taking A t c1
    = (Returns tt, set_speaking_queue (speaking_queue c1 ++ extra)%list c1).
Proof.
  intros HA Hn Hh.
  cbv beta iota zeta delta [_process_turn_taking bind get].
  destruct (strategy c1).
  - (* round robin *)
    destruct (In_index _ _ HA) as [i Hi].
    destruct (index_nth _ _ _ Hi) as [_ Hlt].
    assert (Hm : ((i + 1) mod List.length (participants c1) < List.length (participants c1))%nat)
      by (apply Nat.mod_upper_bound; lia).
    destruct (nth_error (participants c1) ((i + 1) mod List.length (participants c1))%nat)
      as [B | ] eqn:EB; [ | apply nth_error_None in EB; lia ].
    cbv beta iota zeta delta [_handle_round_robin bind get expect ret].
    rewrite Hi, EB.
    destruct (String.eqb B A); cbn [negb when].
    + exists []. unfold ret. now rewrite set_speaking_queue_same.
    + exists [B]. reflexivity.
  - (* priority based *)
    cbv beta iota zeta delta [_handle_priority_based bind get expect ret raise].
    destruct (min_by snd (turn_counts c1)) as [[q k] | ] eqn:Emin.
    + cbn [fst snd]. destruct (String.eqb q A).
      * exists []. now rewrite set_speaking_queue_same.
      * rewrite Hn. destruct (k <? n)%Z; cbn [when].
        -- exists [q]. reflexivity.
        -- exists []. unfold ret. now rewrite set_speaking_queue_same.
    + unfold min_by in Emin. destruct (turn_counts c1); [ discriminate Hn | discriminate Emin ].
  - (* natural flow *)
    cbv beta iota zeta delta [_handle_natural_flow bind get].
    destruct (last_error (conversation_history c1)) as [last | ] eqn:El.
    2:{ destruct (conversation_history c1) as [ | x xs]; [ contradiction | ].
        exfalso. clear - El. revert x El. induction xs as [ | y ys IH]; intros x El.
        - discriminate El.
        - apply (IH y). exact El. }
    assert (E1 : exists e1,
               when (_message_requires_response last)
                 (match _find_appropriate_responder c1 last t with
                  | Some responder =>
                      when (truthy responder && negb (String.eqb responder A))
                        (enqueue responder)
                  | None => ret tt
                  end) c1
               = (Returns tt, set_speaking_queue (speaking_queue c1 ++ e1)%list c1)).
    { destruct (_message_requires_response last); cbn [when].
      - destruct (_find_appropriate_responder c1 last t) as [r | ].
        + destruct (truthy r && negb (String.eqb r A)); cbn [when].
          * exists [r]. reflexivity.
          * exists []. unfold ret. now rewrite set_speaking_queue_same.
        + exists []. unfold ret. now rewrite set_speaking_queue_same.
      - exists []. unfold ret. now rewrite set_speaking_queue_same. }
    destruct E1 as [e1 ->].
    cbv beta iota zeta delta [expect ret].
    cbn [turn_counts set_speaking_queue]. rewrite Hn.
    cbn [max_consecutive_turns participants last_speaker_time set_speaking_queue].
    destruct (max_consecutive_turns c1 <=? n)%Z; cbn [when].
    + destruct (min_by _ _) as [q | ].
      * exists (e1 ++ [q])%list. cbv beta iota zeta delta [enqueue modify].
        cbn [speaking_queue set_speaking_queue]. now rewrite app_assoc.
      * exists e1. reflexivity.
    + exists e1. reflexivity.
  - (* facilitator controlled *)
    cbv beta iota zeta delta [_handle_facilitator_controlled bind get].
    destruct (facilitator c1) as [fac | ];
      [ | exists []; unfold ret; now rewrite set_speaking_queue_same ].
    destruct (String.eqb A fac); cbn [when];
      [ | exists []; unfold ret; now rewrite set_speaking_queue_same ].
    destruct (last_error (conversation_history c1)) as [last | ];
      [ | exists []; unfold ret; now rewrite set_speaking_queue_same ].
    destruct (_message_mentions_participant c1 last); cbn [when];
      [ | exists []; unfold ret; now rewrite set_speaking_queue_same ].
    destruct (_extract_mentioned_participant c1 last) as [p | ];
      [ | exists []; unfold ret; now rewrite set_speaking_queue_same ].
    destruct (truthy p); cbn [when];
      [ exists [p]; reflexivity | exists []; unfold ret; now rewrite set_speaking_queue_same ].
Qed.

(** The state an accepted message leaves, whatever the strategy. *)
Lemma add_message_accepted (c : ConversationManager) (A content : string)
  (ty : MessageType) (clock : Clock) :
  In A (participants c) ->
  exists extra,
    add_message A content ty clock c
    = (Returns tt,
       set_speaking_queue (speaking_queue c ++ extra)%list
         (added c A content ty (clock 0%nat) (clock 1%nat))).
Proof.
  intros HA. rewrite add_message_eq by exact HA.
  destruct (turn_taking_appends (added c A content ty (clock 0%nat) (clock 1%nat))
              A (clock 2%nat) (turns c A + 1)%Z) as [extra H].
  - exact HA.
  - apply turns_added_same.
  - cbn [added conversation_history]. intros H. now apply app_eq_nil in H as [_ H].
  - exists extra. exact H.
Qed.

(** X3. Book-keeping of [add_message].  The call never raises, whatever the
    strategy and the state.  A message of a participant is appended to the
    history as its last entry, makes the speaker the current speaker, counts
    one more turn for the speaker and for nobody else, and may only append
    names to the queue; a message of anybody else changes nothing. *)
Theorem add_message_bookkeeping (c : ConversationManager) (A content : string)
  (ty : MessageType) (clock : Clock) :
  let c' := exec (add_message A content ty clock) c in
  fst (add_message A content ty clock c) = Returns tt /\
  (In A (participants c) ->
     conversation_history c'
     = (conversation_history c ++ [message_of A content ty (clock 0%nat)])%list /\
     current_speaker c' = Some A /\
     turns c' A = (turns c A + 1)%Z /\
     (forall p, p <> A -> turns c' p = turns c p) /\
     (exists extra, speaking_queue c' = (speaking_queue c ++ extra)%list) /\
     participants c' = participants c /\ state c' = state c /\
     facilitator c' = facilitator c) /\
  (~ In A (participants c) -> c' = c).
Proof.
  intros c'. unfold c', exec.
  destruct (in_dec string_dec A (participants c)) as [HA | HA].
  - destruct (add_message_accepted c A content ty clock HA) as [extra ->].
    cbn [fst snd]. split; [ reflexivity | ]. split; [ | contradiction ].
    intros _. repeat split.
    + unfold turns. cbn [added set_speaking_queue turn_counts].
      unfold PyDict.get_default at 1. now rewrite get_set_same.
    + intros p Hp. unfold turns. cbn [added set_speaking_queue turn_counts].
      unfold PyDict.get_default at 1. rewrite get_set_other by congruence. reflexivity.
    + now exists extra.
  - rewrite add_message_outsider by exact HA. cbn [fst snd].
    split; [ reflexivity | ]. split; [ contradiction | reflexivity ].
Qed.

(** X4. A second initialisation keeps the history.
    [initialize_conversation] with a list that is not empty returns; it
    empties the queue and the record of last speaking times, gives every
    listed participant, and nobody else, a turn count of zero, and makes the
    state idle, but it leaves the history and the current speaker of an
    earlier conversation in place: the statistics still count the old
    messages. *)
Theorem initialize_conversation_keeps_history (c : ConversationManager)
  (p : string) (ps : list string) (fac : option string) :
  let c' := exec (initialize_conversation (p :: ps) fac) c in
  conversation_history c' = conversation_history c /\
  current_speaker c' = current_speaker c /\
  total_messages (get_conversation_stats c') = List.length (conversation_history c) /\
  participants c' = p :: ps /\
  facilitator c'
  = Some (match fac with
          | Some f => if truthy f then f else p
          | None => p
          end) /\
  speaking_queue c' = [] /\ last_speaker_time c' = [] /\ state c' = IDLE /\
  (forall q, In q (p :: ps) -> PyDict.get (turn_counts c') q = Some 0%Z) /\
  (forall q, In q (PyDict.keys (turn_counts c')) -> In q (p :: ps)).
Proof.
  intros c'.
  assert (E : c' = set_state IDLE
                     (set_last_speaker_time []
                        (set_turn_counts (PyDict.from_keys (fun _ => 0%Z) (p :: ps))
                           (set_speaking_queue []
                              (set_facilitator
                                 (Some (match fac with
                                        | Some f => if truthy f then f else p
                                        | None => p
                                        end))
                                 (set_participants (p :: ps) c)))))).
  { unfold c', exec, initialize_conversation.
    destruct fac as [f | ]; [ destruct (truthy f) | ]; reflexivity. }
  rewrite E. repeat split.
  - intros q Hq. cbn [turn_counts set_state set_last_speaker_time set_turn_counts].
    now apply (from_keys_get (fun _ => 0%Z)).
  - intros q Hq. cbn [turn_counts set_state set_last_speaker_time set_turn_counts] in Hq.
    now apply from_keys_keys in Hq.
Qed.

(** X5. Outcomes of the engagement classifier.
    [_calculate_engagement_level] raises exactly when the history is not
    empty while the participant list is; the exception is then the division
    by zero.  Otherwise it returns one of four labels. *)
Theorem engagement_level_outcomes (c : ConversationManager) :
  (_calculate_engagement_level c = Raises ZeroDivisionError
   <-> conversation_history c <> [] /\ participants c = []) /\
  (forall e, _calculate_engagement_level c = Raises e -> e = ZeroDivisionError) /\
  (forall level, _calculate_engagement_level c = Returns level ->
                 In level ["no_activity"; "high"; "medium"; "low"]).
Proof.
  unfold _calculate_engagement_level.
  destruct (conversation_history c) as [ | m h].
  - split; [ | split ].
    + split; [ discriminate | intros [H _]; now contradiction H ].
    + discriminate.
    + intros level [= <-]. now left.
  - destruct (participants c) as [ | p ps].
    + split; [ | split ].
      * split; [ intros _; split; [ discriminate | reflexivity ] | reflexivity ].
      * now intros e [= <-].
      * discriminate.
    + match goal with
      | |- context [if PrimFloat.ltb 0.7%float ?s then _ else _] => set (score := s)
      end.
      destruct (PrimFloat.ltb 0.7%float score);
        [ | destruct (PrimFloat.ltb 0.4%float score) ];
        (split; [ split; [ discriminate | intros [_ H]; discriminate H ]
                | split; [ discriminate | intros level [= <-]; cbn; auto ] ]).
Qed.

(** X6. A summary that cannot be made.  A conversation of one participant
    is opened by its facilitator; a later [initialize_conversation] with an
    empty list raises IndexError after it has emptied the participant list.
    From then on [get_conversation_summary] and [end_conversation] raise
    ZeroDivisionError; [end_conversation] has set the state to idle before
    that. *)
Theorem summary_after_emptied_participants (s : TurnTakingStrategy)
  (first opening : string) (clock : Clock) :
  truthy first = true ->
  truthy opening = true ->
  let c1 := exec (initialize_conversation [first] None ;;
                  start_conversation (Some opening) clock) (new s) in
  fst (initialize_conversation [] None c1) = Raises IndexError /\
  participants (emptied s first opening clock) = [] /\
  conversation_history (emptied s first opening clock)
  = [message_of first opening GENERAL (clock 0%nat)] /\
  get_conversation_summary (emptied s first opening clock) = Raises ZeroDivisionError /\
  fst (end_conversation (emptied s first opening clock)) = Raises ZeroDivisionError /\
  state (exec end_conversation (emptied s first opening clock)) = IDLE.
Proof.
  intros Hf Ho c1.
  assert (E1 : c1 = added (set_state ACTIVE
                             (exec (initialize_conversation [first] None) (new s)))
                      first opening GENERAL (clock 0%nat) (clock 1%nat)).
  { unfold c1, exec.
    cbv beta iota zeta delta [bind initialize_conversation modify expect hd_error ret
                                start_conversation get].
    cbn [snd fst facilitator set_state set_last_speaker_time set_turn_counts
           set_speaking_queue set_facilitator].
    rewrite Ho, Hf. cbn [andb when]. now rewrite _add_message_eq. }
  assert (E2 : emptied s first opening clock = set_participants [] c1) by reflexivity.
  split; [ reflexivity | ].
  rewrite E2, E1. split; [ reflexivity | ]. split; [ reflexivity | ].
  split; [ reflexivity | ]. split; reflexivity.
Qed.

Lemma summary_after_emptied_participants_witness :
  truthy "A" = true /\ truthy "welcome" = true /\
  get_conversation_summary (emptied NATURAL_FLOW "A" "welcome" (Examples.ticking 0%Z))
  = Raises ZeroDivisionError.
Proof.
  split; [ reflexivity | ]. split; [ reflexivity | ].
  pose proof (summary_after_emptied_participants NATURAL_FLOW "A" "welcome"
                (Examples.ticking 0%Z) eq_refl eq_refl) as H.
  cbv zeta in H. destruct H as [_ [_ [_ [H _]]]]. exact H.
Defined.

(** X7. Requests for the floor.  [add_speaker_to_queue] never raises.  It
    queues a participant that is not queued yet, at the end, and does
    nothing for anybody else; it changes nothing but the queue, so the
    participants, the current speaker, the turn counts and the history stay
    as they are.  Hence a second request changes nothing, a queue without
    repetition stays so, the state invariant (every participant has a turn
    count, only participants are queued) is kept, and a current speaker who
    is a participant remains one. *)
Theorem add_speaker_to_queue_once (c : ConversationManager) (A : string) :
  let c' := exec (add_speaker_to_queue A) c in
  fst (add_speaker_to_queue A c) = Returns tt /\
  c' = (if mem A (participants c) && negb (mem A (speaking_queue c))
        then set_speaking_queue (speaking_queue c ++ [A])%list c else c) /\
  (speaking_queue c'
   = if mem A (participants c) && negb (mem A (speaking_queue c))
     then (speaking_queue c ++ [A])%list else speaking_queue c) /\
  exec (add_speaker_to_queue A) c' = c' /\
  (NoDup (speaking_queue c) -> NoDup (speaking_queue c')) /\
  (state_invariant c -> state_invariant c') /\
  participants c' = participants c /\
  current_speaker c' = current_speaker c /\
  turn_counts c' = turn_counts c /\
  conversation_history c' = conversation_history c /\
  ((forall s, current_speaker c = Some s -> In s (participants c)) ->
   (forall q, In q (speaking_queue c) -> In q (participants c)) ->
   (forall s, current_speaker c' = Some s -> In s (participants c')) /\
   (forall q, In q (speaking_queue c') -> In q (participants c'))).
Proof.
  intros c'. unfold c', exec.
  cbv beta iota zeta delta [add_speaker_to_queue bind get].
  destruct (mem A (participants c)) eqn:Ep;
    [ destruct (mem A (speaking_queue c)) eqn:Eq | ]; cbn [andb negb when fst snd];
    cbv beta iota zeta delta [ret enqueue modify];
    cbn [fst snd participants speaking_queue set_speaking_queue current_speaker
         turn_counts conversation_history].
  - rewrite Ep, Eq. cbn [andb negb when ret snd].
    split; [ reflexivity | ]. split; [ reflexivity | ]. split; [ reflexivity | ].
    split; [ reflexivity | ]. split; [ auto | ]. split; [ auto | ].
    split; [ reflexivity | ]. split; [ reflexivity | ]. split; [ reflexivity | ].
    split; [ reflexivity | ]. intros Hs Hq. split; assumption.
  - rewrite Ep.
    assert (Hq : mem A (speaking_queue c ++ [A])%list = true).
    { apply mem_In, in_or_app. right. now left. }
    rewrite Hq. cbn [andb negb when ret snd].
    split; [ reflexivity | ]. split; [ reflexivity | ]. split; [ reflexivity | ].
    split; [ reflexivity | ].
    split.
    { intros Hnd. apply NoDup_app; [ exact Hnd | repeat constructor; intros [] | ].
      intros x Hx [<- | []]. apply mem_In in Hx. congruence. }
    split.
    { intros [H1 H2]. split; [ exact H1 | ].
      intros q Hq'. cbn [speaking_queue participants set_speaking_queue] in *.
      apply in_app_or in Hq' as [Hq' | [<- | []]]; [ now apply H2 | now apply mem_In ]. }
    split; [ reflexivity | ]. split; [ reflexivity | ]. split; [ reflexivity | ].
    split; [ reflexivity | ].
    intros Hs Hin. split; [ exact Hs | ].
    intros q Hq'.
    apply in_app_or in Hq' as [Hq' | [<- | []]]; [ now apply Hin | now apply mem_In ].
  - rewrite Ep. cbn [andb negb when ret snd].
    split; [ reflexivity | ]. split; [ reflexivity | ]. split; [ reflexivity | ].
    split; [ reflexivity | ]. split; [ auto | ]. split; [ auto | ].
    split; [ reflexivity | ]. split; [ reflexivity | ]. split; [ reflexivity | ].
    split; [ reflexivity | ]. intros Hs Hq. split; assumption.
Qed.

Lemma find_existsb {A : Type} (f : A -> bool) (l : list A) :
  existsb f l = match find f l with Some _ => true | None => false end.
Proof. induction l as [ | x l IH]; cbn; [ reflexivity | ]. now destruct (f x). Qed.

(** X8. The facilitator hands out the floor.  Under the
    facilitator-controlled strategy a message of a participant is accepted
    without exception.  A message of anybody but the facilitator queues
    nobody.  A message of the facilitator queues the first participant, in
    the order of the participant list, whose name occurs in the text
    whatever the case of the letters, be it the facilitator itself, and
    nobody if no name occurs. *)
Theorem facilitator_controlled_queues_first_mentioned (c : ConversationManager)
  (A content : string) (ty : MessageType) (clock : Clock) :
  strategy c = FACILITATOR_CONTROLLED ->
  In A (participants c) ->
  add_message A content ty clock c
  = (Returns tt,
     let c1 := added c A content ty (clock 0%nat) (clock 1%nat) in
     match facilitator c, first_mentioned c content with
     | Some fac, Some p =>
         if String.eqb A fac && truthy p
         then set_speaking_queue (speaking_queue c ++ [p])%list c1
         else c1
     | _, _ => c1
     end).
Proof.
  intros Hs HA. rewrite add_message_eq by exact HA.
  cbv beta iota zeta delta [_process_turn_taking bind get].
  change (strategy (added c A content ty (clock 0%nat) (clock 1%nat))) with (strategy c).
  rewrite Hs.
  cbv beta iota zeta delta [_handle_facilitator_controlled bind get].
  cbn [facilitator added conversation_history]. rewrite last_error_app.
  unfold _message_mentions_participant, _extract_mentioned_participant, first_mentioned.
  cbn [msg_content]. rewrite find_existsb, added_participants.
  destruct (facilitator c) as [fac | ]; [ | reflexivity ].
  destruct (String.eqb A fac); cbn [when andb];
    [ | destruct (find _ (participants c)); reflexivity ].
  destruct (find _ (participants c)) as [p | ]; cbn [when]; [ | reflexivity ].
  destruct (truthy p); reflexivity.
Qed.

Lemma facilitator_controlled_queues_first_mentioned_witness :
  strategy (three FACILITATOR_CONTROLLED) = FACILITATOR_CONTROLLED /\
  In "A" (participants (three FACILITATOR_CONTROLLED)) /\
  speaking_queue
    (exec (add_message "A" "Over to C, then B." GENERAL (Examples.ticking 0%Z))
          (three FACILITATOR_CONTROLLED)) = ["B"].
Proof.
  split; [ reflexivity | ]. split; [ now left | ].
  unfold exec.
  rewrite (facilitator_controlled_queues_first_mentioned
             (three FACILITATOR_CONTROLLED) "A" "Over to C, then B." GENERAL
             (Examples.ticking 0%Z) eq_refl (or_introl eq_refl)).
  reflexivity.
Defined.

End TurnTakingProps.

(** * Properties of the statistics and of the summary *)

Module StatisticsProps.
Import Py PyStr PyM Datetime Agents CM DictFacts StrFacts ConversationProps Turns.
Import TurnTakingProps.
Local Open Scope pym_scope.

Lemma total_incr (d : PyDict.t Z) (k : string) :
  total (fun n : Z => n) (PyDict.set d k (PyDict.get_default d k 0 + 1)%Z)
  = (total (fun n : Z => n) d + 1)%Z.
Proof.
  unfold PyDict.get_default.
  induction d as [ | [k0 v0] d IH]; cbn [PyDict.set PyDict.get total fold_right snd].
  - lia.
  - destruct (String.eqb k0 k); cbn [total fold_right snd].
    + lia.
    + unfold total in IH. rewrite IH. lia.
Qed.

Lemma total_zero (d : PyDict.t Z) :
  Forall (fun item => snd item = 0%Z) d -> total (fun n : Z => n) d = 0%Z.
Proof.
  induction 1 as [ | [k v] d Hv _ IH]; cbn [total fold_right snd] in *; [ reflexivity | ].
  unfold total in IH. rewrite IH. cbn in Hv. lia.
Qed.

Lemma set_zero (d : PyDict.t Z) (k : string) :
  Forall (fun item => snd item = 0%Z) d ->
  Forall (fun item => snd item = 0%Z) (PyDict.set d k 0%Z).
Proof.
  induction 1 as [ | [k0 v0] d Hv Hd IH]; cbn [PyDict.set].
  - repeat constructor.
  - destruct (String.eqb k0 k); constructor; auto.
Qed.

Lemma total_from_keys (ps : list string) :
  total (fun n : Z => n) (PyDict.from_keys (fun _ => 0%Z) ps) = 0%Z.
Proof.
  apply total_zero. unfold PyDict.from_keys.
  assert (G : forall d, Forall (fun item => snd item = 0%Z) d ->
            Forall (fun item : string * Z => snd item = 0%Z)
              (fold_left (fun d k => PyDict.set d k 0%Z) ps d)).
  { induction ps as [ | p ps IH]; intros d Hd; cbn [fold_left]; [ exact Hd | ].
    apply IH. now apply set_zero. }
  apply G. constructor.
Qed.

Lemma counted_added c A content ty t1 t2 :
  counted c -> counted (added c A content ty t1 t2).
Proof.
  unfold counted. cbn [added turn_counts conversation_history]. intros H.
  rewrite total_incr, H, length_app. cbn [List.length]. lia.
Qed.

Lemma counted_initialized (s : TurnTakingStrategy) (ps : list string)
  (fac : option string) :
  counted (exec (initialize_conversation ps fac) (new s)).
Proof.
  assert (Z0 : forall c, turn_counts c = PyDict.from_keys (fun _ => 0%Z) ps ->
                         conversation_history c = [] -> counted c).
  { intros c Ht Hh. unfold counted. rewrite Ht, Hh. apply total_from_keys. }
  unfold exec, initialize_conversation.
  destruct fac as [f | ]; [ destruct (truthy f) | ];
    destruct ps as [ | p ps];
    first [ apply Z0; reflexivity | reflexivity ].
Qed.

Lemma counted_perform (op : operation) (c : ConversationManager) :
  counted c -> counted (exec (perform op) c).
Proof.
  intros H. destruct op as [opening clock | A content ty clock | A | | | ];
    unfold exec; cbn [perform].
  - (* start_conversation *)
    cbv beta iota zeta delta [start_conversation bind modify get].
    cbn [facilitator set_state].
    destruct opening as [o | ]; [ | exact H ].
    destruct (facilitator c) as [f | ]; [ | exact H ].
    destruct (truthy o && truthy f); cbn [when]; [ | exact H ].
    rewrite _add_message_eq. cbn [snd]. now apply counted_added.
  - (* add_message *)
    destruct (in_dec string_dec A (participants c)) as [HA | HA].
    + destruct (add_message_accepted c A content ty clock HA) as [extra ->].
      cbn [snd]. now apply (counted_added c A content ty).
    + now rewrite add_message_outsider.
  - (* add_speaker_to_queue *)
    cbv beta iota zeta delta [add_speaker_to_queue bind get].
    destruct (mem A (participants c) && negb (mem A (speaking_queue c)));
      cbn [when]; exact H.
  - (* get_next_speaker *)
    cbv beta iota zeta delta [get_next_speaker bind get].
    destruct (speaking_queue c); exact H.
  - exact H.
  - exact H.
Qed.

Lemma message_types_total (history : list MeetingMessage) (d : PyDict.t Z) :
  total (fun n : Z => n)
    (fold_left (fun d m =>
                  let msg_type := MessageType_value (msg_message_type m) in
                  PyDict.set d msg_type (PyDict.get_default d msg_type 0 + 1)%Z)
               history d)
  = (total (fun n : Z => n) d + Z.of_nat (List.length history))%Z.
Proof.
  revert d. induction history as [ | m history IH]; intros d; cbn [fold_left List.length].
  - lia.
  - rewrite IH. cbv zeta. rewrite total_incr. lia.
Qed.

(** X9. The distributions of the statistics add up.  In a conversation
    that was initialised once on a new manager, after any sequence of
    operations, the turn counts of [get_conversation_stats] add up to its
    number of messages; the counts per message type do so in every state of
    the manager. *)
Theorem statistics_add_up (s : TurnTakingStrategy) (ps : list string)
  (fac : option string) (ops : list operation) :
  let c := perform_all ops (exec (initialize_conversation ps fac) (new s)) in
  total (fun n : Z => n) (turn_distribution (get_conversation_stats c))
  = Z.of_nat (total_messages (get_conversation_stats c)) /\
  (forall c0 : ConversationManager,
      total (fun n : Z => n) (message_types (get_conversation_stats c0))
      = Z.of_nat (total_messages (get_conversation_stats c0))).
Proof.
  intros c. split.
  - change (counted c). unfold c, perform_all.
    generalize (counted_initialized s ps fac).
    generalize (exec (initialize_conversation ps fac) (new s)).
    induction ops as [ | op ops IH]; intros c0 H0; cbn [fold_left]; [ exact H0 | ].
    apply IH. now apply counted_perform.
  - intros c0. cbn [get_conversation_stats message_types total_messages].
    rewrite message_types_total. reflexivity.
Qed.

Lemma insert_by_count_In (x y : string * Z) (l : list (string * Z)) :
  In x (insert_by_count y l) -> x = y \/ In x l.
Proof.
  induction l as [ | z l IH]; cbn [insert_by_count].
  - intros [H | []]. now left.
  - destruct (snd z <? snd y)%Z.
    + intros [H | H]; [ now left | now right ].
    + intros [H | H]; [ right; now left | ].
      destruct (IH H) as [E | E]; [ now left | right; now right ].
Qed.

Lemma sorted_by_count_desc_In (x : string * Z) (items : list (string * Z)) :
  In x (sorted_by_count_desc items) -> In x items.
Proof.
  unfold sorted_by_count_desc.
  assert (G : forall acc, In x (fold_left (fun acc x => insert_by_count x acc) items acc) ->
                          In x items \/ In x acc).
  { induction items as [ | y items IH]; intros acc; cbn [fold_left].
    - now right.
    - intros H. destruct (IH _ H) as [E | E]; [ left; now right | ].
      destruct (insert_by_count_In _ _ _ E) as [-> | E']; [ left; now left | now right ]. }
  intros H. destruct (G [] H) as [E | []]. exact E.
Qed.

Lemma sorted_by_count_desc_length (items : list (string * Z)) :
  List.length (sorted_by_count_desc items) = List.length items.
Proof.
  unfold sorted_by_count_desc.
  assert (I : forall y l, List.length (insert_by_count y l) = S (List.length l)).
  { intros y l. induction l as [ | z l IH]; cbn [insert_by_count]; [ reflexivity | ].
    destruct (snd z <? snd y)%Z; cbn [List.length]; [ reflexivity | now rewrite IH ]. }
  assert (G : forall acc, List.length (fold_left (fun acc x => insert_by_count x acc) items acc)
                          = (List.length items + List.length acc)%nat).
  { induction items as [ | y items IH]; intros acc; cbn [fold_left List.length].
    - reflexivity.
    - rewrite IH, I. lia. }
  rewrite G. cbn. lia.
Qed.

Lemma firstn_In {A : Type} (n : nat) (l : list A) (x : A) :
  In x (firstn n l) -> In x l.
Proof.
  revert l. induction n as [ | n IH]; intros [ | y l]; cbn [firstn];
    try (intros Hin; now destruct Hin).
  intros [Hin | Hin]; [ now left | right; now apply IH ].
Qed.

Lemma word_freq_keys (words : list string) (k : string) : forall d : PyDict.t Z,
  In k (PyDict.keys
          (fold_left (fun d word =>
                        if (4 <? String.length word)%nat
                        then PyDict.set d word (PyDict.get_default d word 0 + 1)%Z
                        else d) words d)) ->
  In k (PyDict.keys d) \/ (In k words /\ (4 < String.length k)%nat).
Proof.
  induction words as [ | w words IH]; intros d; cbn [fold_left].
  - now left.
  - intros H. destruct (IH _ H) as [E | [E1 E2]].
    + destruct (Nat.ltb_spec 4 (String.length w)) as [Hw | Hw].
      * apply keys_set in E as [-> | E]; [ right; split; [ now left | exact Hw ] | now left ].
      * now left.
    + right. split; [ now right | exact E2 ].
Qed.

(** X10. The keywords of the summary.  [get_conversation_summary] lists at
    most ten keywords; each of them is a word of the lower-cased texts of
    the history, split at white space, and has more than four characters. *)
Theorem top_keywords_are_long_words (history : list MeetingMessage) :
  (List.length (top_keywords_of history) <= 10)%nat /\
  (forall w, In w (top_keywords_of history) ->
             In w (words_of history) /\ (4 < String.length w)%nat) /\
  (forall c s, get_conversation_summary c = Returns s ->
               top_keywords s = top_keywords_of (conversation_history c)).
Proof.
  split; [ | split ].
  - unfold top_keywords_of. rewrite length_map. apply firstn_le_length.
  - intros w Hw. unfold top_keywords_of in Hw.
    apply in_map_iff in Hw as [[w' n] [E Hw]]. cbn in E. subst w'.
    apply firstn_In in Hw. apply sorted_by_count_desc_In in Hw.
    assert (Hk : In w (PyDict.keys
                         (fold_left (fun d word =>
                                       if (4 <? String.length word)%nat
                                       then PyDict.set d word
                                              (PyDict.get_default d word 0 + 1)%Z
                                       else d) (words_of history) []))).
    { unfold PyDict.keys. apply in_map_iff. exists (w, n). split; [ reflexivity | exact Hw ]. }
    destruct (word_freq_keys _ _ _ Hk) as [[] | H]. exact H.
  - intros c s H. unfold get_conversation_summary in H.
    destruct (_calculate_engagement_level c); [ | discriminate H ].
    injection H as <-. reflexivity.
Qed.

End StatisticsProps.

(** * Further properties of the orchestrator *)

Module LifecycleProps.
Import Py PyStr PyM Datetime Agents Orchestrator DictFacts StrFacts.
Import OrchestratorProps Lifecycle.
Local Open Scope pym_scope.

Lemma startable_logged w l mid : startable (logged w l) mid = startable w mid.
Proof. reflexivity. Qed.

Lemma start_meeting_rejected env mid w :
  startable w mid = false ->
  exists line, start_meeting env mid w = (Returns false, logged w [line]).
Proof.
  unfold startable. intros H.
  cbv beta iota delta [start_meeting try_except bind lookup gets].
  destruct (PyDict.get (active_meetings (self w)) mid) as [m | ].
  - rewrite H. cbn [negb]. eexists. reflexivity.
  - eexists. reflexivity.
Qed.

(** X11. [start_meeting] acts once.  On a meeting that is not registered
    or not in state SCHEDULED it returns false and changes neither the
    orchestrator nor the trace.  After any call of [start_meeting] for a
    meeting, every later call for it is refused in that way: a meeting that
    failed to start cannot be started again. *)
Theorem start_meeting_rejection :
  (forall (env : Env) (mid : string) (w : World),
      startable w mid = false ->
      fst (start_meeting env mid w) = Returns false /\
      self (snd (start_meeting env mid w)) = self w /\
      trace (snd (start_meeting env mid w)) = trace w) /\
  (forall (env1 env2 : Env) (mid : string) (w : World),
      let w1 := snd (start_meeting env1 mid w) in
      startable w1 mid = false /\
      fst (start_meeting env2 mid w1) = Returns false /\
      self (snd (start_meeting env2 mid w1)) = self w1 /\
      trace (snd (start_meeting env2 mid w1)) = trace w1).
Proof.
  assert (R : forall env mid w,
             startable w mid = false ->
             fst (start_meeting env mid w) = Returns false /\
             self (snd (start_meeting env mid w)) = self w /\
             trace (snd (start_meeting env mid w)) = trace w).
  { intros env mid w H. destruct (start_meeting_rejected env mid w H) as [line ->].
    repeat split. }
  split; [ exact R | ].
  intros env1 env2 mid w w1.
  assert (H1 : startable w1 mid = false).
  { unfold w1. destruct (startable w mid) eqn:Es.
    - unfold startable in Es.
      destruct (PyDict.get (active_meetings (self w)) mid) as [m | ] eqn:Em;
        [ | discriminate Es ].
      assert (Hs : state m = SCHEDULED) by (destruct (state m); now try discriminate Es).
      destruct (start_meeting_scheduled env1 mid w m Em Hs)
        as [ok [m' [delta [lines [E [_ [Hok Hko]]]]]]].
      rewrite E. cbn [snd]. unfold startable.
      change (PyDict.get (active_meetings (self (after w mid m' delta lines))) mid)
        with (record_of (after w mid m' delta lines) mid).
      rewrite record_of_after.
      destruct ok; [ destruct (Hok eq_refl) as [-> _] | destruct (Hko eq_refl) as [-> _] ];
        reflexivity.
    - destruct (start_meeting_rejected env1 mid w Es) as [line ->]. exact Es. }
  split; [ exact H1 | ]. now apply R.
Qed.

Lemma start_meeting_rejection_witness :
  startable Examples.one_active Examples.standup_id = false /\
  fst (start_meeting (Examples.env_at Examples.noon Examples.everyone)
         Examples.standup_id Examples.one_active) = Returns false.
Proof.
  assert (H : startable Examples.one_active Examples.standup_id = false)
    by (vm_compute; reflexivity).
  split; [ exact H | ].
  exact (proj1 (proj1 start_meeting_rejection
                  (Examples.env_at Examples.noon Examples.everyone)
                  Examples.standup_id Examples.one_active H)).
Defined.

(** *** Who is in the meeting after [start_meeting] *)

Lemma platform_enum_of_eq (p : option string) (w : World) :
  platform_enum_of p w
  = (match p with
     | Some s =>
         if truthy s
         then match MeetingPlatform_of s with
              | Some pe => Returns (Some pe)
              | None => Raises ValueError
              end
         else Returns None
     | None => Returns None
     end, w).
Proof.
  unfold platform_enum_of. destruct p as [s | ]; [ | reflexivity ].
  destruct (truthy s); [ | reflexivity ].
  cbv beta iota delta [bind expect ret raise].
  destruct (MeetingPlatform_of s); reflexivity.
Qed.

Lemma set_participants_joined_same (m : MeetingRecord) :
  set_participants_joined (participants_joined m ++ [])%list m = m.
Proof. rewrite app_nil_r. now destruct m. Qed.

Lemma join_one_exact env mid a w m :
  record_of w mid = Some m ->
  exists dj lines,
    _join_agent_to_meeting env mid a w
    = (Returns (join_answer env w m a),
       after w mid
         (set_participants_joined
            (participants_joined m ++ (if join_answer env w m a then [a] else []))%list m)
         dj lines) /\
    Forall is_join dj.
Proof.
  intros Hm. unfold join_answer.
  cbv beta iota delta [_join_agent_to_meeting try_except bind get meeting_of lookup gets].
  destruct (platform_manager (self w)); cbn [negb andb].
  - unfold record_of in Hm. rewrite Hm. cbv beta iota delta [expect ret].
    rewrite platform_enum_of_eq.
    assert (Hcall : forall pe,
              exists dj lines,
                (let (o, s') :=
                   (let success := join_meeting env (meeting_url m) a pe in
                    bind (emit (EvJoin (meeting_url m) a pe success))
                      (fun _ =>
                         if success
                         then bind (update_meeting mid
                                      (fun m0 => set_participants_joined
                                                   (participants_joined m0 ++ [a])%list m0))
                                (fun _ => (fun s => (Returns true, s)))
                         else bind (logger ERROR
                                      ("Agent " ++ a ++ " failed to join meeting " ++ mid))
                                (fun _ => (fun s => (Returns false, s)))) w)
                 in match o with
                    | Returns a0 => (Returns a0, s')
                    | Raises e =>
                        bind (logger ERROR
                                ("Error joining agent " ++ a ++ " to meeting " ++ mid))
                          (fun _ => (fun s => (Returns false, s))) s'
                    end)
                = (Returns (join_meeting env (meeting_url m) a pe),
                   after w mid
                     (set_participants_joined
                        (participants_joined m ++
                         (if join_meeting env (meeting_url m) a pe then [a] else []))%list m)
                     dj lines) /\
                Forall is_join dj).
    { intros pe. cbv zeta.
      destruct (join_meeting env (meeting_url m) a pe) eqn:Ej.
      - exists [EvJoin (meeting_url m) a pe true], []. split; [ | repeat constructor ].
        cbv beta iota delta [bind emit modify].
        erewrite update_meeting_found by (unfold record_of; exact Hm).
        f_equal. unfold after, logged, did, put. cbn. now rewrite app_nil_r.
      - exists [EvJoin (meeting_url m) a pe false]. eexists.
        split; [ | repeat constructor ].
        cbv beta iota delta [bind emit modify logger]. f_equal.
        rewrite set_participants_joined_same. unfold after, logged, did, put. cbn.
        now rewrite (set_get _ _ _ Hm), orchestrator_eta. }
    destruct (platform m) as [s | ]; [ destruct (truthy s) | ].
    + destruct (MeetingPlatform_of s) as [pe | ].
      * apply (Hcall (Some pe)).
      * exists []. eexists. split; [ | constructor ].
        cbv beta iota delta [logger modify bind ret]. f_equal.
        rewrite set_participants_joined_same. unfold after, logged, did, put. cbn.
        now rewrite (set_get _ _ _ Hm), orchestrator_eta, app_nil_r.
    + apply (Hcall None).
    + apply (Hcall None).
  - exists [], []. split; [ | constructor ].
    cbv beta iota delta [ret].
    rewrite set_participants_joined_same, after_same; [ reflexivity | exact Hm ].
Qed.

Lemma join_answer_after env w mid m1 dj l m a :
  join_answer env (after w mid m1 dj l) m a = join_answer env w m a.
Proof. reflexivity. Qed.

Lemma join_answer_joined env w m l a :
  join_answer env w (set_participants_joined l m) a = join_answer env w m a.
Proof. reflexivity. Qed.

Lemma join_loop_exact env mid (l : list string) : forall w m,
  record_of w mid = Some m ->
  exists dj lines,
    map_m l (fun participant_id => _join_agent_to_meeting env mid participant_id) w
    = (Returns (map (join_answer env w m) l),
       after w mid
         (set_participants_joined
            (participants_joined m ++ filter (join_answer env w m) l)%list m) dj lines) /\
    Forall is_join dj.
Proof.
  induction l as [ | a l IH]; intros w m Hm.
  - exists [], []. split; [ | constructor ].
    cbn. unfold ret. rewrite set_participants_joined_same. now rewrite after_same.
  - destruct (join_one_exact env mid a w m Hm) as [dj1 [l1 [E1 F1]]].
    cbn [map_m map filter]. cbv beta iota delta [bind]. rewrite E1.
    set (m1 := set_participants_joined _ m) in *.
    destruct (IH (after w mid m1 dj1 l1) m1 (record_of_after _ _ _ _ _))
      as [dj2 [l2 [E2 F2]]].
    rewrite E2. cbv beta iota delta [ret].
    exists (dj1 ++ dj2)%list, (l1 ++ l2)%list.
    split; [ | now apply Forall_app ].
    f_equal. rewrite after_after. f_equal. unfold m1.
    change (join_answer env (after w mid (set_participants_joined
                                           (participants_joined m ++
                                            (if join_answer env w m a then [a] else []))%list m)
                               dj1 l1)
              (set_participants_joined
                 (participants_joined m ++
                  (if join_answer env w m a then [a] else []))%list m))
      with (join_answer env w m).
    cbn [participants_joined set_participants_joined].
    destruct (join_answer env w m a); cbn [app]; rewrite <- ?app_assoc; cbn [app];
      rewrite ?app_nil_r; reflexivity.
Qed.

Lemma provider_enum_of_eq (p : option string) (w : World) :
  provider_enum_of p w
  = (match p with
     | Some s =>
         if truthy s
         then match SpeechProvider_of s with
              | Some pe => Returns (Some pe)
              | None => Raises ValueError
              end
         else Returns None
     | None => Returns None
     end, w).
Proof.
  unfold provider_enum_of. destruct p as [s | ]; [ | reflexivity ].
  destruct (truthy s); [ | reflexivity ].
  cbv beta iota delta [bind expect ret raise].
  destruct (SpeechProvider_of s); reflexivity.
Qed.

Lemma transcription_step_exact env mid m w0 w :
  if provider_unknown w0 m
  then transcription_step env mid m w0 w = (Raises ValueError, w)
  else exists tr lines,
         transcription_step env mid m w0 w = (Returns tt, logged (did w tr) lines) /\
         Forall is_transcription tr.
Proof.
  assert (Hnone : exists tr lines,
             (Returns tt, w) = (Returns tt, logged (did w tr) lines) /\
             Forall is_transcription tr).
  { exists [], []. split; [ | constructor ].
    unfold logged, did. cbn. rewrite !app_nil_r. now destruct w. }
  assert (Hcall : forall pe, exists tr lines,
             bind (emit (EvStartTranscription mid pe
                           (start_meeting_transcription env mid pe)))
               (fun _ => when (negb (start_meeting_transcription env mid pe))
                           (logger WARNING
                              ("Failed to start transcription for meeting: " ++ mid))) w
             = (Returns tt, logged (did w tr) lines) /\
             Forall is_transcription tr).
  { intros pe. destruct (start_meeting_transcription env mid pe).
    - exists [EvStartTranscription mid pe true], []. split; [ | repeat constructor ].
      cbv beta iota delta [bind emit modify when ret negb logged did]. cbn.
      now rewrite app_nil_r.
    - exists [EvStartTranscription mid pe false]. eexists.
      split; [ | repeat constructor ].
      cbv beta iota delta [bind emit modify when ret negb logged did logger]. cbn.
      reflexivity. }
  unfold provider_unknown, transcription_step.
  destruct (enable_transcription m && speech_manager (self w0)); cbn [when andb];
    [ | exact Hnone ].
  assert (Hstep : forall p pe,
             provider_enum_of p w = (Returns pe, w) ->
             exists tr lines,
               bind (provider_enum_of p)
                 (fun provider_enum =>
                    bind (emit (EvStartTranscription mid provider_enum
                                  (start_meeting_transcription env mid provider_enum)))
                      (fun _ =>
                         when (negb (start_meeting_transcription env mid provider_enum))
                           (logger WARNING
                              ("Failed to start transcription for meeting: " ++ mid)))) w
               = (Returns tt, logged (did w tr) lines) /\
               Forall is_transcription tr).
  { intros p pe Hp. destruct (Hcall pe) as [tr [lines [E F]]].
    exists tr, lines. split; [ | exact F ].
    rewrite (bind_returns _ _ _ _ _ Hp). exact E. }
  destruct (speech_provider m) as [s | ] eqn:Ep;
    [ | apply (Hstep None None); now rewrite provider_enum_of_eq ].
  destruct (truthy s) eqn:Et; cbn [andb];
    [ | apply (Hstep (Some s) None); now rewrite provider_enum_of_eq, Et ].
  destruct (SpeechProvider_of s) as [pe | ] eqn:Es.
  - apply (Hstep (Some s) (Some pe)). now rewrite provider_enum_of_eq, Et, Es.
  - unfold bind at 1. now rewrite provider_enum_of_eq, Et, Es.
Qed.

Lemma existsb_map_filter {A : Type} (f : A -> bool) (l : list A) :
  existsb (fun r : bool => r) (map f l)
  = match filter f l with [] => false | _ => true end.
Proof.
  induction l as [ | x l IH]; cbn; [ reflexivity | ].
  destruct (f x); [ reflexivity | exact IH ].
Qed.

(** The result of [start_meeting] on a scheduled meeting and the record it
    leaves. *)
Lemma start_meeting_exact env mid w m :
  record_of w mid = Some m ->
  state m = SCHEDULED ->
  exists delta lines,
    start_meeting env mid w
    = (Returns (match let_in env w m with [] => false | _ => true end),
       after w mid
         (match let_in env w m with
          | [] => set_state FAILED m
          | joined =>
              set_actual_start_time (Some (now env 0%nat))
                (set_state ACTIVE
                   (set_participants_joined (participants_joined m ++ joined)%list m))
          end)
         delta lines).
Proof.
  intros Hm Hs.
  unfold start_meeting, try_except.
  rewrite (bind_returns _ _ _ _ _ (lookup_eq mid w)). rewrite Hm, Hs.
  cbn [MeetingState_eqb negb].
  rewrite (bind_returns _ _ _ _ _ (assign_state_found w mid STARTING m Hm)).
  set (m1 := set_state STARTING m).
  set (w1 := did (put w mid m1) [EvState mid STARTING]).
  assert (Hw1 : w1 = after w mid m1 [EvState mid STARTING] []).
  { unfold w1, after, logged. cbn. now rewrite app_nil_r. }
  rewrite (bind_returns _ _ _ _ _ (get_eq w1)).
  match goal with
  | |- context [bind (when ?b ?body) _ w1] =>
      change (when b body) with (transcription_step env mid m w1)
  end.
  pose proof (transcription_step_exact env mid m w1 w1) as Ht.
  unfold let_in.
  change (provider_unknown w1 m) with (provider_unknown w m) in Ht.
  destruct (provider_unknown w m).
  - rewrite (bind_raises _ _ _ _ _ Ht).
    exists [EvState mid STARTING; EvState mid FAILED]. eexists.
    cbv beta iota delta [bind logger modify get]. cbn [self].
    assert (Hmem : PyDict.mem (active_meetings (self w1)) mid = true).
    { apply (mem_get _ _ m1). apply record_of_put. }
    rewrite Hmem. cbn [when].
    match goal with |- context [assign_state mid FAILED ?w2] =>
      rewrite (assign_state_found w2 mid FAILED m1) by apply record_of_put end.
    cbv beta iota delta [ret]. f_equal.
    unfold after, logged, did, put, w1. cbn. rewrite set_set, <- app_assoc. reflexivity.
  - destruct Ht as [tr [lines [Htr Ftr]]].
    rewrite (bind_returns _ _ _ _ _ Htr).
    set (w2 := logged (did w1 tr) lines).
    assert (Hw2 : w2 = after w mid m1 (EvState mid STARTING :: tr) lines).
    { unfold w2. rewrite Hw1. unfold after, logged, did, put. cbn.
      now rewrite app_nil_r, <- app_assoc. }
    assert (Hr2 : record_of w2 mid = Some m1) by (rewrite Hw2; apply record_of_after).
    destruct (join_loop_exact env mid
                (filter (fun participant_id => PyDict.mem (agents (self w1)) participant_id)
                        (participants m)) w2 m1 Hr2)
      as [dj [l2 [Ej Fj]]].
    rewrite (bind_returns _ _ _ _ _ Ej). cbv beta.
    change (join_answer env w2 m1) with (join_answer env w m) in *.
    change (filter (fun participant_id => PyDict.mem (agents (self w1)) participant_id)
              (participants m)) with (candidates w m) in *.
    remember (filter (join_answer env w m) (candidates w m)) as joined eqn:Ejoined.
    set (m2 := set_participants_joined (participants_joined m1 ++ joined)%list m1) in *.
    destruct (conclude_start_spec env mid (map (join_answer env w m) (candidates w m))
                (after w2 mid m2 dj l2) m2 (record_of_after _ _ _ _ _))
      as [m' [delta [l3 [Ec [_ [Hok Hko]]]]]].
    match goal with
    | |- context [let (o, s') := ?body (after w2 mid m2 dj l2) in _] =>
        change body
          with (conclude_start env mid (map (join_answer env w m) (candidates w m)))
    end.
    rewrite Ec. rewrite existsb_map_filter in *. rewrite <- Ejoined in *.
    exists (EvState mid STARTING :: tr ++ dj ++ delta)%list, (lines ++ l2 ++ l3)%list.
    rewrite Hw2, !after_after.
    destruct joined as [ | a joined'].
    + destruct (Hko eq_refl) as [-> _]. f_equal. f_equal.
      unfold m2, m1. cbn [set_state set_participants_joined participants_joined].
      rewrite app_nil_r. reflexivity.
    + destruct (Hok eq_refl) as [-> _]. reflexivity.
Qed.

Lemma let_in_spec env w m a :
  In a (let_in env w m)
  <-> provider_unknown w m = false /\ In a (participants m) /\
      PyDict.mem (agents (self w)) a = true /\ join_answer env w m a = true.
Proof.
  unfold let_in, candidates. destruct (provider_unknown w m).
  - split; [ intros [] | intros [H _]; discriminate H ].
  - rewrite !filter_In. tauto.
Qed.

(** X12. Who is in the meeting.  [start_meeting] on a scheduled meeting
    lets in the participants that are registered agents and that the
    platform manager admits, and nobody when the transcription is wanted
    with a provider the enumeration does not know.  The record it leaves
    lists as joined the agents joined before and those let in, nobody else.
    If somebody is let in, the call returns true and the state is ACTIVE; if
    nobody is, it returns false and the state is FAILED.  The transcript and
    the configuration of the meeting stay as they are. *)
Theorem start_meeting_joins_registered_participants (env : Env) (mid : string)
  (w : World) (m : MeetingRecord) :
  record_of w mid = Some m ->
  state m = SCHEDULED ->
  exists m',
    record_of (snd (start_meeting env mid w)) mid = Some m' /\
    (forall a, In a (let_in env w m)
               <-> provider_unknown w m = false /\ In a (participants m) /\
                   PyDict.mem (agents (self w)) a = true /\
                   join_answer env w m a = true) /\
    (forall a, In a (participants_joined m')
               <-> In a (participants_joined m) \/ In a (let_in env w m)) /\
    (let_in env w m <> [] ->
       fst (start_meeting env mid w) = Returns true /\ state m' = ACTIVE /\
       actual_start_time m' = Some (now env 0%nat)) /\
    (let_in env w m = [] ->
       fst (start_meeting env mid w) = Returns false /\ state m' = FAILED /\
       actual_start_time m' = actual_start_time m) /\
    transcript m' = transcript m /\ same_meeting m m'.
Proof.
  intros Hm Hs.
  destruct (start_meeting_exact env mid w m Hm Hs) as [delta [lines ->]].
  cbn [fst snd]. rewrite record_of_after.
  eexists. split; [ reflexivity | ].
  split; [ intros a; apply let_in_spec | ].
  destruct (let_in env w m) as [ | a0 l].
  - split; [ | split; [ | split; [ | split ] ] ].
    + intros a. cbn. tauto.
    + intros H. now contradiction H.
    + intros _. repeat split.
    + reflexivity.
    + repeat split.
  - split; [ | split; [ | split; [ | split ] ] ].
    + intros a. cbn [participants_joined set_actual_start_time set_state
                       set_participants_joined].
      rewrite in_app_iff. tauto.
    + intros _. repeat split.
    + discriminate.
    + reflexivity.
    + repeat split.
Qed.

Lemma start_meeting_joins_registered_participants_witness :
  exists m m',
    record_of Examples.one_scheduled Examples.standup_id = Some m /\
    state m = SCHEDULED /\
    record_of Examples.one_active Examples.standup_id = Some m' /\
    (forall a, In a (participants_joined m')
               <-> In a (participants_joined m) \/
                   In a (let_in (Examples.env_at (Examples.noon + Examples.second)%Z
                                                 Examples.only_bob)
                                Examples.one_scheduled m)).
Proof.
  assert (Hm : exists m, record_of Examples.one_scheduled Examples.standup_id = Some m /\
                         state m = SCHEDULED).
  { eexists. split; vm_compute; reflexivity. }
  destruct Hm as [m [Hm Hs]].
  destruct (start_meeting_joins_registered_participants
              (Examples.env_at (Examples.noon + Examples.second)%Z Examples.only_bob)
              Examples.standup_id Examples.one_scheduled m Hm Hs)
    as [m' [H1 [_ [H2 _]]]].
  exists m, m'. split; [ exact Hm | split; [ exact Hs | split; [ exact H1 | exact H2 ] ] ].
Defined.

(** X13. Starts that must fail.  A scheduled meeting cannot become
    ACTIVE, whatever the platform answers, when the orchestrator has no
    platform manager, when the platform of the record is a text that is no
    value of the enumeration (["Teams"] is none: the values are lower
    case), when no participant is a registered agent, or when the
    transcription is wanted with an unknown provider: [start_meeting]
    returns false, the state is FAILED and nobody is added to the joined
    agents. *)
Theorem start_meeting_must_fail (env : Env) (mid : string) (w : World)
  (m : MeetingRecord) :
  record_of w mid = Some m ->
  state m = SCHEDULED ->
  platform_manager (self w) = false \/
  (exists p, platform m = Some p /\ truthy p = true /\ MeetingPlatform_of p = None) \/
  (forall a, In a (participants m) -> PyDict.mem (agents (self w)) a = false) \/
  provider_unknown w m = true ->
  fst (start_meeting env mid w) = Returns false /\
  record_of (snd (start_meeting env mid w)) mid = Some (set_state FAILED m).
Proof.
  intros Hm Hs Hcause.
  assert (Hnone : let_in env w m = []).
  { destruct (let_in env w m) as [ | a l] eqn:E; [ reflexivity | exfalso ].
    assert (Ha : In a (let_in env w m)) by (rewrite E; now left).
    apply let_in_spec in Ha as [Hp [Hin [Hreg Hans]]].
    destruct Hcause as [H | [[p [H1 [H2 H3]]] | [H | H]]].
    - unfold join_answer in Hans. rewrite H in Hans. discriminate Hans.
    - unfold join_answer in Hans. rewrite H1, H2, H3 in Hans.
      rewrite andb_false_r in Hans. discriminate Hans.
    - rewrite (H a Hin) in Hreg. discriminate Hreg.
    - rewrite H in Hp. discriminate Hp. }
  destruct (start_meeting_exact env mid w m Hm Hs) as [delta [lines ->]].
  rewrite Hnone. cbn [fst snd]. now rewrite record_of_after.
Qed.

Lemma start_meeting_must_fail_witness :
  exists m,
    record_of capitalised Examples.standup_id = Some m /\
    state m = SCHEDULED /\
    (exists p, platform m = Some p /\ truthy p = true /\ MeetingPlatform_of p = None) /\
    fst (start_meeting (Examples.env_at (Examples.noon + Examples.second)%Z
                                        Examples.everyone)
           Examples.standup_id capitalised) = Returns false.
Proof.
  assert (Hm : exists m, record_of capitalised Examples.standup_id = Some m /\
                         state m = SCHEDULED /\ platform m = Some "Teams").
  { eexists. repeat split; vm_compute; reflexivity. }
  destruct Hm as [m [Hm [Hs Hp]]].
  assert (Hc : exists p, platform m = Some p /\ truthy p = true /\
                         MeetingPlatform_of p = None).
  { exists "Teams". split; [ exact Hp | split; reflexivity ]. }
  exists m. split; [ exact Hm | split; [ exact Hs | split; [ exact Hc | ] ] ].
  exact (proj1 (start_meeting_must_fail
                  (Examples.env_at (Examples.noon + Examples.second)%Z Examples.everyone)
                  Examples.standup_id capitalised m Hm Hs (or_intror (or_introl Hc)))).
Defined.

(** *** The end of a meeting *)

Lemma appended_to_app {A : Type} (l more : list A) :
  appended_to l (l ++ more)%list = more.
Proof.
  unfold appended_to. induction l as [ | x l IH]; cbn; [ reflexivity | exact IH ].
Qed.

Lemma end_meeting_exact env mid reason w m :
  record_of w mid = Some m ->
  endable w mid = true ->
  end_meeting env mid reason w
  = (Returns true,
     did (logged (put w mid (set_end (Some (now env 0%nat)) (Some reason)
                               (set_state COMPLETED (set_state ENDING m))))
                 [(ERROR, "Error processing meeting completion")])
         (ending_events w mid m)).
Proof.
  unfold endable, record_of, ending_events. intros Hm He. rewrite Hm in He.
  cbv beta iota delta [end_meeting try_except bind lookup gets].
  rewrite Hm, He. cbn [negb].
  rewrite (assign_state_found w mid ENDING m Hm).
  cbv beta iota delta [get].
  change (self (did (put w mid (set_state ENDING m)) [EvState mid ENDING]))
    with (set_active_meetings
            (PyDict.set (active_meetings (self w)) mid (set_state ENDING m)) (self w)).
  cbn [speech_manager platform_manager set_active_meetings].
  set (w1 := did (put w mid (set_state ENDING m)) [EvState mid ENDING]).
  assert (Hstop : when (enable_transcription m && speech_manager (self w))
                    (emit (EvStopTranscription mid)) w1
                  = (Returns tt,
                     did w1 (if enable_transcription m && speech_manager (self w)
                             then [EvStopTranscription mid] else []))).
  { destruct (enable_transcription m && speech_manager (self w));
      [ reflexivity | now rewrite did_nil ]. }
  rewrite Hstop, leaves_eq, process_completion_eq.
  match goal with |- context [assign_state mid COMPLETED ?w2] =>
    rewrite (assign_state_found w2 mid COMPLETED (set_state ENDING m))
      by apply record_of_put end.
  match goal with |- context [update_meeting mid ?f ?w2] =>
    rewrite (update_meeting_found w2 mid f (set_state COMPLETED (set_state ENDING m)))
      by apply record_of_put end.
  rewrite notify_eq. cbv beta iota delta [ret].
  f_equal. unfold did, logged, put, callbacks_of. cbn.
  rewrite !set_set, <- !app_assoc. reflexivity.
Qed.

(** X14. What ending a meeting does, and what it never does.
    [end_meeting] on a registered meeting that is ACTIVE or STARTING returns
    true.  To the trace it adds, in this order: the state ENDING, the stop
    of the transcription if the meeting has one, a leave for every joined
    agent in the order of joining, the state COMPLETED, and a call of every
    registered callback with ["meeting_ended"].  The post-meeting handler is
    not among them: building the meeting context raises before the handler
    is reached, the error is logged, and the summary, the action items, the
    tickets and the documents of the record stay as they were.  The record
    gets the state COMPLETED, the end time and the reason. *)
Theorem end_meeting_effects (env : Env) (mid reason : string) (w : World)
  (m : MeetingRecord) :
  record_of w mid = Some m ->
  endable w mid = true ->
  let w' := snd (end_meeting env mid reason w) in
  fst (end_meeting env mid reason w) = Returns true /\
  appended_to (trace w) (trace w') = ending_events w mid m /\
  (forall messages, ~ In (EvPostMeeting mid messages) (appended_to (trace w) (trace w'))) /\
  appended_to (log w) (log w') = [(ERROR, "Error processing meeting completion")] /\
  record_of w' mid
  = Some (set_end (Some (now env 0%nat)) (Some reason) (set_state COMPLETED m)) /\
  (exists m', record_of w' mid = Some m' /\
              summary m' = summary m /\ action_items m' = action_items m /\
              jira_tickets m' = jira_tickets m /\
              confluence_docs m' = confluence_docs m /\
              transcript m' = transcript m /\
              participants_joined m' = participants_joined m).
Proof.
  intros Hm He w'. unfold w'. rewrite (end_meeting_exact env mid reason w m Hm He).
  cbn [fst snd].
  assert (Ht : forall (w0 : World) l ev, trace (did (logged w0 l) ev) = (trace w0 ++ ev)%list)
    by reflexivity.
  assert (Hl : forall (w0 : World) l ev, log (did (logged w0 l) ev) = (log w0 ++ l)%list)
    by reflexivity.
  rewrite Ht, Hl. cbn [put trace log]. rewrite !appended_to_app.
  split; [ reflexivity | ]. split; [ reflexivity | ]. split.
  - intros messages Hin. unfold ending_events in Hin.
    repeat (apply in_app_or in Hin as [Hin | Hin]).
    + destruct Hin as [Hin | []]. discriminate Hin.
    + destruct (enable_transcription m && speech_manager (self w));
        [ destruct Hin as [Hin | []]; discriminate Hin | destruct Hin ].
    + destruct (platform_manager (self w)); [ | destruct Hin ].
      apply in_map_iff in Hin as [a [Hin _]]. discriminate Hin.
    + destruct Hin as [Hin | []]. discriminate Hin.
    + apply in_map_iff in Hin as [cb [Hin _]]. discriminate Hin.
  - split; [ reflexivity | ].
    assert (Hr : forall (w0 : World) l ev, record_of (did (logged w0 l) ev) mid
                                           = record_of w0 mid) by reflexivity.
    rewrite Hr, record_of_put.
    split; [ reflexivity | ].
    eexists. split; [ reflexivity | ]. repeat split.
Qed.

Lemma end_meeting_effects_witness :
  exists m,
    record_of Examples.one_active Examples.standup_id = Some m /\
    endable Examples.one_active Examples.standup_id = true /\
    appended_to (trace Examples.one_active) (trace Examples.one_completed)
    = ending_events Examples.one_active Examples.standup_id m /\
    appended_to (log Examples.one_active) (log Examples.one_completed)
    = [(ERROR, "Error processing meeting completion")].
Proof.
  assert (Hm : exists m, record_of Examples.one_active Examples.standup_id = Some m).
  { eexists. vm_compute. reflexivity. }
  destruct Hm as [m Hm].
  assert (He : endable Examples.one_active Examples.standup_id = true)
    by (vm_compute; reflexivity).
  pose proof (end_meeting_effects
                (Examples.env_at (Examples.noon + 5 * Examples.second)%Z Examples.everyone)
                Examples.standup_id "test" Examples.one_active m Hm He) as H.
  cbv zeta in H. destruct H as [_ [H1 [_ [H2 _]]]].
  exists m. split; [ exact Hm | split; [ exact He | split; [ exact H1 | exact H2 ] ] ].
Defined.

(** *** The timeout *)

Lemma timeout_eq env mid w :
  _setup_meeting_timeout env mid w
  = (Returns tt,
     match record_of w mid with
     | Some m => if MeetingState_eqb (state m) ACTIVE
                 then snd (end_meeting env mid "timeout" w) else w
     | None => w
     end).
Proof.
  cbv beta iota delta [_setup_meeting_timeout try_except].
  rewrite (bind_returns _ _ _ _ _ (lookup_eq mid w)).
  destruct (record_of w mid) as [m | ] eqn:Hm; [ | reflexivity ].
  destruct (MeetingState_eqb (state m) ACTIVE) eqn:Ea; [ | reflexivity ].
  assert (He : endable w mid = true).
  { unfold endable. unfold record_of in Hm. now rewrite Hm, Ea. }
  unfold bind. rewrite (end_meeting_exact env mid "timeout" w m Hm He). reflexivity.
Qed.

(** X15. The timeout ends active meetings only.  When its sleep is
    over, [_setup_meeting_timeout] does nothing for a meeting that is not
    registered or not ACTIVE; a meeting still in state STARTING, which
    [end_meeting] would accept, is left alone.  An ACTIVE meeting is ended
    as [end_meeting] ends it, with the reason ["timeout"]. *)
Theorem timeout_ends_active_meetings_only (env : Env) (mid : string) (w : World) :
  ((forall m, record_of w mid = Some m -> state m <> ACTIVE) ->
     _setup_meeting_timeout env mid w = (Returns tt, w)) /\
  (forall m, record_of w mid = Some m -> state m = ACTIVE ->
     _setup_meeting_timeout env mid w
     = (Returns tt, snd (end_meeting env mid "timeout" w)) /\
     record_of (snd (_setup_meeting_timeout env mid w)) mid
     = Some (set_end (Some (now env 0%nat)) (Some "timeout") (set_state COMPLETED m))).
Proof.
  split.
  - intros H. rewrite timeout_eq. destruct (record_of w mid) as [m | ] eqn:Hm;
      [ | reflexivity ].
    specialize (H m eq_refl). destruct (state m); try reflexivity. now contradiction H.
  - intros m Hm Hs. rewrite timeout_eq, Hm, Hs. cbn [MeetingState_eqb snd].
    split; [ reflexivity | ].
    assert (He : endable w mid = true).
    { unfold endable. unfold record_of in Hm. now rewrite Hm, Hs. }
    rewrite (end_meeting_exact env mid "timeout" w m Hm He). cbn [snd].
    assert (Hr : forall (w0 : World) l ev, record_of (did (logged w0 l) ev) mid
                                           = record_of w0 mid) by reflexivity.
    now rewrite Hr, record_of_put.
Qed.

(** *** The response of an agent *)

Lemma set_transcript_same (m : MeetingRecord) :
  set_transcript (transcript m ++ [])%list m = m.
Proof. rewrite app_nil_r. now destruct m. Qed.

Lemma logged_did_nil (w : World) : logged (did w []) [] = w.
Proof. unfold logged, did. cbn. rewrite !app_nil_r. now destruct w. Qed.

(** The entry a response of an agent adds to the transcript. *)
Lemma respond_cases env mid agent_id message context w :
  (exists events lines,
      _generate_and_send_agent_response env mid agent_id message context w
      = (Returns tt, logged (did w events) lines)) \/
  (exists m agent r,
      record_of w mid = Some m /\
      PyDict.get (agents (self w)) agent_id = Some agent /\
      _generate_and_send_agent_response env mid agent_id message context w
      = (Returns tt,
         put (did w [EvGenerateResponse agent_id (msg_content message)]) mid
           (set_transcript
              (transcript m ++
               [{| te_timestamp := now env 0%nat;
                   te_speaker := employee_name agent;
                   te_text := msg_content r;
                   te_confidence := msg_confidence r;
                   te_type := "agent_response";
                   te_provider := "agent" |}])%list m))).
Proof.
  cbv beta iota delta [_generate_and_send_agent_response try_except bind get].
  destruct (PyDict.get (agents (self w)) agent_id) as [agent | ] eqn:Ea.
  2:{ left. exists [], []. unfold ret. now rewrite logged_did_nil. }
  cbv beta iota delta [emit modify lift].
  destruct (generate_response env agent_id (msg_content message) context) as [[r | ] | e];
    cbv beta iota delta [ret raise].
  - destruct (truthy (msg_content r)); cbn [when].
    + cbv beta iota delta [ret meeting_of bind lookup gets expect raise]. cbn [self].
      destruct (PyDict.get (active_meetings (self w)) mid) as [m | ] eqn:Em.
      * right. exists m, agent, r. split; [ exact Em | split; [ reflexivity | ] ].
        match goal with |- context [update_meeting mid ?f ?w2] =>
          rewrite (update_meeting_found w2 mid f m) by exact Em end.
        reflexivity.
      * left. exists [EvGenerateResponse agent_id (msg_content message)]. eexists.
        cbv beta iota delta [logger modify]. reflexivity.
    + left. exists [EvGenerateResponse agent_id (msg_content message)], [].
      unfold ret, logged, did. cbn. now rewrite app_nil_r.
  - left. exists [EvGenerateResponse agent_id (msg_content message)], [].
    unfold ret, logged, did. cbn. now rewrite app_nil_r.
  - left. exists [EvGenerateResponse agent_id (msg_content message)]. eexists.
    cbv beta iota delta [raise logger modify]. reflexivity.
Qed.

Lemma record_of_put_other w x m1 mid :
  x <> mid -> record_of (put w x m1) mid = record_of w mid.
Proof. intros H. unfold record_of, put. cbn. now apply get_set_other. Qed.

(** X16. The response of an agent.  [_generate_and_send_agent_response]
    never raises.  It does nothing at all for an agent that is not
    registered.  It touches no record but that of its meeting, and there
    only the transcript, to which it appends at most one entry: an entry of
    type ["agent_response"] from the provider ["agent"], spoken by the
    registered agent under its configured name. *)
Theorem agent_response_appends_one_entry (env : Env) (mid agent_id : string)
  (message : MeetingMessage) (context : MeetingContext) (w : World) :
  let w' := snd (_generate_and_send_agent_response env mid agent_id message context w) in
  fst (_generate_and_send_agent_response env mid agent_id message context w)
  = Returns tt /\
  (PyDict.get (agents (self w)) agent_id = None -> w' = w) /\
  (forall x, x <> mid -> record_of w' x = record_of w x) /\
  (record_of w mid = None -> record_of w' mid = None) /\
  (forall m, record_of w mid = Some m ->
     exists more,
       record_of w' mid = Some (set_transcript (transcript m ++ more)%list m) /\
       (List.length more <= 1)%nat /\
       (forall e, In e more ->
          te_type e = "agent_response" /\ te_provider e = "agent" /\
          exists agent, PyDict.get (agents (self w)) agent_id = Some agent /\
                        te_speaker e = employee_name agent)) /\
  spawned (appended_to (trace w) (trace w')) = [].
Proof.
  intros w'. unfold w'.
  destruct (respond_cases env mid agent_id message context w)
    as [[events [lines E]] | [m0 [agent [r [Hm0 [Ha E]]]]]].
  - assert (Hnone : PyDict.get (agents (self w)) agent_id = None ->
                    _generate_and_send_agent_response env mid agent_id message context w
                    = (Returns tt, w)).
    { intros Ha.
      cbv beta iota delta [_generate_and_send_agent_response try_except bind get].
      now rewrite Ha. }
    assert (Hev : spawned events = []).
    { assert (G : trace (snd (_generate_and_send_agent_response env mid agent_id
                                message context w))
                  = (trace w ++ events)%list) by (now rewrite E).
      clear E. revert G.
      cbv beta iota delta [_generate_and_send_agent_response try_except bind get].
      destruct (PyDict.get (agents (self w)) agent_id) as [agent | ].
      2:{ cbn. intros G. rewrite <- (app_nil_r (trace w)) in G at 1.
          apply app_inv_head in G. now subst events. }
      cbv beta iota delta [emit modify lift].
      assert (K : forall w2 : World,
                 trace w2 = (trace w ++ [EvGenerateResponse agent_id (msg_content message)])%list ->
                 trace w2 = (trace w ++ events)%list -> spawned events = []).
      { intros w2 H1 H2. rewrite H1 in H2. apply app_inv_head in H2. now subst events. }
      destruct (generate_response env agent_id (msg_content message) context)
        as [[r | ] | e]; cbv beta iota delta [ret raise].
      - destruct (truthy (msg_content r)); cbn [when].
        + cbv beta iota delta [ret meeting_of bind lookup gets expect raise]. cbn [self].
          destruct (PyDict.get (active_meetings (self w)) mid) as [m | ] eqn:Em.
          * match goal with |- context [update_meeting mid ?f ?w2] =>
              rewrite (update_meeting_found w2 mid f m) by exact Em end.
            apply K. reflexivity.
          * apply K. reflexivity.
        + apply K. reflexivity.
      - apply K. reflexivity.
      - apply K. reflexivity. }
    rewrite E. cbn [fst snd].
    split; [ reflexivity | ]. split.
    { intros Ha. rewrite (Hnone Ha) in E. now injection E as <-. }
    split; [ reflexivity | ]. split; [ intros H; exact H | ]. split.
    + intros m Hm. exists []. rewrite set_transcript_same.
      split; [ exact Hm | split; [ cbn; lia | intros e [] ] ].
    + change (trace (logged (did w events) lines)) with (trace w ++ events)%list.
      now rewrite appended_to_app.
  - rewrite E. cbn [fst snd].
    split; [ reflexivity | ]. split; [ intros H; rewrite H in Ha; discriminate Ha | ].
    split; [ intros x Hx; rewrite record_of_put_other by congruence; reflexivity | ].
    split; [ intros H; unfold record_of in *; rewrite Hm0 in H; discriminate H | ]. split.
    + intros m Hm. rewrite Hm0 in Hm. injection Hm as <-.
      eexists. split; [ apply record_of_put | ]. split; [ cbn; lia | ].
      intros e [<- | []]. split; [ reflexivity | split; [ reflexivity | ] ].
      exists agent. split; [ exact Ha | reflexivity ].
    + change (trace (put (did w [EvGenerateResponse agent_id (msg_content message)]) mid
                       (set_transcript
                          (transcript m0 ++
                           [{| te_timestamp := now env 0%nat;
                               te_speaker := employee_name agent;
                               te_text := msg_content r;
                               te_confidence := msg_confidence r;
                               te_type := "agent_response";
                               te_provider := "agent" |}])%list m0)))
        with (trace w ++ [EvGenerateResponse agent_id (msg_content message)])%list.
      now rewrite appended_to_app.
Qed.

(** *** What the calls on meetings keep *)

Lemma evolves_refl (m : MeetingRecord) : evolves m m.
Proof.
  unfold evolves, same_meeting. repeat split; try (exists []; now rewrite app_nil_r).
Qed.

Lemma evolves_trans (m1 m2 m3 : MeetingRecord) :
  evolves m1 m2 -> evolves m2 m3 -> evolves m1 m3.
Proof.
  unfold evolves, same_meeting.
  intros [[A1 [A2 [A3 [A4 [A5 [A6 [A7 A8]]]]]]] [[t1 T1] [[j1 J1] F1]]]
         [[B1 [B2 [B3 [B4 [B5 [B6 [B7 B8]]]]]]] [[t2 T2] [[j2 J2] F2]]].
  split; [ repeat split; congruence | ].
  split; [ exists (t1 ++ t2)%list; rewrite T2, T1; now rewrite app_assoc | ].
  split; [ exists (j1 ++ j2)%list; rewrite J2, J1; now rewrite app_assoc | ].
  intros Hf. destruct (F1 Hf) as [C1 [C2 [C3 [C4 C5]]]].
  rewrite <- C1 in Hf. destruct (F2 Hf) as [D1 [D2 [D3 [D4 D5]]]].
  repeat split; congruence.
Qed.

Lemma record_of_after_other w x m1 e l mid :
  x <> mid -> record_of (after w x m1 e l) mid = record_of w mid.
Proof.
  intros H. unfold after. rewrite record_of_logged, record_of_did.
  now apply record_of_put_other.
Qed.

Lemma start_evolves env x w mid m :
  record_of w mid = Some m ->
  exists m', record_of (snd (start_meeting env x w)) mid = Some m' /\ evolves m m'.
Proof.
  intros Hm. destruct (startable w x) eqn:Es.
  - unfold startable in Es.
    destruct (PyDict.get (active_meetings (self w)) x) as [m0 | ] eqn:Em0;
      [ | discriminate Es ].
    assert (Hs : state m0 = SCHEDULED) by (destruct (state m0); now try discriminate Es).
    destruct (start_meeting_exact env x w m0 Em0 Hs) as [delta [lines ->]]. cbn [snd].
    destruct (String.eqb_spec x mid) as [-> | Hne].
    + rewrite record_of_after. eexists. split; [ reflexivity | ].
      unfold record_of in Hm. rewrite Em0 in Hm. injection Hm as <-.
      unfold evolves, same_meeting.
      destruct (let_in env w m0) as [ | a l].
      * split; [ repeat split | ].
        split; [ exists []; now rewrite app_nil_r | ].
        split; [ exists []; now rewrite app_nil_r | ].
        rewrite Hs. intros H. discriminate H.
      * split; [ repeat split | ].
        split; [ exists []; now rewrite app_nil_r | ].
        split; [ exists (a :: l); reflexivity | ].
        rewrite Hs. intros H. discriminate H.
    + rewrite record_of_after_other by exact Hne.
      exists m. split; [ exact Hm | apply evolves_refl ].
  - destruct (start_meeting_rejected env x w Es) as [line ->]. cbn [snd].
    exists m. split; [ exact Hm | apply evolves_refl ].
Qed.

Lemma end_evolves env x reason w mid m :
  record_of w mid = Some m ->
  exists m', record_of (snd (end_meeting env x reason w)) mid = Some m' /\ evolves m m'.
Proof.
  intros Hm. destruct (endable w x) eqn:Ee.
  - pose proof Ee as Ee'. unfold endable in Ee'.
    destruct (PyDict.get (active_meetings (self w)) x) as [m0 | ] eqn:Em0;
      [ | discriminate Ee' ].
    rewrite (end_meeting_exact env x reason w m0 Em0 Ee). cbn [snd].
    assert (Hr : forall (w0 : World) l ev k, record_of (did (logged w0 l) ev) k
                                             = record_of w0 k) by reflexivity.
    rewrite Hr.
    destruct (String.eqb_spec x mid) as [-> | Hne].
    + rewrite record_of_put. eexists. split; [ reflexivity | ].
      unfold record_of in Hm. rewrite Em0 in Hm. injection Hm as <-.
      unfold evolves, same_meeting.
      split; [ repeat split | ].
      split; [ exists []; now rewrite app_nil_r | ].
      split; [ exists []; now rewrite app_nil_r | ].
      unfold final. intros H. destruct (state m0); discriminate.
    + rewrite record_of_put_other by exact Hne.
      exists m. split; [ exact Hm | apply evolves_refl ].
  - destruct (end_meeting_rejected env x reason w Ee) as [line ->]. cbn [snd].
    exists m. split; [ exact Hm | apply evolves_refl ].
Qed.

Lemma run_evolves (c : call) (w : World) (mid : string) (m : MeetingRecord) :
  record_of w mid = Some m ->
  exists m', record_of (snd (run c w)) mid = Some m' /\ evolves m m'.
Proof.
  intros Hm.
  destruct c as [env x | env x reason | env x | env x result
                | env x agent_id message context | x callback]; cbn [run].
  - destruct (start_evolves env x w mid m Hm) as [m' [H1 H2]].
    exists m'. split; [ | exact H2 ].
    unfold bind. destruct (start_meeting env x w) as [[ok | e] w1]; exact H1.
  - destruct (end_evolves env x reason w mid m Hm) as [m' [H1 H2]].
    exists m'. split; [ | exact H2 ].
    unfold bind. destruct (end_meeting env x reason w) as [[ok | e] w1]; exact H1.
  - rewrite timeout_eq. cbn [snd].
    destruct (record_of w x) as [m0 | ];
      [ | exists m; split; [ exact Hm | apply evolves_refl ] ].
    destruct (MeetingState_eqb (state m0) ACTIVE);
      [ apply end_evolves; exact Hm | exists m; split; [ exact Hm | apply evolves_refl ] ].
  - destruct (record_of w x) as [m0 | ] eqn:Em0.
    + rewrite (transcription_callback_registered env x result w m0 Em0). cbv zeta.
      cbn [snd].
      assert (Hput : exists m',
                 record_of (put w x (set_transcript (transcript m0 ++ [entry_of result])%list
                                       m0)) mid = Some m' /\ evolves m m').
      { destruct (String.eqb_spec x mid) as [-> | Hne].
        - rewrite record_of_put. eexists. split; [ reflexivity | ].
          rewrite Em0 in Hm. injection Hm as <-.
          unfold evolves, same_meeting.
          split; [ repeat split | ].
          split; [ exists [entry_of result]; reflexivity | ].
          split; [ exists []; now rewrite app_nil_r | ].
          intros _. repeat split.
        - rewrite record_of_put_other by exact Hne.
          exists m. split; [ exact Hm | apply evolves_refl ]. }
      destruct (String.eqb (tr_type result) "final"); [ | exact Hput ].
      rewrite process_transcription_eq. cbn [snd]. now rewrite record_of_logged.
    + rewrite (transcription_callback_unregistered env x result w Em0). cbn [snd].
      exists m. split; [ exact Hm | apply evolves_refl ].
  - destruct (respond_cases env x agent_id message context w)
      as [[events [lines ->]] | [m0 [agent [r [Hm0 [Ha ->]]]]]]; cbn [snd].
    + exists m. split; [ exact Hm | apply evolves_refl ].
    + destruct (String.eqb_spec x mid) as [-> | Hne].
      * rewrite record_of_put. eexists. split; [ reflexivity | ].
        rewrite Hm0 in Hm. injection Hm as <-.
        unfold evolves, same_meeting.
        split; [ repeat split | ].
        split; [ eexists; reflexivity | ].
        split; [ exists []; now rewrite app_nil_r | ].
        intros _. repeat split.
      * rewrite record_of_put_other by exact Hne.
        exists m. split; [ exact Hm | apply evolves_refl ].
  - exists m. split; [ exact Hm | apply evolves_refl ].
Qed.

(** X17. What the calls on meetings keep.  Through any sequence of
    calls of [start_meeting], [end_meeting], the timeout, the transcription
    callback, the response of an agent and [add_meeting_callback], for
    whatever meetings and with whatever collaborators, a registered meeting
    stays registered; its identifier, title, participants, times, platform
    and address stay as they were scheduled; its transcript and its list of
    joined agents only grow; and once it is COMPLETED or FAILED its state,
    its joined agents, its start and its end never change again. *)
Theorem meeting_records_evolve (calls : list call) (w : World) (mid : string)
  (m : MeetingRecord) :
  record_of w mid = Some m ->
  exists m', record_of (run_all calls w) mid = Some m' /\ evolves m m'.
Proof.
  revert w m. unfold run_all.
  induction calls as [ | c calls IH]; intros w m Hm; cbn [fold_left].
  - exists m. split; [ exact Hm | apply evolves_refl ].
  - destruct (run_evolves c w mid m Hm) as [m1 [H1 E1]].
    destruct (IH (snd (run c w)) m1 H1) as [m2 [H2 E2]].
    exists m2. split; [ exact H2 | now apply (evolves_trans m m1 m2) ].
Qed.

Lemma meeting_records_evolve_witness :
  exists m m',
    record_of Examples.one_completed Examples.standup_id = Some m /\
    record_of
      (run_all
         [StartMeeting (Examples.env_at Examples.noon Examples.everyone)
            Examples.standup_id;
          Transcription (Examples.env_at Examples.noon Examples.everyone)
            Examples.standup_id (Examples.heard "final" "One more thing");
          EndMeeting (Examples.env_at Examples.noon Examples.everyone)
            Examples.standup_id "again"]
         Examples.one_completed) Examples.standup_id = Some m' /\
    evolves m m'.
Proof.
  assert (Hm : exists m, record_of Examples.one_completed Examples.standup_id = Some m).
  { eexists. vm_compute. reflexivity. }
  destruct Hm as [m Hm].
  destruct (meeting_records_evolve
              [StartMeeting (Examples.env_at Examples.noon Examples.everyone)
                 Examples.standup_id;
               Transcription (Examples.env_at Examples.noon Examples.everyone)
                 Examples.standup_id (Examples.heard "final" "One more thing");
               EndMeeting (Examples.env_at Examples.noon Examples.everyone)
                 Examples.standup_id "again"]
              Examples.one_completed Examples.standup_id m Hm) as [m' [H1 H2]].
  exists m, m'. split; [ exact Hm | split; [ exact H1 | exact H2 ] ].
Defined.

(** *** Cleaning up *)

Lemma transitions_ending (w : World) (k mid : string) (m : MeetingRecord) :
  transitions mid (ending_events w k m)
  = if String.eqb k mid then [ENDING; COMPLETED] else [].
Proof.
  unfold ending_events. rewrite !transitions_app.
  assert (Hc : forall l, transitions mid
                           (map (fun cb => EvCallback cb "meeting_ended" k) l) = []).
  { induction l as [ | cb l IH]; [ reflexivity | exact IH ]. }
  rewrite Hc.
  assert (Hstop : transitions mid
                    (if enable_transcription m && speech_manager (self w)
                     then [EvStopTranscription k] else []) = []).
  { destruct (enable_transcription m && speech_manager (self w)); reflexivity. }
  assert (Hleave : transitions mid
                     (if platform_manager (self w)
                      then map EvLeave (participants_joined m) else []) = []).
  { destruct (platform_manager (self w)); [ apply transitions_leaves | reflexivity ]. }
  rewrite Hstop, Hleave. cbn [transitions flat_map app].
  destruct (String.eqb k mid); reflexivity.
Qed.

Lemma endable_put_other w k m1 mid :
  k <> mid -> endable (put w k m1) mid = endable w mid.
Proof.
  intros H. unfold endable.
  change (PyDict.get (active_meetings (self (put w k m1))) mid)
    with (record_of (put w k m1) mid).
  now rewrite record_of_put_other.
Qed.

Lemma mem_put w k m1 x :
  PyDict.mem (active_meetings (self w)) x = true ->
  PyDict.mem (active_meetings (self (put w k m1))) x = true.
Proof.
  unfold PyDict.mem, put. cbn [self active_meetings set_active_meetings].
  destruct (String.eqb_spec k x) as [-> | Hne].
  - now rewrite get_set_same.
  - now rewrite get_set_other.
Qed.

(** The loop of [cleanup] over the identifiers [l]. *)
Lemma cleanup_loop env (mid : string) (l : list string) : forall w1 : World,
  (forall k, In k l -> PyDict.mem (active_meetings (self w1)) k = true) ->
  exists w2 d lines,
    for_each l (fun meeting_id =>
      bind (meeting_of meeting_id) (fun meeting =>
        when (MeetingState_eqb (state meeting) ACTIVE ||
              MeetingState_eqb (state meeting) STARTING)
          (bind (end_meeting env meeting_id "cleanup") (fun _ => ret tt)))) w1
    = (Returns tt, w2) /\
    trace w2 = (trace w1 ++ d)%list /\
    log w2 = (log w1 ++ lines)%list /\
    Forall (fun line => line = (ERROR, "Error processing meeting completion")) lines /\
    agents (self w2) = agents (self w1) /\
    transitions mid d
    = (if existsb (String.eqb mid) l && endable w1 mid then [ENDING; COMPLETED] else []).
Proof.
  induction l as [ | k l IH]; intros w1 Hmem.
  - exists w1, [], []. cbn [for_each existsb andb]. unfold ret.
    rewrite !app_nil_r. repeat split. constructor.
  - cbn [for_each]. unfold bind at 1. unfold bind at 1.
    assert (Hk : PyDict.mem (active_meetings (self w1)) k = true)
      by (apply Hmem; now left).
    unfold PyDict.mem in Hk.
    destruct (PyDict.get (active_meetings (self w1)) k) as [m | ] eqn:Em;
      [ | discriminate Hk ].
    unfold meeting_of. rewrite (bind_returns _ _ _ _ _ (lookup_eq k w1)).
    unfold record_of. rewrite Em. cbv beta iota delta [expect ret].
    destruct (MeetingState_eqb (state m) ACTIVE || MeetingState_eqb (state m) STARTING)
      eqn:Est; cbn [when].
    + assert (He : endable w1 k = true) by (unfold endable; now rewrite Em, Est).
      unfold bind at 1. rewrite (end_meeting_exact env k "cleanup" w1 m Em He).
      set (mE := set_end (Some (now env 0%nat)) (Some "cleanup")
                   (set_state COMPLETED (set_state ENDING m))).
      set (w1' := did (logged (put w1 k mE)
                         [(ERROR, "Error processing meeting completion")])
                      (ending_events w1 k m)).
      destruct (IH w1') as [w2 [d [lines [E [Ht [Hl [Hf [Ha Htr]]]]]]]].
      { intros x Hx. unfold w1'.
        change (active_meetings (self (did (logged (put w1 k mE)
                                              [(ERROR, "Error processing meeting completion")])
                                           (ending_events w1 k m))))
          with (active_meetings (self (put w1 k mE))).
        apply mem_put. apply Hmem. now right. }
      exists w2, (ending_events w1 k m ++ d)%list,
             ((ERROR, "Error processing meeting completion") :: lines).
      split; [ exact E | ].
      split; [ rewrite Ht; unfold w1'; cbn [trace did logged put]; now rewrite app_assoc | ].
      split; [ rewrite Hl; unfold w1'; cbn [log did logged put];
               now rewrite <- app_assoc | ].
      split; [ now constructor | ].
      split; [ rewrite Ha; reflexivity | ].
      rewrite transitions_app, transitions_ending, Htr. cbn [existsb].
      assert (Hend : forall x, endable w1' x = endable (put w1 k mE) x) by reflexivity.
      rewrite Hend.
      destruct (String.eqb_spec k mid) as [-> | Hne].
      * rewrite String.eqb_refl. cbn [orb andb]. rewrite He.
        assert (Hdone : endable (put w1 mid mE) mid = false).
        { unfold endable.
          change (PyDict.get (active_meetings (self (put w1 mid mE))) mid)
            with (record_of (put w1 mid mE) mid).
          now rewrite record_of_put. }
        rewrite Hdone, andb_false_r. reflexivity.
      * rewrite endable_put_other by exact Hne.
        assert (Hmk : String.eqb mid k = false).
        { apply String.eqb_neq. congruence. }
        rewrite Hmk. reflexivity.
    + destruct (IH w1) as [w2 [d [lines [E [Ht [Hl [Hf [Ha Htr]]]]]]]].
      { intros x Hx. apply Hmem. now right. }
      exists w2, d, lines. repeat split; try assumption.
      rewrite Htr. cbn [existsb].
      destruct (String.eqb_spec mid k) as [-> | Hne]; [ | reflexivity ].
      assert (Hno : endable w1 k = false) by (unfold endable; now rewrite Em, Est).
      now rewrite Hno, !andb_false_r.
Qed.

(** X18. Cleaning up.  [cleanup] never fails: it returns, and its error
    handler is not entered.  Every meeting that is ACTIVE or STARTING is
    ended first, each once, by the transitions ENDING and COMPLETED; no
    other meeting changes its state.  Then every meeting and every callback
    is forgotten, the meetings that are still scheduled with them; the
    registered agents stay. *)
Theorem cleanup_ends_and_forgets (env : Env) (w : World) :
  let w' := snd (cleanup env w) in
  fst (cleanup env w) = Returns tt /\
  active_meetings (self w') = [] /\
  meeting_callbacks (self w') = [] /\
  agents (self w') = agents (self w) /\
  (forall mid, transitions mid (appended_to (trace w) (trace w'))
               = if endable w mid then [ENDING; COMPLETED] else []) /\
  ~ In (ERROR, "Error during meeting orchestrator cleanup")
       (appended_to (log w) (log w')).
Proof.
  intros w'.
  assert (Hkeys : forall k, In k (PyDict.keys (active_meetings (self w))) ->
                            PyDict.mem (active_meetings (self w)) k = true).
  { intros k Hk. apply get_in_keys in Hk as [v Hv]. now apply (mem_get _ _ v). }
  assert (Hshape : forall mid,
             exists w2 d lines,
               cleanup env w
               = (Returns tt,
                  {| self := set_meeting_callbacks [] (set_active_meetings [] (self w2));
                     trace := (trace w ++ d ++
                               (if platform_manager (self w) then [EvPlatformCleanup]
                                else []) ++
                               (if speech_manager (self w) then [EvSpeechCleanup]
                                else []))%list;
                     log := (log w ++ lines)%list |}) /\
               Forall (fun line => line = (ERROR, "Error processing meeting completion"))
                      lines /\
               agents (self w2) = agents (self w) /\
               transitions mid d
               = (if existsb (String.eqb mid) (PyDict.keys (active_meetings (self w)))
                     && endable w mid
                  then [ENDING; COMPLETED] else [])).
  { intros mid.
    destruct (cleanup_loop env mid (PyDict.keys (active_meetings (self w))) w Hkeys)
      as [w2 [d [lines [E [Ht [Hl [Hf [Ha Htr]]]]]]]].
    exists w2, d, lines. split; [ | split; [ exact Hf | split; [ exact Ha | exact Htr ] ] ].
    unfold cleanup, try_except.
    rewrite (bind_returns _ _ _ _ _ (get_eq w)).
    rewrite (bind_returns _ _ _ _ _ E).
    cbv beta iota delta [bind when emit modify ret update_self].
    destruct (platform_manager (self w)); destruct (speech_manager (self w));
      cbn [self trace log]; rewrite Ht, Hl, <- ?app_assoc; cbn [app];
      rewrite ?app_nil_r; reflexivity. }
  destruct (Hshape "") as [w2 [d [lines [E [Hf [Ha _]]]]]].
  unfold w'. rewrite E. cbn [fst snd self trace log active_meetings meeting_callbacks
                               set_meeting_callbacks set_active_meetings agents].
  split; [ reflexivity | ]. split; [ reflexivity | ]. split; [ reflexivity | ].
  split; [ exact Ha | ]. split.
  - intros mid. destruct (Hshape mid) as [w3 [d3 [lines3 [E3 [_ [_ Htr]]]]]].
    pose proof (f_equal (fun r => trace (snd r)) E3) as Etr.
    rewrite E in Etr. cbn [snd trace] in Etr.
    apply app_inv_head in Etr. rewrite appended_to_app, Etr.
    rewrite !transitions_app, Htr.
    assert (Hz : forall (b1 b2 : bool),
               (transitions mid (if b1 then [EvPlatformCleanup] else []) ++
                transitions mid (if b2 then [EvSpeechCleanup] else []))%list = []).
    { intros [] []; reflexivity. }
    rewrite Hz, app_nil_r.
    destruct (endable w mid) eqn:He; [ | now rewrite andb_false_r ].
    rewrite andb_true_r.
    assert (Hin : In mid (PyDict.keys (active_meetings (self w)))).
    { apply get_in_keys. unfold endable in He.
      destruct (PyDict.get (active_meetings (self w)) mid) as [m | ];
        [ now exists m | discriminate He ]. }
    assert (Hex : existsb (String.eqb mid) (PyDict.keys (active_meetings (self w))) = true).
    { apply existsb_exists. exists mid. split; [ exact Hin | apply String.eqb_refl ]. }
    now rewrite Hex.
  - rewrite appended_to_app. intros Hin.
    rewrite Forall_forall in Hf. specialize (Hf _ Hin). discriminate Hf.
Qed.

(** *** Scheduling *)

(** X19. Scheduling refuses what the validation rejects.  When a
    required field (title, participants, start time) is missing from the
    configuration, or a participant is not a registered agent,
    [schedule_meeting] returns the empty identifier, registers nothing,
    spawns nothing and logs one error. *)
Theorem schedule_meeting_invalid_config (env : Env) (config : MeetingConfig)
  (w : World) :
  invalid w config ->
  let w' := snd (schedule_meeting env config w) in
  fst (schedule_meeting env config w) = Returns "" /\
  self w' = self w /\ trace w' = trace w /\
  exists message, log w' = (log w ++ [(ERROR, message)])%list.
Proof.
  intros Hinv w'.
  assert (Hv : exists message,
            _validate_meeting_config config w
            = (Returns false, logged w [(ERROR, message)])).
  { unfold _validate_meeting_config.
    destruct (cfg_title config) as [t | ] eqn:Et; [ | eexists; reflexivity ].
    destruct (cfg_participants config) as [ps | ] eqn:Ep; [ | eexists; reflexivity ].
    destruct (cfg_start_time config) as [st | ] eqn:Est; [ | eexists; reflexivity ].
    cbv beta iota delta [bind get].
    destruct (find _ ps) as [p | ] eqn:Ef; [ eexists; reflexivity | exfalso ].
    destruct Hinv as [H | [H | [H | [ps' [p [Hps [Hin Hmem]]]]]]].
    - congruence.
    - congruence.
    - congruence.
    - assert (ps' = ps) by congruence. subst ps'.
      apply (find_none _ _ Ef) in Hin. rewrite Hmem in Hin. discriminate Hin. }
  destruct Hv as [message Hv]. unfold w'.
  cbv beta iota zeta delta [schedule_meeting try_except bind]. rewrite Hv.
  cbn [negb fst snd]. unfold ret. cbn [fst snd].
  split; [ reflexivity | ]. split; [ reflexivity | ]. split; [ reflexivity | ].
  now exists message.
Qed.

Lemma schedule_meeting_invalid_config_witness :
  invalid Examples.fresh stranger_config /\
  fst (schedule_meeting (Examples.env_at Examples.noon Examples.everyone)
         stranger_config Examples.fresh) = Returns "".
Proof.
  assert (H : invalid Examples.fresh stranger_config).
  { right. right. right. exists ["sarah"; "mallory"], "mallory".
    split; [ reflexivity | split; [ right; now left | reflexivity ] ]. }
  split; [ exact H | ].
  exact (proj1 (schedule_meeting_invalid_config
                  (Examples.env_at Examples.noon Examples.everyone)
                  stranger_config Examples.fresh H)).
Defined.

(** X20. What scheduling registers.  For a configuration that passes
    the validation and brings its own address, below the ceiling,
    [schedule_meeting] returns the identifier made of the second of the
    clock.  Under it the registry holds the record of the configuration, in
    state SCHEDULED, with the defaults of the duration (60) and of the
    transcription (the setting of the orchestrator) and with the platform
    text as given, unchecked; a record an earlier call left under that
    identifier is replaced, every other record stays.  One task is spawned:
    the delayed start if the start time lies ahead of the clock, the start
    at once otherwise.  No warning and no error is logged. *)
Theorem schedule_meeting_registers (env : Env) (config : MeetingConfig)
  (w : World) (t u : string) (ps : list string) (st : datetime) :
  cfg_title config = Some t ->
  cfg_participants config = Some ps ->
  cfg_start_time config = Some st ->
  (forall p, In p ps -> PyDict.mem (agents (self w)) p = true) ->
  cfg_meeting_url config = Some u ->
  truthy u = true ->
  (PyDict.len (active_meetings (self w)) < max_concurrent_meetings (self w))%Z ->
  let meeting_id := "meeting_" ++ strftime_Ymd_HMS (now env 0%nat) in
  let w' := snd (schedule_meeting env config w) in
  fst (schedule_meeting env config w) = Returns meeting_id /\
  record_of w' meeting_id = Some (scheduled_record env w config t u ps st) /\
  (forall x, x <> meeting_id -> record_of w' x = record_of w x) /\
  spawned (appended_to (trace w) (trace w'))
  = [if (now env 2%nat <? st)%Z
     then ScheduledStart meeting_id (st - now env 2%nat)%Z
     else Start meeting_id] /\
  log w' = log w.
Proof.
  intros Ht Hp Hs Hknown Hu Htruthy Hroom. cbv zeta.
  apply Z.ltb_lt in Hroom. rewrite Z.ltb_antisym in Hroom.
  apply negb_true_iff in Hroom.
  cbv beta iota zeta delta [schedule_meeting try_except bind].
  rewrite (validate_known config w t ps st Ht Hp Hs Hknown). cbn [negb].
  cbv beta iota delta [get]. rewrite Hroom, Hu, Htruthy.
  cbv beta iota delta [ret]. rewrite Htruthy. cbn [negb].
  rewrite Ht, Hp, Hs. cbv beta iota delta [expect ret update_self modify].
  assert (Hlt : (0 <? st - now env 2%nat)%Z = (now env 2%nat <? st)%Z).
  { destruct (Z.ltb_spec 0 (st - now env 2%nat)); destruct (Z.ltb_spec (now env 2%nat) st);
      try reflexivity; lia. }
  rewrite Hlt.
  destruct (now env 2%nat <? st)%Z; cbv beta iota delta [emit modify ret];
    cbn [fst snd trace log self];
    (split; [ reflexivity | ]);
    (split; [ unfold record_of; cbn [self active_meetings set_active_meetings];
              apply get_set_same | ]);
    (split; [ intros x Hx; unfold record_of;
              cbn [self active_meetings set_active_meetings];
              apply get_set_other; congruence | ]);
    (split; [ now rewrite appended_to_app | reflexivity ]).
Qed.

Lemma schedule_meeting_registers_witness :
  cfg_meeting_url teams_config = Some "https://teams.microsoft.com/l/meetup-join/19" /\
  (PyDict.len (active_meetings (self Examples.fresh))
   < max_concurrent_meetings (self Examples.fresh))%Z /\
  record_of capitalised Examples.standup_id
  = Some (scheduled_record (Examples.env_at Examples.noon Examples.everyone)
            Examples.fresh teams_config "Daily Standup"
            "https://teams.microsoft.com/l/meetup-join/19" ["sarah"; "bob"]
            Examples.noon) /\
  spawned (appended_to (trace Examples.fresh) (trace capitalised))
  = [Start Examples.standup_id].
Proof.
  assert (Hroom : (PyDict.len (active_meetings (self Examples.fresh))
                   < max_concurrent_meetings (self Examples.fresh))%Z)
    by (vm_compute; reflexivity).
  assert (Hknown : forall p, In p ["sarah"; "bob"] ->
                             PyDict.mem (agents (self Examples.fresh)) p = true).
  { intros p [<- | [<- | []]]; reflexivity. }
  pose proof (schedule_meeting_registers
                (Examples.env_at Examples.noon Examples.everyone) teams_config
                Examples.fresh "Daily Standup"
                "https://teams.microsoft.com/l/meetup-join/19" ["sarah"; "bob"]
                Examples.noon eq_refl eq_refl eq_refl Hknown eq_refl eq_refl Hroom) as H.
  cbv zeta in H. destruct H as [_ [H1 [_ [H2 _]]]].
  split; [ reflexivity | ]. split; [ exact Hroom | ].
  split; [ exact H1 | exact H2 ].
Defined.

End LifecycleProps.

(** * Properties of the platform manager *)

Module PlatformProps.
Import Py PyStr PyM Datetime Agents Orchestrator DictFacts StrFacts.
Import OrchestratorProps Lifecycle LifecycleProps PlatformManager.
Local Open Scope pym_scope.

Lemma contains_marker (marker url : string) :
  lower marker = marker ->
  contains marker (lower url) = true <-> occurs_ci marker url.
Proof. intros H. rewrite <- H at 1. apply contains_lower_spec. Qed.

(** X21. The platform of an address.  [_detect_platform_from_url] looks
    for four markers in the address, whatever the case of its letters, in a
    fixed order: an address with the Teams marker is a Teams address even if
    it also holds another marker; then Google Meet, Zoom and Webex follow;
    an address with none of them gets the preferred platform. *)
Theorem detect_platform_precedence (pm : MeetingPlatformManager) (url : string) :
  (occurs_ci "teams.microsoft.com" url -> _detect_platform_from_url pm url = TEAMS) /\
  (~ occurs_ci "teams.microsoft.com" url -> occurs_ci "meet.google.com" url ->
     _detect_platform_from_url pm url = GOOGLE_MEET) /\
  (~ occurs_ci "teams.microsoft.com" url -> ~ occurs_ci "meet.google.com" url ->
     occurs_ci "zoom.us" url -> _detect_platform_from_url pm url = ZOOM) /\
  (~ occurs_ci "teams.microsoft.com" url -> ~ occurs_ci "meet.google.com" url ->
     ~ occurs_ci "zoom.us" url -> occurs_ci "webex.com" url ->
     _detect_platform_from_url pm url = WEBEX) /\
  (~ occurs_ci "teams.microsoft.com" url -> ~ occurs_ci "meet.google.com" url ->
     ~ occurs_ci "zoom.us" url -> ~ occurs_ci "webex.com" url ->
     _detect_platform_from_url pm url = preferred_platform pm) /\
  _detect_platform_from_url pm (lower url) = _detect_platform_from_url pm url.
Proof.
  unfold _detect_platform_from_url. cbv zeta. rewrite lower_idem.
  pose proof (contains_marker "teams.microsoft.com" url eq_refl) as Ht.
  pose proof (contains_marker "meet.google.com" url eq_refl) as Hg.
  pose proof (contains_marker "zoom.us" url eq_refl) as Hz.
  pose proof (contains_marker "webex.com" url eq_refl) as Hw.
  destruct (contains "teams.microsoft.com" (lower url));
    [ | destruct (contains "meet.google.com" (lower url));
        [ | destruct (contains "zoom.us" (lower url));
            [ | destruct (contains "webex.com" (lower url)) ] ] ];
    repeat split; intros;
    repeat match goal with
           | H : ~ occurs_ci _ _ |- _ => rewrite <- ?Ht, <- ?Hg, <- ?Hz, <- ?Hw in H
           | H : occurs_ci _ _ |- _ => rewrite <- ?Ht, <- ?Hg, <- ?Hz, <- ?Hw in H
           end;
    try reflexivity; try congruence; try (exfalso; auto; fail).
Qed.

Lemma platform_eqb_eq (a b : MeetingPlatform) :
  MeetingPlatform_eqb a b = true <-> a = b.
Proof. destruct a, b; cbn; split; congruence. Qed.

(** A join that succeeds was routed to an available platform. *)
Lemma join_meeting_true_iff (io : Integrations) (pm : MeetingPlatformManager)
  (url agent_id : string) (platform : option MeetingPlatform) :
  (join_meeting io pm url agent_id platform = true
   <-> (join_platform pm url platform = TEAMS /\ teams_integration pm = true /\
        teams_join_meeting io url agent_id = Returns true) \/
       (join_platform pm url platform = GOOGLE_MEET /\
        google_meet_integration pm = true /\
        google_meet_join_meeting io url agent_id = Returns true)) /\
  (join_meeting io pm url agent_id platform = true ->
   is_platform_available pm (join_platform pm url platform) = true) /\
  (join_platform pm url platform = ZOOM \/ join_platform pm url platform = WEBEX ->
   join_meeting io pm url agent_id platform = false).
Proof.
  assert (Hiff : join_meeting io pm url agent_id platform = true
                 <-> (join_platform pm url platform = TEAMS /\ teams_integration pm = true /\
                      teams_join_meeting io url agent_id = Returns true) \/
                     (join_platform pm url platform = GOOGLE_MEET /\
                      google_meet_integration pm = true /\
                      google_meet_join_meeting io url agent_id = Returns true)).
  { unfold join_meeting. cbv zeta.
    destruct (join_platform pm url platform); cbn [MeetingPlatform_eqb andb];
      destruct (teams_integration pm); destruct (google_meet_integration pm);
      try destruct (teams_join_meeting io url agent_id) as [[] | ];
      try destruct (google_meet_join_meeting io url agent_id) as [[] | ];
      split; try discriminate; auto;
      try (intros [[H1 [H2 H3]] | [H1 [H2 H3]]]; congruence). }
  split; [ exact Hiff | ]. split.
  - intros H. apply Hiff in H as [[-> [Ht _]] | [-> [Hg _]]];
      unfold is_platform_available, get_available_platforms.
    + rewrite Ht. reflexivity.
    + rewrite Hg. destruct (teams_integration pm); reflexivity.
  - intros H. apply not_true_is_false. intros E.
    apply Hiff in E as [[E _] | [E _]]; destruct H as [H | H]; congruence.
Qed.

(** X22. Where a join is routed.  [join_meeting] answers true exactly
    when the platform it routes to, the one given or else the one read off
    the address, is Teams or Google Meet, the integration of that platform
    is there, and that integration answers true.  A Zoom or Webex meeting is
    never joined, whatever the integrations do, and neither is a meeting
    whose integration raises. *)
Theorem join_meeting_routes (io : Integrations) (pm : MeetingPlatformManager)
  (url agent_id : string) (platform : option MeetingPlatform) :
  (join_meeting io pm url agent_id platform = true
   <-> (join_platform pm url platform = TEAMS /\ teams_integration pm = true /\
        teams_join_meeting io url agent_id = Returns true) \/
       (join_platform pm url platform = GOOGLE_MEET /\
        google_meet_integration pm = true /\
        google_meet_join_meeting io url agent_id = Returns true)) /\
  (join_meeting io pm url agent_id platform = true ->
   is_platform_available pm (join_platform pm url platform) = true) /\
  (join_platform pm url platform = ZOOM \/ join_platform pm url platform = WEBEX ->
   join_meeting io pm url agent_id platform = false).
Proof. exact (join_meeting_true_iff io pm url agent_id platform). Qed.

(** X23. Meetings are created on Teams only.  [create_meeting] looks at
    the platform given or else at the preferred platform, never at an
    address.  It returns an address, that of the Teams integration, only for
    Teams with the Teams integration there; for Google Meet, Zoom and Webex,
    without the Teams integration, and when the integration raises, it
    returns the empty text. *)
Theorem create_meeting_only_on_teams (io : Integrations)
  (pm : MeetingPlatformManager) (title : string) (ps : list string)
  (st : datetime) (d : Z) (platform : option MeetingPlatform) :
  truthy (create_meeting io pm title ps st d platform) = true ->
  create_platform pm platform = TEAMS /\ teams_integration pm = true /\
  teams_create_meeting io title ps st d
  = Returns (create_meeting io pm title ps st d platform).
Proof.
  unfold create_meeting. cbv zeta.
  destruct (create_platform pm platform); cbn [MeetingPlatform_eqb andb];
    try (intros H; discriminate H).
  destruct (teams_integration pm); cbn [andb]; [ | intros H; discriminate H ].
  destruct (teams_create_meeting io title ps st d) as [url | e];
    [ | intros H; discriminate H ].
  intros _. repeat split.
Qed.

Lemma create_meeting_only_on_teams_witness :
  truthy (create_meeting obliging default_manager "Daily Standup" ["sarah"]
            Examples.noon 30%Z None) = true /\
  create_platform default_manager None = TEAMS /\
  teams_integration default_manager = true.
Proof.
  assert (H : truthy (create_meeting obliging default_manager "Daily Standup" ["sarah"]
                        Examples.noon 30%Z None) = true) by reflexivity.
  destruct (create_meeting_only_on_teams obliging default_manager "Daily Standup"
              ["sarah"] Examples.noon 30%Z None H) as [H1 [H2 _]].
  split; [ exact H | split; [ exact H1 | exact H2 ] ].
Defined.

Lemma enabled_platforms_spec (configured : option (list string)) (p : MeetingPlatform) :
  In p (_get_enabled_platforms configured)
  <-> exists name,
        In name (match configured with Some l => l | None => ["teams"; "google_meet"] end) /\
        MeetingPlatform_of (lower name) = Some p.
Proof.
  unfold _get_enabled_platforms. cbv zeta. rewrite in_flat_map. split.
  - intros [name [Hin Hp]]. exists name. split; [ exact Hin | ].
    destruct (MeetingPlatform_of (lower name)) as [q | ]; [ | destruct Hp ].
    destruct Hp as [-> | []]. reflexivity.
  - intros [name [Hin Hp]]. exists name. split; [ exact Hin | ].
    rewrite Hp. now left.
Qed.

Lemma existsb_platform (p : MeetingPlatform) (l : list MeetingPlatform) :
  existsb (MeetingPlatform_eqb p) l = true <-> In p l.
Proof.
  rewrite existsb_exists. split.
  - intros [q [Hin Hq]]. apply platform_eqb_eq in Hq. now subst q.
  - intros Hin. exists p. split; [ exact Hin | now apply platform_eqb_eq ].
Qed.

(** X24. What is available after the initialisation.  The names of the
    configuration are read whatever the case of their letters; a name that
    is no platform is skipped, an unknown preferred platform falls back to
    Teams.  After [initialize] a platform is available exactly when it is
    Teams or Google Meet, it is enabled, and the constructor of its
    integration returned: an integration whose own initialisation raised
    counts as available, and Zoom and Webex never are, enabled or not. *)
Theorem available_after_initialize (io : Integrations) (preferred : option string)
  (enabled : option (list string)) :
  let pm := initialize io (new preferred enabled) in
  (is_platform_available pm TEAMS = true
   <-> In TEAMS (_get_enabled_platforms enabled) /\ teams_new io = Returns tt) /\
  (is_platform_available pm GOOGLE_MEET = true
   <-> In GOOGLE_MEET (_get_enabled_platforms enabled) /\
       google_meet_new io = Returns tt) /\
  is_platform_available pm ZOOM = false /\
  is_platform_available pm WEBEX = false /\
  (forall p, In p (_get_enabled_platforms enabled)
             <-> exists name,
                   In name (match enabled with
                            | Some l => l
                            | None => ["teams"; "google_meet"]
                            end) /\
                   MeetingPlatform_of (lower name) = Some p) /\
  preferred_platform pm
  = match MeetingPlatform_of
            (lower (match preferred with Some n => n | None => "teams" end)) with
    | Some p => p
    | None => TEAMS
    end.
Proof.
  intros pm.
  assert (Ht : teams_integration pm
               = existsb (MeetingPlatform_eqb TEAMS) (_get_enabled_platforms enabled)
                 && match teams_new io with Returns _ => true | Raises _ => false end).
  { unfold pm, initialize, new, _initialize_teams_integration,
      _initialize_google_meet_integration. cbv zeta.
    cbn [enabled_platforms].
    destruct (existsb (MeetingPlatform_eqb TEAMS) (_get_enabled_platforms enabled));
      destruct (teams_new io); destruct (teams_initialize io);
      cbn [enabled_platforms teams_integration andb];
      destruct (existsb (MeetingPlatform_eqb GOOGLE_MEET) (_get_enabled_platforms enabled));
      destruct (google_meet_new io); destruct (google_meet_initialize io);
      reflexivity. }
  assert (Hg : google_meet_integration pm
               = existsb (MeetingPlatform_eqb GOOGLE_MEET) (_get_enabled_platforms enabled)
                 && match google_meet_new io with Returns _ => true | Raises _ => false end).
  { unfold pm, initialize, new, _initialize_teams_integration,
      _initialize_google_meet_integration. cbv zeta.
    cbn [enabled_platforms].
    destruct (existsb (MeetingPlatform_eqb TEAMS) (_get_enabled_platforms enabled));
      destruct (teams_new io); destruct (teams_initialize io);
      cbn [enabled_platforms google_meet_integration andb];
      destruct (existsb (MeetingPlatform_eqb GOOGLE_MEET) (_get_enabled_platforms enabled));
      destruct (google_meet_new io); destruct (google_meet_initialize io);
      reflexivity. }
  assert (Hp : preferred_platform pm = _get_preferred_platform preferred).
  { unfold pm, initialize, new, _initialize_teams_integration,
      _initialize_google_meet_integration. cbv zeta.
    cbn [enabled_platforms].
    destruct (existsb (MeetingPlatform_eqb TEAMS) (_get_enabled_platforms enabled));
      destruct (teams_new io); destruct (teams_initialize io);
      cbn [enabled_platforms preferred_platform];
      destruct (existsb (MeetingPlatform_eqb GOOGLE_MEET) (_get_enabled_platforms enabled));
      destruct (google_meet_new io); destruct (google_meet_initialize io);
      reflexivity. }
  unfold is_platform_available, get_available_platforms.
  split; [ | split; [ | split; [ | split; [ | split ] ] ] ].
  - rewrite <- existsb_platform, Ht.
    destruct (existsb (MeetingPlatform_eqb TEAMS) (_get_enabled_platforms enabled));
      destruct (teams_new io) as [[] | e]; cbn [andb app existsb MeetingPlatform_eqb orb];
      destruct (google_meet_integration pm); cbn; split; try tauto;
      try (intros [H1 H2]; discriminate); try discriminate.
  - rewrite <- existsb_platform, Hg.
    destruct (existsb (MeetingPlatform_eqb GOOGLE_MEET) (_get_enabled_platforms enabled));
      destruct (google_meet_new io) as [[] | e];
      cbn [andb app existsb MeetingPlatform_eqb orb];
      destruct (teams_integration pm); cbn; split; try tauto;
      try (intros [H1 H2]; discriminate); try discriminate.
  - destruct (teams_integration pm); destruct (google_meet_integration pm); reflexivity.
  - destruct (teams_integration pm); destruct (google_meet_integration pm); reflexivity.
  - intros p. apply enabled_platforms_spec.
  - exact Hp.
Qed.

(** *** The orchestrator with this platform manager *)

(** X25. A meeting on a platform that is not available cannot start.
    Let the platform manager of the orchestrator be this class.  The
    platform of a scheduled meeting is the one its platform text names or,
    without such a text, the one read off its address.  If that platform is
    not available, as Zoom and Webex never are, or if the text names no
    platform, then [start_meeting] returns false and the meeting is FAILED,
    whatever the integrations would answer. *)
Theorem unavailable_platform_never_starts (io : Integrations)
  (pm : MeetingPlatformManager) (base : Env) (mid : string) (w : World)
  (m : MeetingRecord) :
  record_of w mid = Some m ->
  state m = SCHEDULED ->
  (forall p, platform_of_record pm m = Some p -> is_platform_available pm p = false) ->
  fst (start_meeting (with_platform_manager io pm base) mid w) = Returns false /\
  record_of (snd (start_meeting (with_platform_manager io pm base) mid w)) mid
  = Some (set_state FAILED m).
Proof.
  intros Hm Hs Hun.
  assert (Hoff : forall url a pe,
             is_platform_available pm (join_platform pm url pe) = false ->
             join_meeting io pm url a pe = false).
  { intros url a pe H. apply not_true_is_false. intros E.
    apply (proj1 (proj2 (join_meeting_true_iff io pm url a pe))) in E. congruence. }
  assert (Hnone : let_in (with_platform_manager io pm base) w m = []).
  { destruct (let_in (with_platform_manager io pm base) w m) as [ | a l] eqn:E;
      [ reflexivity | exfalso ].
    assert (Ha : In a (let_in (with_platform_manager io pm base) w m))
      by (rewrite E; now left).
    apply let_in_spec in Ha as [_ [_ [_ Hans]]].
    unfold join_answer in Hans. cbn [Orchestrator.join_meeting with_platform_manager] in Hans.
    unfold platform_of_record in Hun.
    destruct (platform_manager (self w)); [ | discriminate Hans ]. cbn [andb] in Hans.
    destruct (platform m) as [p | ]; [ destruct (truthy p) | ].
    - destruct (MeetingPlatform_of p) as [pe | ]; [ | discriminate Hans ].
      rewrite (Hoff (meeting_url m) a (Some pe)) in Hans; [ discriminate Hans | ].
      apply Hun. reflexivity.
    - rewrite (Hoff (meeting_url m) a None) in Hans; [ discriminate Hans | ].
      apply Hun. reflexivity.
    - rewrite (Hoff (meeting_url m) a None) in Hans; [ discriminate Hans | ].
      apply Hun. reflexivity. }
  destruct (start_meeting_exact (with_platform_manager io pm base) mid w m Hm Hs)
    as [delta [lines ->]].
  rewrite Hnone. cbn [fst snd]. now rewrite record_of_after.
Qed.

Lemma unavailable_platform_never_starts_witness :
  exists m,
    record_of zoom_scheduled Examples.standup_id = Some m /\
    state m = SCHEDULED /\
    platform_of_record default_manager m = Some ZOOM /\
    is_platform_available default_manager ZOOM = false /\
    fst (start_meeting
           (with_platform_manager obliging default_manager
              (Examples.env_at (Examples.noon + Examples.second)%Z Examples.everyone))
           Examples.standup_id zoom_scheduled) = Returns false.
Proof.
  assert (Hm : exists m, record_of zoom_scheduled Examples.standup_id = Some m /\
                         state m = SCHEDULED /\
                         platform_of_record default_manager m = Some ZOOM).
  { eexists. repeat split; vm_compute; reflexivity. }
  destruct Hm as [m [Hm [Hs Hp]]].
  assert (Hun : forall p, platform_of_record default_manager m = Some p ->
                          is_platform_available default_manager p = false).
  { intros p H. rewrite Hp in H. injection H as <-. reflexivity. }
  exists m. split; [ exact Hm | split; [ exact Hs | split; [ exact Hp | ] ] ].
  split; [ reflexivity | ].
  exact (proj1 (unavailable_platform_never_starts obliging default_manager
                  (Examples.env_at (Examples.noon + Examples.second)%Z Examples.everyone)
                  Examples.standup_id zoom_scheduled m Hm Hs Hun)).
Defined.

Lemma create_meeting_elsewhere (io : Integrations) (pm : MeetingPlatformManager)
  (title : string) (ps : list string) (st : datetime) (d : Z)
  (platform : option MeetingPlatform) :
  create_platform pm platform <> TEAMS \/ teams_integration pm = false ->
  create_meeting io pm title ps st d platform = "".
Proof.
  unfold create_meeting. cbv zeta. intros [H | H].
  - destruct (create_platform pm platform); cbn [MeetingPlatform_eqb andb];
      try reflexivity. now contradiction H.
  - rewrite H, andb_false_r. destruct (MeetingPlatform_eqb _ GOOGLE_MEET); reflexivity.
Qed.

Lemma create_url_empty (io : Integrations) (pm : MeetingPlatformManager) (base : Env)
  (config : MeetingConfig) (w : World) :
  platform_manager (self w) = false \/
  platform_of_config pm config <> Some TEAMS \/
  teams_integration pm = false ->
  exists w1 d,
    _create_meeting_url (with_platform_manager io pm base) config w = (Returns "", w1) /\
    self w1 = self w /\ trace w1 = (trace w ++ d)%list /\ spawned d = [].
Proof.
  intros Hcause.
  cbv beta iota delta [_create_meeting_url try_except bind get].
  destruct (platform_manager (self w)) eqn:Epm; cbn [negb].
  2:{ exists w, []. unfold ret. rewrite app_nil_r. repeat split. }
  destruct Hcause as [H | Hcause]; [ discriminate H | ].
  rewrite platform_enum_of_eq. unfold platform_of_config in Hcause.
  assert (Hraise : forall e : PyExc,
             exists w1 d,
               (let (o, s') := (@Raises string e, w) in
                match o with
                | Returns a => (Returns a, s')
                | Raises _ =>
                    (let (o0, s'0) := logger ERROR "Error creating meeting URL" s' in
                     match o0 with
                     | Returns _ => ret "" s'0
                     | Raises e0 => (Raises e0, s'0)
                     end)
                end) = (Returns "", w1) /\
               self w1 = self w /\ trace w1 = (trace w ++ d)%list /\ spawned d = []).
  { intros e. eexists. exists []. cbv beta iota delta [logger modify ret].
    rewrite app_nil_r. repeat split. }
  assert (Hcall : forall pe,
             create_platform pm pe <> TEAMS \/ teams_integration pm = false ->
             exists w1 d,
               (let (o, s') :=
                  (let (o, s') := expect KeyError (cfg_title config) w in
                   match o with
                   | Returns title =>
                       (let (o0, s'0) := expect KeyError (cfg_participants config) s' in
                        match o0 with
                        | Returns ps =>
                            (let (o1, s'1) := expect KeyError (cfg_start_time config) s'0 in
                             match o1 with
                             | Returns start =>
                                 (let (o2, s'2) :=
                                    emit (EvCreateMeeting title
                                            (Orchestrator.create_meeting
                                               (with_platform_manager io pm base)
                                               title ps start
                                               match cfg_duration_minutes config with
                                               | Some d => d
                                               | None => 60%Z
                                               end pe)) s'1 in
                                  match o2 with
                                  | Returns _ =>
                                      ret (Orchestrator.create_meeting
                                             (with_platform_manager io pm base)
                                             title ps start
                                             match cfg_duration_minutes config with
                                             | Some d => d
                                             | None => 60%Z
                                             end pe) s'2
                                  | Raises e => (Raises e, s'2)
                                  end)
                             | Raises e => (Raises e, s'1)
                             end)
                        | Raises e => (Raises e, s'0)
                        end)
                   | Raises e => (Raises e, s')
                   end) in
                match o with
                | Returns a => (Returns a, s')
                | Raises _ =>
                    (let (o0, s'0) := logger ERROR "Error creating meeting URL" s' in
                     match o0 with
                     | Returns _ => ret "" s'0
                     | Raises e0 => (Raises e0, s'0)
                     end)
                end) = (Returns "", w1) /\
               self w1 = self w /\ trace w1 = (trace w ++ d)%list /\ spawned d = []).
  { intros pe Hpe.
    destruct (cfg_title config) as [t | ]; [ | apply (Hraise KeyError) ].
    destruct (cfg_participants config) as [ps | ]; [ | apply (Hraise KeyError) ].
    destruct (cfg_start_time config) as [st | ]; [ | apply (Hraise KeyError) ].
    cbn [expect ret with_platform_manager Orchestrator.create_meeting].
    rewrite (create_meeting_elsewhere io pm t ps st _ pe Hpe).
    eexists. exists [EvCreateMeeting t ""]. cbv beta iota delta [ret emit modify].
    repeat split. }
  destruct (cfg_platform config) as [p | ]; [ destruct (truthy p) | ].
  - destruct (MeetingPlatform_of p) as [pe | ]; [ | apply (Hraise ValueError) ].
    apply (Hcall (Some pe)). destruct Hcause as [H | H]; [ left | now right ].
    cbn [create_platform]. congruence.
  - apply (Hcall None). destruct Hcause as [H | H]; [ left | now right ].
    cbn [create_platform]. congruence.
  - apply (Hcall None). destruct Hcause as [H | H]; [ left | now right ].
    cbn [create_platform]. congruence.
Qed.

(** X26. Without an address, only Teams meetings are scheduled.  Let the
    platform manager of the orchestrator be this class.  A configuration
    without address (the key missing, or empty) is created on the platform
    its platform text names or, without such a text, on the preferred one.
    Unless that platform is Teams, with the Teams integration there and the
    platform manager set, [schedule_meeting] returns the empty identifier,
    registers nothing and spawns nothing: a Google Meet meeting cannot be
    scheduled without its address. *)
Theorem schedule_without_address_needs_teams (io : Integrations)
  (pm : MeetingPlatformManager) (base : Env) (config : MeetingConfig) (w : World) :
  cfg_meeting_url config = None \/ cfg_meeting_url config = Some "" ->
  platform_manager (self w) = false \/
  platform_of_config pm config <> Some TEAMS \/
  teams_integration pm = false ->
  let w' := snd (schedule_meeting (with_platform_manager io pm base) config w) in
  fst (schedule_meeting (with_platform_manager io pm base) config w) = Returns "" /\
  self w' = self w /\
  spawned (appended_to (trace w) (trace w')) = [].
Proof.
  intros Hurl Hcause w'. unfold w'. clear w'.
  assert (Hv : exists (b : bool) lines,
            _validate_meeting_config config w = (Returns b, logged w lines)).
  { unfold _validate_meeting_config.
    destruct (cfg_title config); [ | eexists; eexists; reflexivity ].
    destruct (cfg_participants config) as [ps | ]; [ | eexists; eexists; reflexivity ].
    destruct (cfg_start_time config); [ | eexists; eexists; reflexivity ].
    cbv beta iota delta [bind get].
    destruct (find _ ps); [ eexists; eexists; reflexivity | ].
    exists true, []. unfold ret, logged. rewrite app_nil_r. now destruct w. }
  destruct Hv as [b [lines Hv]].
  assert (Hsame : spawned (appended_to (trace w) (trace w)) = []).
  { rewrite <- (app_nil_r (trace w)) at 2. now rewrite appended_to_app. }
  unfold schedule_meeting, try_except. cbv zeta.
  rewrite (bind_returns _ _ _ _ _ Hv).
  destruct b; cbn [negb]; [ | cbn; repeat split; exact Hsame ].
  rewrite (bind_returns _ _ _ _ _ (get_eq (logged w lines))).
  change (self (logged w lines)) with (self w).
  destruct (max_concurrent_meetings (self w) <=? PyDict.len (active_meetings (self w)))%Z;
    [ cbn; repeat split; exact Hsame | ].
  destruct (create_url_empty io pm base config (logged w lines) Hcause)
    as [w1 [d [E [Hself [Htrace Hspawn]]]]].
  assert (Hstep : (match cfg_meeting_url config with
                   | Some u => if truthy u then ret u
                               else _create_meeting_url (with_platform_manager io pm base)
                                      config
                   | None => _create_meeting_url (with_platform_manager io pm base) config
                   end) (logged w lines) = (Returns "", w1)).
  { destruct Hurl as [-> | ->]; exact E. }
  rewrite (bind_returns _ _ _ _ _ Hstep).
  change (negb (truthy "")) with true. cbv iota.
  cbv beta iota delta [bind logger modify ret].
  cbn [fst snd self trace]. rewrite Hself, Htrace. cbn [self trace logged].
  rewrite appended_to_app. repeat split. exact Hspawn.
Qed.

Lemma schedule_without_address_needs_teams_witness :
  cfg_meeting_url meet_config = None /\
  platform_of_config default_manager meet_config <> Some TEAMS /\
  fst (schedule_meeting
         (with_platform_manager obliging default_manager
            (Examples.env_at Examples.noon Examples.everyone))
         meet_config Examples.fresh) = Returns "".
Proof.
  assert (Hp : platform_of_config default_manager meet_config <> Some TEAMS)
    by (vm_compute; discriminate).
  split; [ reflexivity | split; [ exact Hp | ] ].
  exact (proj1 (schedule_without_address_needs_teams obliging default_manager
                  (Examples.env_at Examples.noon Examples.everyone) meet_config
                  Examples.fresh (or_introl eq_refl) (or_intror (or_introl Hp)))).
Defined.

End PlatformProps.

(** * Properties of the speech manager *)

Module SpeechProps.
Import Py PyStr PyM Datetime Orchestrator DictFacts SpeechManager.
Local Open Scope pym_scope.

Lemma provider_eqb_eq (a b : SpeechProvider) : SpeechProvider_eqb a b = true <-> a = b.
Proof. destruct a, b; cbn; split; congruence. Qed.

Lemma available_integration (m : SpeechProcessingManager) (p : SpeechProvider) :
  is_provider_available m p = integration m p.
Proof.
  unfold is_provider_available, get_available_providers.
  destruct p; cbn [integration];
    destruct (azure_integration m); destruct (google_integration m);
    destruct (whisper_integration m); reflexivity.
Qed.

(** X27. The choice of a provider.  If any provider is available,
    [_select_best_provider] returns an available one: the preferred provider
    if that is available, otherwise the first available of Azure, Google
    Cloud and Whisper; if none is, it returns the preferred one.
    [_select_fallback_provider] returns an available provider other than the
    preferred one, the first in that order, and returns [None] exactly when
    the preferred provider is the only one that could be available. *)
Theorem provider_selection (m : SpeechProcessingManager) :
  ((exists p, is_provider_available m p = true) ->
   is_provider_available m (_select_best_provider m) = true) /\
  (is_provider_available m (preferred_provider m) = true ->
   _select_best_provider m = preferred_provider m) /\
  ((forall p, is_provider_available m p = false) ->
   _select_best_provider m = preferred_provider m) /\
  (is_provider_available m (preferred_provider m) = false ->
   forall p, is_provider_available m p = true ->
   find (is_provider_available m) [AZURE; GOOGLE_CLOUD; OPENAI_WHISPER]
   = Some (_select_best_provider m)) /\
  (forall p, _select_fallback_provider m = Some p ->
             p <> preferred_provider m /\ is_provider_available m p = true) /\
  (_select_fallback_provider m = None
   <-> forall p, is_provider_available m p = true -> p = preferred_provider m).
Proof.
  destruct m as [a g w pref en fb act].
  unfold _select_best_provider, _select_fallback_provider, is_provider_available,
    get_available_providers.
  cbn [azure_integration google_integration whisper_integration preferred_provider].
  split; [ | split; [ | split; [ | split; [ | split ] ] ] ].
  - intros [p Hp].
    destruct a, g, w, pref, p; cbn in *; try reflexivity; discriminate Hp.
  - intros ->. reflexivity.
  - intros Hnone.
    pose proof (Hnone AZURE) as Ha. pose proof (Hnone GOOGLE_CLOUD) as Hg.
    pose proof (Hnone OPENAI_WHISPER) as Hw.
    destruct a, g, w, pref; cbn in *; try reflexivity;
      try discriminate Ha; try discriminate Hg; discriminate Hw.
  - intros Hpref p Hp.
    destruct a, g, w, pref, p; cbn in *; try reflexivity;
      try discriminate Hp; discriminate Hpref.
  - intros p Hp.
    destruct a, g, w, pref, p; cbn in *; try discriminate Hp;
      (split; [ discriminate | reflexivity ]).
  - split.
    + intros Hnone p Hp.
      destruct a, g, w, pref, p; cbn in *; try reflexivity;
        try discriminate Hnone; discriminate Hp.
    + intros Honly.
      pose proof (Honly AZURE) as Ha. pose proof (Honly GOOGLE_CLOUD) as Hg.
      pose proof (Honly OPENAI_WHISPER) as Hw.
      destruct a, g, w, pref; cbn in *; try reflexivity;
        try (specialize (Ha eq_refl); discriminate Ha);
        try (specialize (Hg eq_refl); discriminate Hg);
        try (specialize (Hw eq_refl); discriminate Hw).
Qed.

Lemma settle_available (m : SpeechProcessingManager) (provider : option SpeechProvider)
  (p : SpeechProvider) :
  settle m provider = Some p -> integration m p = true.
Proof.
  unfold settle. cbv zeta. rewrite available_integration.
  destruct (integration m (match provider with
                           | Some p0 => p0
                           | None => _select_best_provider m
                           end)) eqn:E; cbn [negb].
  - intros [= <-]. exact E.
  - destruct (fallback_enabled m); [ | discriminate ].
    intros H. rewrite <- available_integration.
    destruct m as [a g w pref en fb act].
    unfold _select_fallback_provider, is_provider_available, get_available_providers in *.
    cbn [azure_integration google_integration whisper_integration preferred_provider] in *.
    destruct a, g, w, pref, p; cbn in *; try reflexivity; discriminate H.
Qed.

(** The studio after a start that the integration of [p] confirmed. *)
Lemma start_eq (io : Services) (mid : string) (provider : option SpeechProvider)
  (s : Studio) :
  start_meeting_transcription io mid provider s
  = if PyDict.mem (active_transcriptions (manager s)) mid then (Returns true, s)
    else
      match settle (manager s) provider with
      | None => (Returns false, s)
      | Some p =>
          match starts io p mid with
          | Returns true =>
              (Returns true,
               {| manager :=
                    set_active_transcriptions
                      (PyDict.set (active_transcriptions (manager s)) mid
                         {| info_provider := p; info_start_time := clock io 0%nat |})
                      (manager s);
                  calls := (calls s ++ [StartCall p mid])%list |})
          | _ =>
              (Returns false,
               {| manager := manager s; calls := (calls s ++ [StartCall p mid])%list |})
          end
      end.
Proof.
  cbv beta iota delta [start_meeting_transcription try_except bind get].
  destruct (PyDict.mem (active_transcriptions (manager s)) mid); [ reflexivity | ].
  destruct (settle (manager s) provider) as [p | ] eqn:Es; [ | reflexivity ].
  rewrite (settle_available _ _ _ Es).
  cbv beta iota delta [call modify lift].
  destruct (starts io p mid) as [[ | ] | e]; reflexivity.
Qed.

(** X28. Starting a transcription.  [start_meeting_transcription] never
    raises.  For a meeting that is already transcribed it returns true and
    does nothing, not even a call to an integration.  Otherwise it returns
    true exactly when it settles on a provider and the integration of that
    provider answers true; the meeting is then registered with that
    provider, which is an available one.  When it returns false it has
    registered nothing.  Without a request for a provider it succeeds
    exactly when some provider is available and the best one starts. *)
Theorem start_meeting_transcription_outcomes (io : Services) (mid : string)
  (provider : option SpeechProvider) (s : Studio) :
  let r := start_meeting_transcription io mid provider s in
  (exists b, fst r = Returns b) /\
  (PyDict.mem (active_transcriptions (manager s)) mid = true -> r = (Returns true, s)) /\
  (PyDict.mem (active_transcriptions (manager s)) mid = false ->
     (fst r = Returns true
      <-> exists p, settle (manager s) provider = Some p /\
                    starts io p mid = Returns true) /\
     (fst r = Returns true ->
      exists info,
        PyDict.get (active_transcriptions (manager (snd r))) mid = Some info /\
        settle (manager s) provider = Some (info_provider info) /\
        is_provider_available (manager s) (info_provider info) = true /\
        calls (snd r) = (calls s ++ [StartCall (info_provider info) mid])%list) /\
     (provider = None ->
      (fst r = Returns true
       <-> (exists p, is_provider_available (manager s) p = true) /\
           starts io (_select_best_provider (manager s)) mid = Returns true))) /\
  (fst r = Returns false ->
   active_transcriptions (manager (snd r)) = active_transcriptions (manager s)).
Proof.
  intros r. unfold r. rewrite start_eq.
  destruct (PyDict.mem (active_transcriptions (manager s)) mid) eqn:Em.
  - split; [ now exists true | ]. split; [ reflexivity | ].
    split; [ discriminate | discriminate ].
  - assert (Hbest : provider = None ->
              settle (manager s) provider
              = if is_provider_available (manager s) (_select_best_provider (manager s))
                then Some (_select_best_provider (manager s)) else None).
    { intros ->. unfold settle. cbv zeta.
      destruct (is_provider_available (manager s) (_select_best_provider (manager s)))
        eqn:Eb; cbn [negb]; [ reflexivity | ].
      destruct (fallback_enabled (manager s)); [ | reflexivity ].
      destruct (manager s) as [a g w pref en fb act].
      unfold _select_fallback_provider, _select_best_provider, is_provider_available,
        get_available_providers in *.
      cbn [azure_integration google_integration whisper_integration preferred_provider]
        in *.
      destruct a, g, w, pref; cbn in *; try reflexivity; discriminate Eb. }
    destruct (settle (manager s) provider) as [p | ] eqn:Es.
    + pose proof (settle_available _ _ _ Es) as Hav.
      destruct (starts io p mid) as [[ | ] | e] eqn:Est; cbn [fst snd manager calls].
      * split; [ now exists true | ]. split; [ discriminate | ].
        split; [ | discriminate ].
        split; [ split; [ intros _; now exists p | reflexivity ] | ].
        split.
        -- intros _. eexists. split; [ apply get_set_same | ].
           cbn [info_provider]. split; [ reflexivity | ].
           split; [ now rewrite available_integration | reflexivity ].
        -- intros Hp. specialize (Hbest Hp).
           destruct (is_provider_available (manager s)
                       (_select_best_provider (manager s))) eqn:Eb;
             [ | discriminate Hbest ].
           injection Hbest as Hbest. rewrite <- Hbest.
           split; [ intros _ | reflexivity ].
           split; [ exists p; rewrite available_integration; exact Hav | exact Est ].
      * split; [ now exists false | ]. split; [ discriminate | ].
        split; [ | reflexivity ].
        split; [ split; [ discriminate | intros [q [[= <-] Hq]]; congruence ] | ].
        split; [ discriminate | ].
        intros Hp. specialize (Hbest Hp).
        destruct (is_provider_available (manager s)
                    (_select_best_provider (manager s))) eqn:Eb;
          [ | discriminate Hbest ].
        injection Hbest as Hbest. rewrite <- Hbest.
        split; [ discriminate | intros [_ Hgo]; congruence ].
      * split; [ now exists false | ]. split; [ discriminate | ].
        split; [ | reflexivity ].
        split; [ split; [ discriminate | intros [q [[= <-] Hq]]; congruence ] | ].
        split; [ discriminate | ].
        intros Hp. specialize (Hbest Hp).
        destruct (is_provider_available (manager s)
                    (_select_best_provider (manager s))) eqn:Eb;
          [ | discriminate Hbest ].
        injection Hbest as Hbest. rewrite <- Hbest.
        split; [ discriminate | intros [_ Hgo]; congruence ].
    + cbn [fst snd]. split; [ now exists false | ]. split; [ discriminate | ].
      split; [ | reflexivity ].
      split; [ split; [ discriminate | intros [q [Hq0 _]]; discriminate Hq0 ] | ].
      split; [ discriminate | ].
      intros Hp. specialize (Hbest Hp). split; [ discriminate | ].
      intros [[q Hq] _]. exfalso.
      destruct (is_provider_available (manager s) (_select_best_provider (manager s)))
        eqn:Eb; [ discriminate Hbest | ].
      clear Hbest Es.
      destruct (manager s) as [a g w pref en fb act].
      unfold _select_best_provider, is_provider_available, get_available_providers in *.
      cbn [azure_integration google_integration whisper_integration preferred_provider]
        in *.
      destruct a, g, w, pref, q; cbn in *; try discriminate Eb; discriminate Hq.
Qed.

(** X29. A request for a provider that is not there.  When the
    provider asked for is not available, the fallback never takes the
    preferred provider: if the preferred provider is the only one
    available, [start_meeting_transcription] returns false, calls no
    integration and registers nothing, with the fallback enabled or not,
    although the same call without a request would settle on the preferred
    provider. *)
Theorem unavailable_request_ignores_preferred (io : Services) (mid : string)
  (p : SpeechProvider) (s : Studio) :
  PyDict.mem (active_transcriptions (manager s)) mid = false ->
  is_provider_available (manager s) p = false ->
  is_provider_available (manager s) (preferred_provider (manager s)) = true ->
  (forall q, is_provider_available (manager s) q = true ->
             q = preferred_provider (manager s)) ->
  start_meeting_transcription io mid (Some p) s = (Returns false, s) /\
  settle (manager s) None = Some (preferred_provider (manager s)) /\
  (starts io (preferred_provider (manager s)) mid = Returns true ->
   fst (start_meeting_transcription io mid None s) = Returns true).
Proof.
  intros Hm Hp Hpref Honly.
  assert (Hs : settle (manager s) (Some p) = None).
  { unfold settle. cbv zeta. rewrite Hp. cbn [negb].
    destruct (fallback_enabled (manager s)); [ | reflexivity ].
    pose proof (Honly AZURE) as Ha. pose proof (Honly GOOGLE_CLOUD) as Hg.
    pose proof (Honly OPENAI_WHISPER) as Hw.
    destruct (manager s) as [a g w pref en fb act].
    unfold _select_fallback_provider, is_provider_available, get_available_providers in *.
    cbn [azure_integration google_integration whisper_integration preferred_provider]
      in *.
    destruct a, g, w, pref; cbn in *; try reflexivity;
      try (specialize (Ha eq_refl); discriminate Ha);
      try (specialize (Hg eq_refl); discriminate Hg);
      try (specialize (Hw eq_refl); discriminate Hw). }
  assert (Hn : settle (manager s) None = Some (preferred_provider (manager s))).
  { unfold settle, _select_best_provider. cbv zeta. rewrite Hpref, Hpref. reflexivity. }
  split; [ rewrite start_eq, Hm, Hs; reflexivity | ].
  split; [ exact Hn | ].
  intros Hst. rewrite start_eq, Hm, Hn, Hst. reflexivity.
Qed.

Lemma unavailable_request_ignores_preferred_witness :
  is_provider_available (manager azure_studio) GOOGLE_CLOUD = false /\
  is_provider_available (manager azure_studio) (preferred_provider (manager azure_studio))
  = true /\
  start_meeting_transcription only_azure "meeting_20261104_120000" (Some GOOGLE_CLOUD)
    azure_studio = (Returns false, azure_studio) /\
  fst (start_meeting_transcription only_azure "meeting_20261104_120000" None azure_studio)
  = Returns true.
Proof.
  assert (Honly : forall q, is_provider_available (manager azure_studio) q = true ->
                            q = preferred_provider (manager azure_studio)).
  { intros [ | | ] H; [ reflexivity | discriminate H | discriminate H ]. }
  destruct (unavailable_request_ignores_preferred only_azure "meeting_20261104_120000"
              GOOGLE_CLOUD azure_studio eq_refl eq_refl eq_refl Honly) as [H1 [_ H2]].
  split; [ reflexivity | ]. split; [ reflexivity | ].
  split; [ exact H1 | exact (H2 eq_refl) ].
Defined.

Lemma remove_set_new {V : Type} (d : PyDict.t V) (k : string) (v : V) :
  PyDict.get d k = None -> remove (PyDict.set d k v) k = d.
Proof.
  induction d as [ | [k0 v0] d IH]; cbn [PyDict.set PyDict.get remove].
  - intros _. now rewrite String.eqb_refl.
  - destruct (String.eqb k0 k) eqn:E; [ discriminate | ].
    intros H. cbn [remove]. rewrite E. now rewrite IH.
Qed.

Lemma get_remove_other {V : Type} (d : PyDict.t V) (k x : string) :
  x <> k -> PyDict.get (remove d k) x = PyDict.get d x.
Proof.
  intros Hne. induction d as [ | [k0 v0] d IH]; cbn [PyDict.get remove]; [ reflexivity | ].
  destruct (String.eqb_spec k0 k) as [-> | Hk].
  - destruct (String.eqb_spec k x) as [<- | _]; [ now contradiction Hne | reflexivity ].
  - cbn [PyDict.get]. destruct (String.eqb k0 x); [ reflexivity | exact IH ].
Qed.

Lemma stop_eq (io : Services) (mid : string) (s : Studio) :
  stop_meeting_transcription io mid s
  = (Returns tt,
     match PyDict.get (active_transcriptions (manager s)) mid with
     | None => s
     | Some info =>
         if integration (manager s) (info_provider info)
         then
           match stops io (info_provider info) mid with
           | Returns _ =>
               {| manager :=
                    set_active_transcriptions
                      (remove (active_transcriptions (manager s)) mid) (manager s);
                  calls := (calls s ++ [StopCall (info_provider info) mid])%list |}
           | Raises _ =>
               {| manager := manager s;
                  calls := (calls s ++ [StopCall (info_provider info) mid])%list |}
           end
         else
           {| manager :=
                set_active_transcriptions
                  (remove (active_transcriptions (manager s)) mid) (manager s);
              calls := calls s |}
     end).
Proof.
  cbv beta iota delta [stop_meeting_transcription try_except bind get].
  destruct (PyDict.get (active_transcriptions (manager s)) mid) as [info | ];
    [ | reflexivity ].
  cbv zeta. destruct (integration (manager s) (info_provider info)); cbn [when].
  - cbv beta iota delta [bind call modify lift].
    destruct (stops io (info_provider info) mid) as [[] | e]; reflexivity.
  - reflexivity.
Qed.

(** X30. Stopping a transcription.  [stop_meeting_transcription] never
    raises and touches no other meeting.  For a meeting that is not
    transcribed it does nothing.  Otherwise it asks the integration of the
    registered provider to stop and forgets the meeting, unless that
    integration raises: then the meeting stays registered, and a later
    start for it is answered true without anything being started.  A start
    that succeeded for a meeting not transcribed before, followed by a stop
    that returns, leaves the registry as it was. *)
Theorem stop_meeting_transcription_outcomes (io : Services) (mid : string)
  (s : Studio) :
  let s' := snd (stop_meeting_transcription io mid s) in
  fst (stop_meeting_transcription io mid s) = Returns tt /\
  (forall x, x <> mid ->
     PyDict.get (active_transcriptions (manager s')) x
     = PyDict.get (active_transcriptions (manager s)) x) /\
  (PyDict.get (active_transcriptions (manager s)) mid = None -> s' = s) /\
  (forall info,
     PyDict.get (active_transcriptions (manager s)) mid = Some info ->
     integration (manager s) (info_provider info) = true ->
     calls s' = (calls s ++ [StopCall (info_provider info) mid])%list /\
     (forall e, stops io (info_provider info) mid = Raises e ->
        active_transcriptions (manager s') = active_transcriptions (manager s) /\
        forall provider,
          start_meeting_transcription io mid provider s' = (Returns true, s')) /\
     (stops io (info_provider info) mid = Returns tt ->
        active_transcriptions (manager s')
        = remove (active_transcriptions (manager s)) mid)) /\
  (forall provider p,
     PyDict.get (active_transcriptions (manager s)) mid = None ->
     settle (manager s) provider = Some p ->
     starts io p mid = Returns true ->
     stops io p mid = Returns tt ->
     let started := snd (start_meeting_transcription io mid provider s) in
     active_transcriptions (manager (snd (stop_meeting_transcription io mid started)))
     = active_transcriptions (manager s) /\
     calls (snd (stop_meeting_transcription io mid started))
     = (calls s ++ [StartCall p mid; StopCall p mid])%list).
Proof.
  intros s'. unfold s'. rewrite stop_eq. cbn [fst snd].
  split; [ reflexivity | ]. split; [ | split; [ | split ] ].
  - intros x Hx.
    destruct (PyDict.get (active_transcriptions (manager s)) mid) as [info | ];
      [ | reflexivity ].
    destruct (integration (manager s) (info_provider info));
      [ destruct (stops io (info_provider info) mid) | ];
      cbn [manager active_transcriptions set_active_transcriptions];
      try reflexivity; now apply get_remove_other.
  - intros ->. reflexivity.
  - intros info Hi Hint. rewrite Hi, Hint.
    split; [ destruct (stops io (info_provider info) mid); reflexivity | ].
    split.
    + intros e He. rewrite He. cbn [manager]. split; [ reflexivity | ].
      intros provider. rewrite start_eq. cbn [manager].
      unfold PyDict.mem. now rewrite Hi.
    + intros Hst. rewrite Hst. reflexivity.
  - intros provider p Hnone Hs Hst Hsp. cbv zeta.
    assert (Hm : PyDict.mem (active_transcriptions (manager s)) mid = false)
      by (unfold PyDict.mem; now rewrite Hnone).
    rewrite start_eq, Hm, Hs, Hst. cbn [snd]. rewrite stop_eq. cbn [snd manager calls].
    cbn [active_transcriptions set_active_transcriptions].
    rewrite get_set_same. cbn [info_provider].
    assert (Hint : integration
                     (set_active_transcriptions
                        (PyDict.set (active_transcriptions (manager s)) mid
                           {| info_provider := p; info_start_time := clock io 0%nat |})
                        (manager s)) p = true).
    { rewrite <- (settle_available _ _ _ Hs). destruct p; reflexivity. }
    rewrite Hint, Hsp.
    cbn [manager calls active_transcriptions set_active_transcriptions].
    rewrite remove_set_new by exact Hnone. rewrite <- app_assoc. split; reflexivity.
Qed.

End SpeechProps.
